(** * WEB-for-ALL: the bias detection and mitigation pipeline

    A shallow embedding of the background modules of the extension
    ([privacyHandler.js], [mlModelManager.js], [biasDetection.js],
    [biasMitigation.js], [biasDetectionSystem.js],
    [intersectionalAnalysis.js]) and the properties of them that the
    specification states, followed by further properties of the same
    modules, read off the code.

    Conventions of the embedding.
    - A JavaScript number is an exact rational, or one of [NaN],
      [Infinity], [-Infinity] (type [number]); rounding of doubles is not
      modelled.
    - A JavaScript object used as a dictionary is a [gmap string _], the
      properties of its own; an object spread [{...a, ...b}] is the union
      that prefers [b].  Where the code reads or assigns a key it takes
      from its input, the members inherited from [Object.prototype] are
      accounted for ([read], [assign]).
    - What the engine reads a string as and prints a number as, where the
      code converts a value it takes from its input, are parameters.
    - A method that reports [{success: false, error}] returns [Failure];
      an exception is the [Throw] case of [completion].
    - The clock ([new Date().toISOString()]) and the network ([fetch]) are
      explicit arguments. Console output is not part of the state. *)

From Stdlib Require Import QArith Qminmax Lqa ZArith Lia List Ascii String DecimalString DecimalNat.
From stdpp Require Import gmap strings.

Set Warnings "-register-all".
#[local] Open Scope string_scope.

(** ** JavaScript values *)
Module JS.

Inductive number :=
| Fin (q : Q)
| PosInf
| NegInf
| NaN.

Inductive value :=
| VUndefined
| VNull
| VBool (b : bool)
| VNum (n : number)
| VStr (s : string)
| VArr (l : list value)
| VObj (o : gmap string value)
| VPromise (v : value).

(** *** Arithmetic on numbers

    The sign of zero is not modelled. *)

Definition Qsign (q : Q) : comparison := (q ?= 0)%Q.

Definition nneg (a : number) : number :=
  match a with
  | Fin q => Fin (- q)%Q
  | PosInf => NegInf
  | NegInf => PosInf
  | NaN => NaN
  end.

Definition nadd (a b : number) : number :=
  match a, b with
  | NaN, _ | _, NaN => NaN
  | Fin p, Fin q => Fin (p + q)%Q
  | PosInf, NegInf | NegInf, PosInf => NaN
  | PosInf, _ | _, PosInf => PosInf
  | NegInf, _ | _, NegInf => NegInf
  end.

Definition nsub (a b : number) : number := nadd a (nneg b).

Definition signed_infinity (s : comparison) : number :=
  match s with
  | Gt => PosInf
  | Lt => NegInf
  | Eq => NaN
  end.

Definition nsign (a : number) : comparison :=
  match a with
  | Fin q => Qsign q
  | PosInf => Gt
  | NegInf => Lt
  | NaN => Eq
  end.

Definition sign_mul (s t : comparison) : comparison :=
  match s, t with
  | Eq, _ | _, Eq => Eq
  | Gt, Gt | Lt, Lt => Gt
  | _, _ => Lt
  end.

Definition nmul (a b : number) : number :=
  match a, b with
  | NaN, _ | _, NaN => NaN
  | Fin p, Fin q => Fin (p * q)%Q
  | _, _ => signed_infinity (sign_mul (nsign a) (nsign b))
  end.

Definition ndiv (a b : number) : number :=
  match a, b with
  | NaN, _ | _, NaN => NaN
  | Fin p, Fin q =>
      if Qeq_bool q 0 then signed_infinity (Qsign p) else Fin (p / q)%Q
  | Fin _, _ => Fin 0
  | _, Fin q =>
      if Qeq_bool q 0 then a else signed_infinity (sign_mul (nsign a) (Qsign q))
  | _, _ => NaN
  end.

Definition Qlt_bool (p q : Q) : bool :=
  match (p ?= q)%Q with
  | Lt => true
  | _ => false
  end.

(** [a < b] and [a > b]: false as soon as one side is [NaN]. *)
Definition nlt (a b : number) : bool :=
  match a, b with
  | NaN, _ | _, NaN => false
  | Fin p, Fin q => Qlt_bool p q
  | NegInf, NegInf => false
  | NegInf, _ => true
  | _, PosInf => match a with PosInf => false | _ => true end
  | _, _ => false
  end.

Definition ngt (a b : number) : bool := nlt b a.

(** [a <= b]. *)
Definition nle (a b : number) : bool :=
  match a, b with
  | NaN, _ | _, NaN => false
  | Fin p, Fin q => Qle_bool p q
  | NegInf, _ => true
  | _, PosInf => true
  | _, _ => false
  end.

Definition nmin (a b : number) : number :=
  match a, b with
  | NaN, _ | _, NaN => NaN
  | NegInf, _ | _, NegInf => NegInf
  | PosInf, x | x, PosInf => x
  | Fin p, Fin q => Fin (Qmin p q)
  end.

Definition nmax (a b : number) : number :=
  match a, b with
  | NaN, _ | _, NaN => NaN
  | PosInf, _ | _, PosInf => PosInf
  | NegInf, x | x, NegInf => x
  | Fin p, Fin q => Fin (Qmax p q)
  end.

(** [Math.min(...l)] and [Math.max(...l)]. *)
Definition Math_min (l : list number) : number := foldr nmin PosInf l.
Definition Math_max (l : list number) : number := foldr nmax NegInf l.

(** [Math.pow(a, 3)]. *)
Definition cube (a : number) : number := nmul a (nmul a a).

Definition of_nat (n : nat) : number := Fin (inject_Z (Z.of_nat n)).

(** Normal or abrupt completion of an expression. *)
Inductive completion (A : Type) :=
| Ok (a : A)
| Throw (message : string).
Arguments Ok {A} a.
Arguments Throw {A} message.

Definition bind {A B} (c : completion A) (k : A -> completion B) : completion B :=
  match c with
  | Ok a => k a
  | Throw e => Throw e
  end.

#[global] Instance completion_ret : MRet completion := @Ok.
#[global] Instance completion_bind : MBind completion := fun A B k c => bind c k.

(** What the methods of the background modules hand back:
    [{success: true, ...payload}] or [{success: false, error}]. *)
Inductive response (A : Type) :=
| Success (payload : A)
| Failure (error : string).
Arguments Success {A} payload.
Arguments Failure {A} error.

Definition nullish (v : value) : bool :=
  match v with
  | VUndefined | VNull => true
  | _ => false
  end.

(** [ToBoolean]. *)
Definition truthy (v : value) : bool :=
  match v with
  | VUndefined | VNull => false
  | VBool b => b
  | VNum (Fin q) => negb (Qeq_bool q 0)
  | VNum NaN => false
  | VNum _ => true
  | VStr s => negb (String.eqb s EmptyString)
  | VArr _ | VObj _ | VPromise _ => true
  end.

(** [a || b]. *)
Definition or_else (a b : value) : value := if truthy a then a else b.

(** Decimal numerals, as template literals print a natural number and as
    [Number] reads it back.  [Number] is modelled on the strings a version
    is made of: a run of decimal digits (the empty run is [0]), and a
    component that is no numeral, such as ['NaN'], which reads as [NaN],
    here [None].  The numbers are those doubles hold exactly, the integers
    up to 2^53; signs, fractions, exponents and blanks, which [Number]
    also reads, are left out. *)
Definition print_nat (n : nat) : string := NilZero.string_of_uint (Nat.to_uint n).

Definition Number (s : string) : option nat :=
  match NilEmpty.uint_of_string s with
  | Some d => Some (Nat.of_uint d)
  | None => None
  end.

Definition print_number (n : option nat) : string :=
  match n with
  | Some k => print_nat k
  | None => "NaN"
  end.

(** [s.split(sep)] for a one-character separator. *)
Fixpoint split (sep : ascii) (s : string) : list string :=
  match s with
  | EmptyString => [EmptyString]
  | String c s' =>
      if Ascii.eqb c sep then EmptyString :: split sep s'
      else match split sep s' with
           | piece :: pieces => String c piece :: pieces
           | [] => [String c EmptyString]
           end
  end.

Definition string_of_char (c : ascii) : string := String c EmptyString.

Fixpoint indexed {A} (i : nat) (l : list A) : list (string * A) :=
  match l with
  | [] => []
  | x :: l' => (print_nat i, x) :: indexed (S i) l'
  end.

(** The own enumerable properties an object spread copies. *)
Definition own_properties (v : value) : gmap string value :=
  match v with
  | VObj o => o
  | VArr l => list_to_map (indexed 0 l)
  | VStr s =>
      list_to_map
        (indexed 0 (map (fun c => VStr (string_of_char c)) (list_ascii_of_string s)))
  | _ => ∅
  end.

(** [{...a, ...b}]. *)
Definition spread (a b : gmap string value) : gmap string value := b ∪ a.

Definition TypeError_read (base : value) (prop : string) : string :=
  "Cannot read properties of "
  ++ (match base with VNull => "null" | _ => "undefined" end)
  ++ " (reading '" ++ prop ++ "')".

(** [base.prop]: a [TypeError] on [null] and [undefined].  The built-in
    properties of primitives and arrays are not among the ones read here. *)
Definition get (base : value) (prop : string) : completion value :=
  match base with
  | VUndefined | VNull => Throw (TypeError_read base prop)
  | VObj o => Ok (default VUndefined (o !! prop))
  | _ => Ok VUndefined
  end.

(** [base?.prop]. *)
Definition get_opt (base : value) (prop : string) : value :=
  match base with
  | VObj o => default VUndefined (o !! prop)
  | _ => VUndefined
  end.

(** *** Objects and [Object.prototype] *)

(** The names an object literal inherits from [Object.prototype]. *)
Definition Object_prototype : list string :=
  ["constructor"; "__defineGetter__"; "__defineSetter__"; "hasOwnProperty";
   "__lookupGetter__"; "__lookupSetter__"; "isPrototypeOf"; "propertyIsEnumerable";
   "toString"; "valueOf"; "__proto__"; "toLocaleString"].

Definition inherited (key : string) : bool := bool_decide (key ∈ Object_prototype).

(** What [obj[key]] is, for an object literal [obj] that is filled with
    values of one kind: a value of its own; a member of [Object.prototype]
    (a function, and for [__proto__] the prototype itself); or
    [undefined]. *)
Inductive property (A : Type) :=
| Own (a : A)
| Inherited
| Missing.
Arguments Own {A} a.
Arguments Inherited {A}.
Arguments Missing {A}.

Definition read {A} (obj : gmap string A) (key : string) : property A :=
  match obj !! key with
  | Some a => Own a
  | None => if inherited key then Inherited else Missing
  end.

(** [obj[key] = a].  Under the key [__proto__] the assignment runs the
    setter of [Object.prototype], which makes an object the new prototype
    and ignores any other value: in both cases the object gets no property
    of its own. *)
Definition assign {A} (obj : gmap string A) (key : string) (a : A) : gmap string A :=
  if String.eqb key "__proto__" then obj else <[key := a]> obj.

(** A loop over the keys of [obj] that fills a fresh object:
    [for (const key in obj) target[key] = f(key, obj[key])], or the same
    with [Object.keys(obj).forEach]. *)
Definition assign_each {A B} (f : string -> A -> B) (obj : gmap string A)
  : gmap string B :=
  map_fold (fun key a target => assign target key (f key a)) ∅ obj.

(** *** Conversions

    What the engine reads a string as ([StringToNumber]) and prints a
    number as ([Number::toString]) is taken from the engine. *)
Section Conversions.

Variable StringToNumber : string -> number.
Variable NumberToString : number -> string.

(** [ToString].  An array is the join of its elements, [undefined] and
    [null] counting as empty.  An object is converted by its [toString] or
    else its [valueOf]: a property [toString] of its own, which is no
    function here, hides the inherited one, and the inherited [valueOf]
    returns the object itself, so the conversion is a [TypeError]. *)
Fixpoint ToString (v : value) : completion string :=
  match v with
  | VUndefined => Ok "undefined"
  | VNull => Ok "null"
  | VBool b => Ok (if b then "true" else "false")
  | VNum n => Ok (NumberToString n)
  | VStr s => Ok s
  | VArr l =>
      pieces ← (fix each (l : list value) : completion (list string) :=
                  match l with
                  | [] => Ok []
                  | x :: rest =>
                      piece ← match x with
                              | VUndefined | VNull => Ok EmptyString
                              | _ => ToString x
                              end;
                      others ← each rest;
                      Ok (piece :: others)
                  end) l;
      Ok (String.concat "," pieces)
  | VObj o =>
      if bool_decide (is_Some (o !! "toString"))
      then Throw "Cannot convert object to primitive value"
      else Ok "[object Object]"
  | VPromise _ => Ok "[object Promise]"
  end.

(** [ToNumber], as the comparison [frequency <= 5] applies it.  An array,
    an object or a promise is first converted to a primitive, which is the
    string [ToString] gives: the inherited [valueOf] returns no
    primitive. *)
Definition ToNumber (v : value) : completion number :=
  match v with
  | VUndefined => Ok NaN
  | VNull => Ok (Fin 0)
  | VBool b => Ok (if b then Fin 1 else Fin 0)
  | VNum n => Ok n
  | VStr s => Ok (StringToNumber s)
  | VArr _ | VObj _ | VPromise _ => s ← ToString v; Ok (StringToNumber s)
  end.

End Conversions.

(** *** Facts about the conventions above *)

Lemma assign_lookup {A} (obj : gmap string A) key a k :
  assign obj key a !! k
  = if decide (k = key)
    then (if String.eqb key "__proto__" then obj !! key else Some a)
    else obj !! k.
Proof.
  unfold assign. destruct (String.eqb key "__proto__") eqn:E.
  - destruct (decide (k = key)) as [->|]; reflexivity.
  - rewrite lookup_insert. destruct (decide (k = key)) as [->|Hne];
      [rewrite decide_True by reflexivity|rewrite decide_False by congruence];
      reflexivity.
Qed.

Lemma of_nat_succ k : nadd (of_nat k) (Fin 1) = of_nat (S k).
Proof.
  unfold of_nat, nadd, Qplus, inject_Z. cbn [Qnum Qden]. f_equal.
  change (1 * 1)%positive with 1%positive. f_equal. lia.
Qed.

Lemma assign_each_lookup {A B} (f : string -> A -> B) (obj : gmap string A) key :
  assign_each f obj !! key
  = if String.eqb key "__proto__" then None else f key <$> obj !! key.
Proof.
  unfold assign_each. revert key.
  apply (map_fold_weak_ind
           (fun (target : gmap string B) (obj : gmap string A) =>
              forall key, target !! key
                = if String.eqb key "__proto__" then None else f key <$> obj !! key)).
  - intros key. rewrite !lookup_empty. destruct (String.eqb key "__proto__"); reflexivity.
  - intros i a m target Hnone IH key. rewrite assign_lookup.
    destruct (decide (key = i)) as [->|Hne].
    + destruct (String.eqb i "__proto__") eqn:E.
      * specialize (IH i). rewrite E in IH. exact IH.
      * rewrite lookup_insert_eq. reflexivity.
    + rewrite lookup_insert_ne by congruence. apply IH.
Qed.

Lemma proto_is_inherited key : inherited key = false -> String.eqb key "__proto__" = false.
Proof.
  intros H. destruct (String.eqb key "__proto__") eqn:E; [|reflexivity].
  apply String.eqb_eq in E. subst key. vm_compute in H. discriminate.
Qed.

(** [Math.min] of arguments one of which is [NaN]. *)
Lemma Math_min_NaN l : NaN ∈ l -> Math_min l = NaN.
Proof.
  induction l as [|x l IH]; [inversion 1|].
  intros Hin. change (Math_min (x :: l)) with (nmin x (Math_min l)).
  apply elem_of_cons in Hin as [<-|Hin]; [reflexivity|].
  rewrite (IH Hin). destruct x; reflexivity.
Qed.

End JS.

(** ** privacyHandler.js *)
Module PrivacyHandler.
Import JS.

(** [this.privacySettings], as the constructor leaves it. *)
Definition constructor : gmap string value :=
  list_to_map [("dataRetentionDays", VNum (Fin 30));
               ("anonymizationLevel", VStr "high");
               ("consentStatus", VBool false)].

(** The steps of the pipeline a request enters, in order; kept beside the
    result so that what a request did not do can be stated. *)
Inductive step :=
| ApplyPrivacyMeasures
| ExtractContext
| DetectBias
| TrackPerformance
| AnalyzeIntersections.

Section Anonymization.

(** [crypto.subtle.digest('SHA-256', new TextEncoder().encode(identifier))]
    in hexadecimal. *)
Variable sha256_hex : value -> string.

(** The digest is computed asynchronously: the result is the promise. *)
Definition hashIdentifier (identifier : value) : value :=
  VPromise (VStr (sha256_hex identifier)).

Definition generalizeLocation (location : value) : completion value :=
  country ← get location "country";
  timezone ← get location "timezone";
  Ok (VObj (list_to_map [("region", country); ("timezone", timezone)])).

(** What the engine reads a string as and prints a number as, for the
    conversion that a comparison with a number applies. *)
Variable StringToNumber : string -> number.
Variable NumberToString : number -> string.

(** Each of the two comparisons converts [frequency]. *)
Definition generalizeFrequency (frequency : value) : completion string :=
  n ← ToNumber StringToNumber NumberToString frequency;
  if nle n (Fin 5) then Ok "low"
  else
    n ← ToNumber StringToNumber NumberToString frequency;
    if nle n (Fin 20) then Ok "medium" else Ok "high".

(** [Object.keys] throws on [null] and [undefined].  The fold visits the
    keys in the order of the map, not in insertion order; the object built
    is the same.  [VObj] holds the properties an object has of its own:
    the prototype that [acc['__proto__'] = {...}] gives the result is not
    part of it. *)
Definition processFeatures (features : value) : completion value :=
  if nullish features then Throw "Cannot convert undefined or null to object"
  else
    acc ← map_fold (fun feature entry (acc : completion (gmap string value)) =>
              acc ← acc;
              used ← get entry "used";
              frequency ← get entry "frequency";
              bucket ← generalizeFrequency frequency;
              Ok (assign acc feature
                    (VObj (list_to_map [("used", used); ("frequency", VStr bucket)]))))
           (Ok ∅) (own_properties features);
    Ok (VObj acc).

Definition applyPrivacyMeasures (data : value) : completion value :=
  userIdentifiers ← get data "userIdentifiers";
  let anonymized : gmap string value :=
    if truthy userIdentifiers
    then <["userHash" := hashIdentifier userIdentifiers]> ∅
    else ∅ in
  location ← get data "location";
  anonymized ← (if truthy location
                then region ← generalizeLocation location;
                     Ok (<["region" := region]> anonymized)
                else Ok anonymized);
  features ← get data "features";
  anonymized ← (if truthy features
                then processed ← processFeatures features;
                     Ok (<["features" := processed]> anonymized)
                else Ok anonymized);
  Ok (VObj anonymized).

(** [processData] never throws: the [catch] turns every exception into
    [{success: false, error}]. *)
Definition processData (data : value) (privacySettings : gmap string value)
  : response value * list step :=
  if negb (truthy (default VUndefined (privacySettings !! "consentStatus")))
  then (Failure "User consent not provided", [])
  else match applyPrivacyMeasures data with
       | Ok processedData => (Success processedData, [ApplyPrivacyMeasures])
       | Throw e => (Failure e, [ApplyPrivacyMeasures])
       end.

End Anonymization.

(** Returns the new [this.privacySettings] and the response, whose
    [settings] is that same object. *)
Definition updateSettings (settings : value) (privacySettings : gmap string value)
  : gmap string value * response (gmap string value) :=
  let merged := spread privacySettings (own_properties settings) in
  (merged, Success merged).

Definition getSettings (privacySettings : gmap string value)
  : response (gmap string value) :=
  Success privacySettings.

(** C10. [updateSettings] stores the spread of the stored settings and the
    argument: a field the argument has takes the argument's value, every
    other field (so each of [dataRetentionDays], [anonymizationLevel],
    [consentStatus] that the argument lacks) keeps its value, and the
    response is [{success: true, settings}] with exactly the stored
    result, which [getSettings] then returns. *)
Theorem updateSettings_merges (settings : gmap string value)
    (privacySettings : gmap string value) :
  let (stored, reply) := updateSettings (VObj settings) privacySettings in
  reply = Success stored
  /\ getSettings stored = reply
  /\ (forall field, settings !! field = None ->
        stored !! field = privacySettings !! field)
  /\ (forall field v, settings !! field = Some v -> stored !! field = Some v).
Proof.
  simpl. unfold spread. repeat split.
  - intros field Hnone. rewrite lookup_union_r; [reflexivity|exact Hnone].
  - intros field v Hsome. apply lookup_union_Some_l. exact Hsome.
Qed.

Example updateSettings_consent :
  (updateSettings (VObj {[ "consentStatus" := VBool true ]}) constructor).1
  = list_to_map [("dataRetentionDays", VNum (Fin 30));
                 ("anonymizationLevel", VStr "high");
                 ("consentStatus", VBool true)].
Proof. vm_compute. reflexivity. Qed.

End PrivacyHandler.

(** ** mlModelManager.js *)
Module MLModelManager.
Import JS.

Record ModelMetadata := {
  version : string;
  lastUpdated : string;
  parameters : value;
  performance : gmap string value
}.

(** The two [Map]s of the manager.  [this.currentModelVersion] is assigned
    once, in the constructor, and is the constant below. *)
Record Manager := {
  models : gmap string value;
  modelMetadata : gmap string ModelMetadata
}.

Definition currentModelVersion : string := "1.0.0".

Definition constructor : Manager := {| models := ∅; modelMetadata := ∅ |}.

(** How the request [fetch(`https://api.example.com/models/${modelId}`)]
    followed by [response.json()] ends. *)
Inductive FetchOutcome :=
| FetchRejected (message : string)
| FetchNotOk (statusText : string)
| FetchBadJson (message : string)
| FetchOk (body : value).

Definition fetch_failed (f : FetchOutcome) : bool :=
  match f with
  | FetchOk _ => false
  | _ => true
  end.

Definition getFallbackModelData (modelId : string) (modelConfig : value) : completion value :=
  bind (get modelConfig "parameters") (fun parameters =>
  Ok (VObj (list_to_map [
    ("id", VStr modelId);
    ("name", VStr ("Fallback " ++ modelId));
    ("version", VStr currentModelVersion);
    ("type", or_else (get_opt parameters "type") (VStr "default"));
    ("features", or_else (get_opt parameters "features") (VArr []));
    ("fallbackMode", VBool true);
    ("capabilities", VObj (list_to_map [
        ("textProcessing", VBool true);
        ("imageAnalysis", VBool false);
        ("audioProcessing", VBool false)]))]))).

Definition initializeModel (fetched : FetchOutcome) (now : string)
    (modelId : string) (modelConfig : value) (m : Manager)
  : Manager * response string :=
  match get modelConfig "parameters" with
  | Throw e => (m, Failure e)
  | Ok params =>
      let metadata := {| version := currentModelVersion; lastUpdated := now;
                         parameters := params; performance := ∅ |} in
      let modelData :=
        match fetched with
        | FetchOk body => Ok body
        | _ => getFallbackModelData modelId modelConfig
        end in
      match modelData with
      | Throw e => (m, Failure e)
      | Ok data =>
          ({| modelMetadata := <[modelId := metadata]> (modelMetadata m);
              models := <[modelId := VObj (<["data" := data]>
                                             (own_properties modelConfig))]> (models m) |},
           Success modelId)
      end
  end.

(** [${part}] for a component of the destructured array: where the array
    has no element, the component is [undefined] and is printed as such. *)
Definition print_component (part : option (option nat)) : string :=
  match part with
  | Some component => print_number component
  | None => "undefined"
  end.

(** [patch + 1] is [NaN] for a patch that is [undefined] or [NaN].  The
    components are natural numbers: the code counts in doubles, which are
    these numbers, with the same numerals, below 2^53. *)
Definition incrementVersion (version : string) : string :=
  let parts := map Number (split "." version) in
  let major := parts !! 0%nat in
  let minor := parts !! 1%nat in
  let patch := parts !! 2%nat in
  print_component major ++ "." ++ print_component minor ++ "."
  ++ print_number (S <$> mjoin patch).

(** [metadata] is the object held by the map, so the new version and
    timestamp are stored the moment they are assigned, before
    [newModelConfig.parameters] is read. *)
Definition updateModel (now : string) (modelId : string) (newModelConfig : value)
    (m : Manager) : Manager * response string :=
  match models m !! modelId with
  | None => (m, Failure "Model not found")
  | Some _ =>
      match modelMetadata m !! modelId with
      | None => (m, Failure (TypeError_read VUndefined "version"))
      | Some metadata =>
          let bumped := {| version := incrementVersion (version metadata);
                           lastUpdated := now;
                           parameters := parameters metadata;
                           performance := performance metadata |} in
          match get newModelConfig "parameters" with
          | Throw e =>
              ({| models := models m;
                  modelMetadata := <[modelId := bumped]> (modelMetadata m) |},
               Failure e)
          | Ok params =>
              let metadata' := {| version := version bumped;
                                  lastUpdated := lastUpdated bumped;
                                  parameters := params;
                                  performance := performance bumped |} in
              ({| models := <[modelId := newModelConfig]> (models m);
                  modelMetadata := <[modelId := metadata']> (modelMetadata m) |},
               Success (version metadata'))
          end
      end
  end.

Definition trackPerformance (now : string) (modelId : string) (metrics : value)
    (m : Manager) : Manager * response unit :=
  match modelMetadata m !! modelId with
  | None => (m, Failure (TypeError_read VUndefined "performance"))
  | Some metadata =>
      let metadata' := {| version := version metadata;
                          lastUpdated := lastUpdated metadata;
                          parameters := parameters metadata;
                          performance := <[now := metrics]> (performance metadata) |} in
      ({| models := models m;
          modelMetadata := <[modelId := metadata']> (modelMetadata m) |},
       Success tt)
  end.

Record VersionHistory := {
  currentVersion : string;
  history_lastUpdated : string;
  history_performance : gmap string value
}.

Definition getVersionHistory (modelId : string) (m : Manager) : response VersionHistory :=
  match modelMetadata m !! modelId with
  | None => Failure ("Model metadata not found for ID: " ++ modelId)
  | Some metadata =>
      Success {| currentVersion := version metadata;
                 history_lastUpdated := lastUpdated metadata;
                 history_performance := performance metadata |}
  end.

(** The states the manager can be in: every sequence of calls on a freshly
    constructed manager. *)
Inductive reachable : Manager -> Prop :=
| reachable_constructor : reachable constructor
| reachable_initializeModel m fetched now modelId modelConfig :
    reachable m -> reachable (initializeModel fetched now modelId modelConfig m).1
| reachable_updateModel m now modelId newModelConfig :
    reachable m -> reachable (updateModel now modelId newModelConfig m).1
| reachable_trackPerformance m now modelId metrics :
    reachable m -> reachable (trackPerformance now modelId metrics m).1.

(** A version as the specification reads it. *)
Definition semver (major minor patch : nat) : string :=
  print_nat major ++ "." ++ print_nat minor ++ "." ++ print_nat patch.

Definition parse_semver (v : string) : option (nat * nat * nat) :=
  match map Number (split "." v) with
  | [Some major; Some minor; Some patch] => Some (major, minor, patch)
  | _ => None
  end.

Definition semver_lt (v w : nat * nat * nat) : Prop :=
  let '(a, b, c) := v in
  let '(a', b', c') := w in
  a < a' \/ (a = a' /\ (b < b' \/ (b = b' /\ c < c'))).

Definition version_lt (v w : string) : Prop :=
  match parse_semver v, parse_semver w with
  | Some x, Some y => semver_lt x y
  | _, _ => False
  end.

(** *** Decimal numerals and versions *)

Fixpoint occurs (c : ascii) (s : string) : bool :=
  match s with
  | EmptyString => false
  | String c' s' => Ascii.eqb c' c || occurs c s'
  end.

Lemma split_without_separator sep s :
  occurs sep s = false -> split sep s = [s].
Proof.
  induction s as [|c s IH]; simpl; [reflexivity|].
  destruct (Ascii.eqb c sep); simpl; [discriminate|].
  intros H. rewrite (IH H). reflexivity.
Qed.

Lemma split_at_separator sep s rest :
  occurs sep s = false ->
  split sep (s ++ String sep rest) = s :: split sep rest.
Proof.
  induction s as [|c s IH]; simpl.
  - intros _. rewrite Ascii.eqb_refl. reflexivity.
  - destruct (Ascii.eqb c sep); simpl; [discriminate|].
    intros H. rewrite (IH H). reflexivity.
Qed.

Lemma numeral_has_no_dot d : occurs "." (NilEmpty.string_of_uint d) = false.
Proof. induction d; simpl; auto. Qed.

Lemma print_nat_has_no_dot n : occurs "." (print_nat n) = false.
Proof.
  unfold print_nat, NilZero.string_of_uint.
  destruct (Nat.to_uint n); try apply numeral_has_no_dot. reflexivity.
Qed.

Lemma Number_print_nat n : Number (print_nat n) = Some n.
Proof.
  unfold Number, print_nat, NilZero.string_of_uint.
  pose proof (Unsigned.of_to n) as Hn.
  destruct (Nat.to_uint n) eqn:E;
    try (rewrite NilEmpty.usu; f_equal; exact Hn).
  rewrite <- Hn. reflexivity.
Qed.

Lemma split_semver a b c :
  split "." (semver a b c) = [print_nat a; print_nat b; print_nat c].
Proof.
  change (semver a b c)
    with (print_nat a ++ String "." (print_nat b ++ String "." (print_nat c))).
  rewrite (split_at_separator "." (print_nat a)) by apply print_nat_has_no_dot.
  rewrite (split_at_separator "." (print_nat b)) by apply print_nat_has_no_dot.
  rewrite split_without_separator by apply print_nat_has_no_dot.
  reflexivity.
Qed.

Lemma incrementVersion_semver a b c :
  incrementVersion (semver a b c) = semver a b (S c).
Proof.
  unfold incrementVersion. rewrite split_semver. simpl.
  rewrite !Number_print_nat. reflexivity.
Qed.

Lemma parse_semver_semver a b c : parse_semver (semver a b c) = Some (a, b, c).
Proof.
  unfold parse_semver. rewrite split_semver. simpl.
  rewrite !Number_print_nat. reflexivity.
Qed.

Lemma version_lt_patch a b c : version_lt (semver a b c) (semver a b (S c)).
Proof.
  unfold version_lt. rewrite !parse_semver_semver. simpl. lia.
Qed.

Example incrementVersion_1_0_9 : incrementVersion "1.0.9" = "1.0.10".
Proof. reflexivity. Qed.

(** *** The registry invariant *)

(** Every model has metadata, and every stored version is a bump of
    ["1.0.0"]. *)
Definition well_formed (m : Manager) : Prop :=
  (forall modelId, is_Some (models m !! modelId) -> is_Some (modelMetadata m !! modelId))
  /\ (forall modelId md, modelMetadata m !! modelId = Some md ->
        exists patch, version md = semver 1 0 patch).

Lemma well_formed_insert m modelId model md patch :
  well_formed m ->
  version md = semver 1 0 patch ->
  well_formed {| models := <[modelId := model]> (models m);
                 modelMetadata := <[modelId := md]> (modelMetadata m) |}.
Proof.
  intros [Hdom Hver] Hmd. split; simpl.
  - intros i. rewrite !lookup_insert. case_decide; eauto.
  - intros i md'. rewrite lookup_insert. case_decide; [|eauto].
    intros [= <-]. eauto.
Qed.

Lemma well_formed_insert_metadata m modelId md patch :
  well_formed m ->
  version md = semver 1 0 patch ->
  well_formed {| models := models m;
                 modelMetadata := <[modelId := md]> (modelMetadata m) |}.
Proof.
  intros [Hdom Hver] Hmd. split; simpl.
  - intros i Hi. rewrite lookup_insert. case_decide; eauto.
  - intros i md'. rewrite lookup_insert. case_decide; [|eauto].
    intros [= <-]. eauto.
Qed.

Lemma reachable_well_formed m : reachable m -> well_formed m.
Proof.
  induction 1 as [|m fetched now modelId cfg _ IH|m now modelId cfg _ IH
                 |m now modelId metrics _ IH].
  - split; simpl; intros i; [intros [x Hx]|intros md Hx];
      rewrite lookup_empty in Hx; discriminate.
  - unfold initializeModel.
    destruct (get cfg "parameters") as [params|e]; simpl; [|exact IH].
    destruct (match fetched with FetchOk body => Ok body
              | _ => getFallbackModelData modelId cfg end) as [data|e];
      simpl; [|exact IH].
    apply (well_formed_insert _ _ _ _ 0); [exact IH|reflexivity].
  - unfold updateModel.
    destruct (models m !! modelId) as [model|]; [|exact IH].
    destruct (modelMetadata m !! modelId) as [md|] eqn:Hmd; [|exact IH].
    destruct IH as [Hdom Hver].
    destruct (Hver _ _ Hmd) as [patch Hpatch].
    destruct (get cfg "parameters") as [params|e]; simpl.
    + apply (well_formed_insert _ _ _ _ (S patch)); [split; assumption|].
      simpl. rewrite Hpatch. apply incrementVersion_semver.
    + apply (well_formed_insert_metadata _ _ _ (S patch)); [split; assumption|].
      simpl. rewrite Hpatch. apply incrementVersion_semver.
  - unfold trackPerformance.
    destruct (modelMetadata m !! modelId) as [md|] eqn:Hmd; [|exact IH].
    destruct IH as [Hdom Hver].
    destruct (Hver _ _ Hmd) as [patch Hpatch]. simpl.
    apply (well_formed_insert_metadata _ _ _ patch); [split; assumption|].
    exact Hpatch.
Qed.

(** *** [updateModel] *)

Lemma get_not_nullish base prop :
  nullish base = false -> exists v, get base prop = Ok v.
Proof. destruct base; simpl; try discriminate; eauto. Qed.

Lemma updateModel_bumps m now modelId newModelConfig model md major minor patch :
  models m !! modelId = Some model ->
  modelMetadata m !! modelId = Some md ->
  version md = semver major minor patch ->
  exists md',
    modelMetadata (updateModel now modelId newModelConfig m).1 !! modelId = Some md'
    /\ version md' = semver major minor (S patch)
    /\ (forall v, (updateModel now modelId newModelConfig m).2 = Success v ->
          v = version md')
    /\ (nullish newModelConfig = false ->
          (updateModel now modelId newModelConfig m).2 = Success (version md')).
Proof.
  intros Hmodel Hmd Hver. unfold updateModel. rewrite Hmodel, Hmd.
  destruct (get newModelConfig "parameters") as [params|e] eqn:Hget; simpl;
    eexists; (split; [apply lookup_insert_eq|]); simpl;
    rewrite Hver, incrementVersion_semver.
  - repeat split; congruence.
  - repeat split; try congruence.
    intros Hn. destruct (get_not_nullish _ "parameters" Hn). congruence.
Qed.

(** C7. On every state the manager can reach, [updateModel] reports
    'Model not found' and changes nothing when the id has no model; when it
    has one, the stored version [major.minor.patch] becomes
    [major.minor.(patch+1)], which is strictly greater in the
    lexicographic order on (major, minor, patch), and a successful call
    reports that version. *)
Theorem updateModel_increments_patch m now modelId newModelConfig :
  reachable m ->
  (models m !! modelId = None ->
     updateModel now modelId newModelConfig m = (m, Failure "Model not found"))
  /\ (is_Some (models m !! modelId) ->
      exists major minor patch md md',
        modelMetadata m !! modelId = Some md
        /\ version md = semver major minor patch
        /\ modelMetadata (updateModel now modelId newModelConfig m).1 !! modelId
            = Some md'
        /\ version md' = semver major minor (S patch)
        /\ version_lt (version md) (version md')
        /\ (forall v, (updateModel now modelId newModelConfig m).2 = Success v ->
              v = version md')
        /\ (nullish newModelConfig = false ->
              (updateModel now modelId newModelConfig m).2 = Success (version md'))).
Proof.
  intros Hreach. destruct (reachable_well_formed m Hreach) as [Hdom Hver]. split.
  - intros Hnone. unfold updateModel. rewrite Hnone. reflexivity.
  - intros Hsome. destruct (Hdom _ Hsome) as [md Hmd].
    destruct Hsome as [model Hmodel].
    destruct (Hver _ _ Hmd) as [patch Hpatch].
    destruct (updateModel_bumps m now modelId newModelConfig model md 1 0 patch
                Hmodel Hmd Hpatch) as (md' & Hmd' & Hv' & Hsucc & Hok).
    exists 1, 0, patch, md, md'. repeat split; try assumption.
    rewrite Hpatch, Hv'. apply version_lt_patch.
Qed.

Definition example_config : value :=
  VObj (list_to_map [("version", VStr "2.0.0");
                     ("parameters", VObj (list_to_map [("threshold", VNum (Fin (3 # 4)))]))]).

Definition example_manager : Manager :=
  (initializeModel (FetchRejected "Failed to fetch") "2024-01-01T00:00:00.000Z"
     "bias-detection-v2" example_config constructor).1.

Lemma updateModel_increments_patch_witness :
  reachable example_manager
  /\ ((models example_manager !! "bias-detection-v2" = None ->
       updateModel "2024-01-02T00:00:00.000Z" "bias-detection-v2" example_config
         example_manager = (example_manager, Failure "Model not found"))
      /\ (is_Some (models example_manager !! "bias-detection-v2") ->
          exists major minor patch md md',
            modelMetadata example_manager !! "bias-detection-v2" = Some md
            /\ version md = semver major minor patch
            /\ modelMetadata (updateModel "2024-01-02T00:00:00.000Z"
                  "bias-detection-v2" example_config example_manager).1
                  !! "bias-detection-v2" = Some md'
            /\ version md' = semver major minor (S patch)
            /\ version_lt (version md) (version md')
            /\ (forall v, (updateModel "2024-01-02T00:00:00.000Z"
                  "bias-detection-v2" example_config example_manager).2 = Success v ->
                  v = version md')
            /\ (nullish example_config = false ->
                  (updateModel "2024-01-02T00:00:00.000Z" "bias-detection-v2"
                     example_config example_manager).2 = Success (version md')))).
Proof.
  split.
  - apply reachable_initializeModel, reachable_constructor.
  - apply updateModel_increments_patch.
    apply reachable_initializeModel, reachable_constructor.
Defined.

Example updateModel_example :
  version <$> (modelMetadata (updateModel "2024-01-02T00:00:00.000Z"
     "bias-detection-v2" example_config example_manager).1 !! "bias-detection-v2")
  = Some "1.0.1".
Proof. vm_compute. reflexivity. Qed.

(** *** [initializeModel] *)





(** A manager whose model has been updated once and tracked once. *)
Definition used_manager : Manager :=
  (trackPerformance "2024-01-03T00:00:00.000Z" "bias-detection-v2"
     (VObj (list_to_map [("categoriesAnalyzed", VNum (Fin 2))]))
     (updateModel "2024-01-02T00:00:00.000Z" "bias-detection-v2" example_config
        example_manager).1).1.




End MLModelManager.

(** ** biasDetection.js

    A batch of predictions is the array the tensor holds
    ([await predictions.array()]); the metadata maps an attribute to the
    array of its labels, one per prediction, each label being the property
    key it is used as.  The counters are object literals, so a label that
    names a member of [Object.prototype] finds that member where another
    label finds [undefined]. *)
Module BiasDetection.
Import JS.

Definition CONFIDENCE_THRESHOLD : number := Fin (8 # 10).

Definition PROTECTED_ATTRIBUTES : list string :=
  ["gender"; "age"; "ethnicity"; "disability"; "language"].

(** *** Disparate impact *)

(** [predArray[index] > CONFIDENCE_THRESHOLD]; past the end of the array
    the operand is [undefined] and the comparison is false. *)
Definition favorable (predArray : list number) (index : nat) : bool :=
  match predArray !! index with
  | Some prediction => ngt prediction CONFIDENCE_THRESHOLD
  | None => false
  end.

(** The labels paired with what the callback reads of the prediction. *)
Definition labelled (predArray : list number) (attributeValues : list string)
  : list (string * bool) :=
  imap (fun index value => (value, favorable predArray index)) attributeValues.

(** [!x] for what a counter object gives: [undefined], [0] and [NaN] are
    falsy, a function and an object are not. *)
Definition falsy (p : property number) : bool :=
  match p with
  | Own (Fin q) => Qeq_bool q 0
  | Own NaN => true
  | Own _ => false
  | Inherited => false
  | Missing => true
  end.

(** The number it is taken as by [++] and [/]: a member of
    [Object.prototype] converts to the text of a function, or to
    ['[object Object]'], which reads as [NaN], and so does [undefined]. *)
Definition to_number (p : property number) : number :=
  match p with
  | Own n => n
  | Inherited | Missing => NaN
  end.

(** [obj[key]++]. *)
Definition increment (obj : gmap string number) (key : string) : gmap string number :=
  assign obj key (nadd (to_number (read obj key)) (Fin 1)).

(** One call of the [forEach] callback. *)
Definition count_outcome (acc : gmap string number * gmap string number)
    (item : string * bool) : gmap string number * gmap string number :=
  let '(favorableOutcomes, groupCounts) := acc in
  let '(value, is_favorable) := item in
  let '(favorableOutcomes, groupCounts) :=
    if falsy (read favorableOutcomes value)
    then (assign favorableOutcomes value (Fin 0), assign groupCounts value (Fin 0))
    else (favorableOutcomes, groupCounts) in
  let favorableOutcomes :=
    if is_favorable then increment favorableOutcomes value else favorableOutcomes in
  (favorableOutcomes, increment groupCounts value).

Definition outcome_counts (items : list (string * bool))
  : gmap string number * gmap string number :=
  foldl count_outcome (∅, ∅) items.

(** [favorableOutcomes[group] / groupCounts[group]]. *)
Definition group_ratio (favorableOutcomes groupCounts : gmap string number)
    (group : string) : number :=
  ndiv (to_number (read favorableOutcomes group)) (to_number (read groupCounts group)).

Definition calculateDisparateImpact (predArray : list number)
    (attributeValues : list string) : number :=
  let '(favorableOutcomes, groupCounts) :=
    outcome_counts (labelled predArray attributeValues) in
  let ratios :=
    group_ratio favorableOutcomes groupCounts <$> (map_to_list favorableOutcomes).*1 in
  ndiv (Math_min ratios) (Math_max ratios).

(** *** Systematic bias *)

(** What [distribution[value]] holds while the labels are counted: a
    count, or a string.  The string is the text of an inherited function
    followed by a [1] for every time the label was met; it does not read as
    a number. *)
Inductive counter :=
| Count (n : nat)
| Text.

(** [distribution[value] = (distribution[value] || 0) + 1]: a function or
    a string, being truthy, is what the [1] is appended to. *)
Definition count_label (distribution : gmap string counter) (value : string)
  : gmap string counter :=
  assign distribution value
    match read distribution value with
    | Own (Count n) => Count (n + 1)
    | Own Text | Inherited => Text
    | Missing => Count 1
    end.

(** [distribution[key] / total]. *)
Definition proportion (total : nat) (held : counter) : number :=
  match held with
  | Count n => ndiv (of_nat n) (of_nat total)
  | Text => NaN
  end.

Definition calculateDistribution (values : list string) : gmap string number :=
  let total := length values in
  proportion total <$> foldl count_label ∅ values.

Record Underrepresented := {
  attribute : string;
  representation : number
}.

Definition checkRepresentation (metadata : gmap string (list string))
  : list Underrepresented :=
  foldl (fun underrepresented attribute =>
           match metadata !! attribute with
           | Some values =>
               let distribution := calculateDistribution values in
               let minRepresentation := Math_min (map_to_list distribution).*2 in
               if nlt minRepresentation (Fin (1 # 10))
               then (underrepresented ++ [{| attribute := attribute;
                                             representation := minRepresentation |}])%list
               else underrepresented
           | None => underrepresented
           end)
        [] PROTECTED_ATTRIBUTES.

Definition calculateSkewness (values : list number) (mean std : number) : number :=
  let n := length values in
  let m3 := ndiv (foldl (fun acc val => nadd acc (cube (nsub val mean))) (Fin 0) values)
                 (of_nat n) in
  ndiv m3 (cube std).

Record Distribution := {
  mean : number;
  standardDeviation : number;
  skewness : number
}.

Record Pattern := {
  type : string;
  details : string;
  affected : option (list Underrepresented)
}.

Record SystematicBias := {
  patterns : list Pattern;
  severity : string
}.

Section TensorFlow.

(** What the module takes from TensorFlow.js: the tensors [tf.mean] and
    [tf.moments(...).variance.sqrt()] return, the number [await t.array()]
    gives for such a tensor, and the number such a tensor counts as when it
    is an operand of [-] or an argument of [Math.pow]. *)
Variable Tensor : Type.
Variable tf_mean : list number -> Tensor.
Variable tf_std : list number -> Tensor.
Variable tensor_array : Tensor -> number.
Variable tensor_operand : Tensor -> number.

Definition analyzePredictionDistribution (predictions : list number) : Distribution :=
  let predArray := predictions in
  let mean := tf_mean predictions in
  let std := tf_std predictions in
  let skewness := calculateSkewness predArray (tensor_operand mean) (tensor_operand std) in
  {| mean := tensor_array mean;
     standardDeviation := tensor_array std;
     skewness := skewness |}.

Definition detectSystematicBias (predictions : list number)
    (metadata : gmap string (list string)) : SystematicBias :=
  let systematicBias := {| patterns := []; severity := "low" |} in
  let distribution := analyzePredictionDistribution predictions in
  let systematicBias :=
    if ngt (skewness distribution) (Fin (1 # 2))
    then {| patterns := (patterns systematicBias ++
              [{| type := "skewed_predictions";
                  details := "Predictions show significant skew towards certain outcomes";
                  affected := None |}])%list;
            severity := "medium" |}
    else systematicBias in
  let representationIssues := checkRepresentation metadata in
  if bool_decide (0 < length representationIssues)%nat
  then {| patterns := (patterns systematicBias ++
            [{| type := "underrepresentation";
                details := "Some groups are underrepresented in the analysis";
                affected := Some representationIssues |}])%list;
          severity := "high" |}
  else systematicBias.

(** [Math.max(0, Math.min(1, avgScore))] over the disparate-impact ratios. *)
Definition calculateConfidenceScore (disparateImpact : gmap string number) : number :=
  let scores := (map_to_list disparateImpact).*2 in
  let avgScore := ndiv (foldl nadd (Fin 0) scores) (of_nat (length scores)) in
  Math_max [Fin 0; Math_min [Fin 1; avgScore]].

(** [equalOpportunity] and [predictiveParity] are never filled. *)
Record BiasMetrics := {
  disparateImpact : gmap string number;
  equalOpportunity : gmap string number;
  predictiveParity : gmap string number;
  systematicBias : SystematicBias;
  timestamp : string;
  confidenceScore : number
}.

Definition detectBias (now : string) (predictions : list number)
    (metadata : gmap string (list string)) : BiasMetrics :=
  let disparateImpact :=
    foldl (fun (acc : gmap string number) attribute =>
             match metadata !! attribute with
             | Some values =>
                 <[attribute := calculateDisparateImpact predictions values]> acc
             | None => acc
             end)
          ∅ PROTECTED_ATTRIBUTES in
  {| disparateImpact := disparateImpact;
     equalOpportunity := ∅;
     predictiveParity := ∅;
     systematicBias := detectSystematicBias predictions metadata;
     timestamp := now;
     confidenceScore := calculateConfidenceScore disparateImpact |}.

End TensorFlow.

Definition is_flagged (type_name : string) (report : SystematicBias) : bool :=
  existsb (fun p => String.eqb (type p) type_name) (patterns report).

(** Equality of numbers up to the representation of a fraction. *)
Definition same_number (a b : number) : bool :=
  match a, b with
  | Fin p, Fin q => Qeq_bool p q
  | PosInf, PosInf | NegInf, NegInf => true
  | _, _ => false
  end.

(** The share of a label among the labels of an attribute. *)
Definition occurrences (label : string) (values : list string) : nat :=
  length (filter (fun v => v = label) values).

Definition share (label : string) (values : list string) : Q :=
  inject_Z (Z.of_nat (occurrences label values))
  / inject_Z (Z.of_nat (length values)).

(** *** Minimum and maximum of finite numbers *)

Definition finite (x : number) : Prop := exists q, x = Fin q.

Lemma Qlt_bool_iff p q : Qlt_bool p q = true <-> (p < q)%Q.
Proof. unfold Qlt_bool. rewrite Qlt_alt. destruct (p ?= q)%Q; split; congruence. Qed.

Lemma Qmin_cases p q :
  (Qmin p q = p /\ (p <= q)%Q) \/ (Qmin p q = q /\ (q <= p)%Q).
Proof.
  unfold Qmin, GenericMinMax.gmin. destruct (p ?= q)%Q eqn:E.
  - left. split; [reflexivity|]. apply Qeq_alt in E. lra.
  - left. split; [reflexivity|]. apply Qlt_alt in E. lra.
  - right. split; [reflexivity|]. apply Qgt_alt in E. lra.
Qed.

Lemma Qmax_cases p q :
  (Qmax p q = p /\ (q <= p)%Q) \/ (Qmax p q = q /\ (p <= q)%Q).
Proof.
  unfold Qmax, GenericMinMax.gmax. destruct (p ?= q)%Q eqn:E.
  - left. split; [reflexivity|]. apply Qeq_alt in E. lra.
  - right. split; [reflexivity|]. apply Qlt_alt in E. lra.
  - left. split; [reflexivity|]. apply Qgt_alt in E. lra.
Qed.

Lemma Math_min_finite l :
  l <> [] -> Forall finite l ->
  exists mn, Math_min l = Fin mn /\ Fin mn ∈ l /\ forall q, Fin q ∈ l -> (mn <= q)%Q.
Proof.
  induction l as [|x l IH]; [congruence|]. intros _ Hall.
  apply Forall_cons in Hall as [[p ->] Hall].
  destruct l as [|y l].
  - exists p. simpl. split; [reflexivity|]. split; [left|].
    intros q Hq. apply list_elem_of_singleton in Hq. injection Hq as ->. lra.
  - destruct (IH ltac:(congruence) Hall) as (mn & Hmn & Hin & Hle).
    change (Math_min (Fin p :: y :: l)) with (nmin (Fin p) (Math_min (y :: l))).
    rewrite Hmn. simpl.
    destruct (Qmin_cases p mn) as [[-> Hpm]|[-> Hpm]].
    + exists p. split; [reflexivity|]. split; [left|].
      intros q Hq. apply elem_of_cons in Hq as [Hq|Hq].
      * injection Hq as ->. lra.
      * specialize (Hle _ Hq). lra.
    + exists mn. split; [reflexivity|]. split; [right; exact Hin|].
      intros q Hq. apply elem_of_cons in Hq as [Hq|Hq].
      * injection Hq as ->. lra.
      * exact (Hle _ Hq).
Qed.

Lemma Math_max_finite l :
  l <> [] -> Forall finite l ->
  exists mx, Math_max l = Fin mx /\ Fin mx ∈ l /\ forall q, Fin q ∈ l -> (q <= mx)%Q.
Proof.
  induction l as [|x l IH]; [congruence|]. intros _ Hall.
  apply Forall_cons in Hall as [[p ->] Hall].
  destruct l as [|y l].
  - exists p. simpl. split; [reflexivity|]. split; [left|].
    intros q Hq. apply list_elem_of_singleton in Hq. injection Hq as ->. lra.
  - destruct (IH ltac:(congruence) Hall) as (mx & Hmx & Hin & Hle).
    change (Math_max (Fin p :: y :: l)) with (nmax (Fin p) (Math_max (y :: l))).
    rewrite Hmx. simpl.
    destruct (Qmax_cases p mx) as [[-> Hpm]|[-> Hpm]].
    + exists p. split; [reflexivity|]. split; [left|].
      intros q Hq. apply elem_of_cons in Hq as [Hq|Hq].
      * injection Hq as ->. lra.
      * specialize (Hle _ Hq). lra.
    + exists mx. split; [reflexivity|]. split; [right; exact Hin|].
      intros q Hq. apply elem_of_cons in Hq as [Hq|Hq].
      * injection Hq as ->. lra.
      * exact (Hle _ Hq).
Qed.

(** The minimum of finite numbers is below a bound exactly when one of
    them is. *)
Lemma Math_min_below l t :
  Forall finite l ->
  nlt (Math_min l) (Fin t) = true <-> exists q, Fin q ∈ l /\ (q < t)%Q.
Proof.
  intros Hall. destruct l as [|x l].
  - simpl. split; [discriminate|]. intros (q & Hq & _). inversion Hq.
  - destruct (Math_min_finite (x :: l) ltac:(congruence) Hall)
      as (mn & -> & Hin & Hle).
    simpl. rewrite Qlt_bool_iff. split.
    + intros Hlt. exists mn. split; assumption.
    + intros (q & Hq & Hlt). specialize (Hle _ Hq). lra.
Qed.

Lemma of_nat_div_positive n d :
  (0 < d)%nat ->
  ndiv (of_nat n) (of_nat d)
  = Fin (inject_Z (Z.of_nat n) / inject_Z (Z.of_nat d)).
Proof.
  intros Hd. unfold ndiv, of_nat.
  destruct (Qeq_bool (inject_Z (Z.of_nat d)) 0) eqn:E; [|reflexivity].
  apply Qeq_bool_iff in E. unfold Qeq in E. simpl in E. lia.
Qed.


(** *** Shares and underrepresentation *)

Lemma occurrences_cons v label values :
  occurrences label (v :: values)
  = if decide (v = label) then S (occurrences label values) else occurrences label values.
Proof.
  unfold occurrences. rewrite filter_cons. destruct (decide (v = label)); reflexivity.
Qed.

Lemma occurrences_positive label values :
  (0 < occurrences label values)%nat <-> label ∈ values.
Proof.
  induction values as [|v values IH].
  - split; [inversion 1|inversion 1].
  - rewrite occurrences_cons, elem_of_cons. destruct (decide (v = label)) as [->|Hne].
    + split; [auto|lia].
    + rewrite IH. split; [auto|]. intros [Heq|H]; [congruence|exact H].
Qed.

Lemma occurrences_le_length label values :
  (occurrences label values <= length values)%nat.
Proof. unfold occurrences. apply length_filter. Qed.

(** A label that names a function of [Object.prototype]: every member but
    the accessor [__proto__], which cannot be given a count. *)
Definition names_function (label : string) : bool :=
  inherited label && negb (String.eqb label "__proto__").

(** What the entry of a label holds after [k] more occurrences of the
    label. *)
Definition counted_label (label : string) (held : option counter) (k : nat)
  : option counter :=
  if (k =? 0)%nat then held
  else if String.eqb label "__proto__" then held
  else Some match held with
            | Some (Count n) => Count (n + k)
            | Some Text => Text
            | None => if inherited label then Text else Count k
            end.

Lemma count_labels_lookup values : forall (acc : gmap string counter) label,
  foldl count_label acc values !! label
  = counted_label label (acc !! label) (occurrences label values).
Proof.
  induction values as [|v values IH]; intros acc label; simpl.
  - reflexivity.
  - rewrite IH, occurrences_cons. unfold count_label. rewrite assign_lookup.
    destruct (decide (v = label)) as [->|Hne].
    + rewrite decide_True by reflexivity. unfold counted_label, read.
      destruct (String.eqb label "__proto__"), (acc !! label) as [[n|]|],
        (inherited label), (occurrences label values);
        simpl; try reflexivity; do 2 f_equal; lia.
    + rewrite decide_False by congruence. reflexivity.
Qed.

Lemma calculateDistribution_lookup values label :
  calculateDistribution values !! label
  = if decide (occurrences label values = 0%nat) then None
    else if String.eqb label "__proto__" then None
    else if inherited label then Some NaN
    else Some (Fin (share label values)).
Proof.
  unfold calculateDistribution. rewrite lookup_fmap, count_labels_lookup.
  rewrite lookup_empty. unfold counted_label.
  destruct (decide (occurrences label values = 0%nat)) as [->|Hpos]; [reflexivity|].
  destruct (occurrences label values =? 0)%nat eqn:E; [apply Nat.eqb_eq in E; lia|].
  destruct (String.eqb label "__proto__"); [reflexivity|].
  destruct (inherited label); [reflexivity|].
  simpl. f_equal. apply of_nat_div_positive.
  pose proof (occurrences_le_length label values). lia.
Qed.

Lemma distribution_values values x :
  x ∈ (map_to_list (calculateDistribution values)).*2
  <-> exists label,
        label ∈ values /\ label <> "__proto__"
        /\ x = if inherited label then NaN else Fin (share label values).
Proof.
  rewrite list_elem_of_fmap. split.
  - intros ([label y] & -> & Hin). apply elem_of_map_to_list in Hin.
    rewrite calculateDistribution_lookup in Hin.
    destruct (decide (occurrences label values = 0%nat)); [discriminate|].
    destruct (String.eqb label "__proto__") eqn:E; [discriminate|].
    apply String.eqb_neq in E.
    exists label. split; [apply occurrences_positive; lia|]. split; [exact E|].
    simpl. destruct (inherited label); congruence.
  - intros (label & Hin & Hne & ->).
    exists (label, if inherited label then NaN else Fin (share label values)).
    split; [reflexivity|]. apply elem_of_map_to_list.
    rewrite calculateDistribution_lookup.
    apply occurrences_positive in Hin. rewrite decide_False by lia.
    apply String.eqb_neq in Hne. rewrite Hne.
    destruct (inherited label); reflexivity.
Qed.

(** The labels of an attribute show an underrepresented group: none of
    them names a function of [Object.prototype], and one of those that can
    be counted has a share below 1/10. *)
Definition underrepresented (values : list string) : Prop :=
  Forall (fun label => names_function label = false) values
  /\ exists label,
       label ∈ values /\ label <> "__proto__" /\ (share label values < 1 # 10)%Q.

Lemma minimum_share_below values :
  nlt (Math_min (map_to_list (calculateDistribution values)).*2) (Fin (1 # 10)) = true
  <-> underrepresented values.
Proof.
  unfold underrepresented.
  destruct (existsb names_function values) eqn:Hnames.
  - apply existsb_exists in Hnames as (label & Hin & Hname).
    apply list_elem_of_In in Hin.
    assert (Hnan : NaN ∈ (map_to_list (calculateDistribution values)).*2).
    { apply distribution_values. exists label. unfold names_function in Hname.
      apply andb_true_iff in Hname as [Hinh Hne]. rewrite Hinh.
      split; [exact Hin|]. split; [|reflexivity].
      apply negb_true_iff, String.eqb_neq in Hne. exact Hne. }
    rewrite (Math_min_NaN _ Hnan). split; [discriminate|].
    intros [Hall _]. rewrite Forall_forall in Hall.
    specialize (Hall _ Hin). congruence.
  - assert (Hall : Forall (fun label => names_function label = false) values).
    { apply Forall_forall. intros label Hin.
      destruct (names_function label) eqn:E; [|reflexivity].
      assert (existsb names_function values = true); [|congruence].
      apply existsb_exists. exists label. split; [apply list_elem_of_In, Hin|exact E]. }
    assert (Hplain : forall label, label ∈ values -> label <> "__proto__" ->
                                   inherited label = false).
    { intros label Hin Hne. rewrite Forall_forall in Hall. specialize (Hall _ Hin).
      unfold names_function in Hall. apply String.eqb_neq in Hne. rewrite Hne in Hall.
      destruct (inherited label); [discriminate|reflexivity]. }
    assert (Hfin : Forall finite (map_to_list (calculateDistribution values)).*2).
    { apply Forall_forall. intros x Hx.
      apply distribution_values in Hx as (label & Hin & Hne & ->).
      rewrite (Hplain _ Hin Hne). eexists. reflexivity. }
    rewrite Math_min_below by exact Hfin. split.
    + intros (q & Hq & Hlt). split; [exact Hall|].
      apply distribution_values in Hq as (label & Hin & Hne & Heq).
      rewrite (Hplain _ Hin Hne) in Heq. injection Heq as ->. eauto.
    + intros (_ & label & Hin & Hne & Hlt). exists (share label values).
      split; [|exact Hlt]. apply distribution_values. exists label.
      rewrite (Hplain _ Hin Hne). auto.
Qed.

(** What one protected attribute adds to the list. *)
Definition representation_issue (metadata : gmap string (list string)) (attribute : string)
  : list Underrepresented :=
  match metadata !! attribute with
  | Some values =>
      let minRepresentation := Math_min (map_to_list (calculateDistribution values)).*2 in
      if nlt minRepresentation (Fin (1 # 10))
      then [{| attribute := attribute; representation := minRepresentation |}]
      else []
  | None => []
  end.

Lemma checkRepresentation_issues metadata :
  checkRepresentation metadata
  = flat_map (representation_issue metadata) PROTECTED_ATTRIBUTES.
Proof.
  unfold checkRepresentation, representation_issue, PROTECTED_ATTRIBUTES. simpl.
  repeat (destruct (metadata !! _) as [?|]; simpl;
          repeat (destruct (nlt _ _); simpl)); reflexivity.
Qed.

Lemma representation_issue_elem metadata a u :
  u ∈ representation_issue metadata a
  <-> exists values,
        metadata !! a = Some values
        /\ u = {| attribute := a;
                  representation := Math_min (map_to_list (calculateDistribution values)).*2 |}
        /\ nlt (representation u) (Fin (1 # 10)) = true.
Proof.
  unfold representation_issue. destruct (metadata !! a) as [values|].
  - destruct (nlt _ _) eqn:E.
    + rewrite list_elem_of_singleton. split.
      * intros ->. exists values. auto.
      * intros (values' & [= <-] & -> & _). reflexivity.
    + split; [inversion 1|]. intros (values' & [= <-] & -> & H). simpl in H. congruence.
  - split; [inversion 1|]. intros (values' & H & _). discriminate.
Qed.

Lemma checkRepresentation_elem metadata u :
  u ∈ checkRepresentation metadata
  <-> attribute u ∈ PROTECTED_ATTRIBUTES
      /\ exists values,
           metadata !! attribute u = Some values
           /\ representation u = Math_min (map_to_list (calculateDistribution values)).*2
           /\ nlt (representation u) (Fin (1 # 10)) = true.
Proof.
  rewrite checkRepresentation_issues, list_elem_of_In, in_flat_map. split.
  - intros (a & Ha & Hu). apply list_elem_of_In, representation_issue_elem in Hu.
    destruct Hu as (values & Hm & -> & Hlt). simpl in *.
    split; [apply list_elem_of_In; exact Ha|]. eauto.
  - intros (Ha & values & Hm & Hr & Hlt). exists (attribute u).
    split; [apply list_elem_of_In; exact Ha|].
    apply list_elem_of_In, representation_issue_elem. exists values.
    split; [exact Hm|]. split; [|exact Hlt]. destruct u; simpl in *. congruence.
Qed.

Lemma checkRepresentation_nonempty metadata :
  (0 < length (checkRepresentation metadata))%nat
  <-> exists attribute values,
        attribute ∈ PROTECTED_ATTRIBUTES
        /\ metadata !! attribute = Some values
        /\ underrepresented values.
Proof.
  split.
  - intros Hlen. destruct (checkRepresentation metadata) as [|u l] eqn:E;
      [simpl in Hlen; lia|].
    assert (Hu : u ∈ checkRepresentation metadata) by (rewrite E; left).
    apply checkRepresentation_elem in Hu as (Ha & values & Hm & Hr & Hlt).
    rewrite Hr in Hlt. apply minimum_share_below in Hlt.
    exists (attribute u), values. auto.
  - intros (a & values & Ha & Hm & Hunder).
    assert (Hu : {| attribute := a;
                    representation := Math_min (map_to_list (calculateDistribution values)).*2 |}
                 ∈ checkRepresentation metadata).
    { apply checkRepresentation_elem. simpl. split; [exact Ha|]. exists values.
      split; [exact Hm|]. split; [reflexivity|]. apply minimum_share_below. exact Hunder. }
    destruct (checkRepresentation metadata); [inversion Hu|simpl; lia].
Qed.

(** *** [detectSystematicBias] *)

(** What a tensor counts as where a number is expected, as an operand of
    [-] or an argument of [Math.pow]: a [tf.Tensor] is an object without a
    numeric [valueOf], and the text its [toString] gives begins with
    [Tensor], so the conversion yields [NaN]. *)
Definition tensor_as_number {Tensor : Type} (tensor : Tensor) : number := NaN.

(** A batch skewed to the right, and its mirror image: mean 1/5 and 4/5,
    variance 4/25 = (2/5)^2, third standardized moment 3/2 and -3/2. *)
Definition right_skewed_batch : list number := [Fin 0; Fin 0; Fin 0; Fin 0; Fin 1].
Definition left_skewed_batch : list number := [Fin 1; Fin 1; Fin 1; Fin 1; Fin 0].

Definition batch_mean (l : list number) : number :=
  ndiv (foldl nadd (Fin 0) l) (of_nat (length l)).

Definition batch_variance (l : list number) : number :=
  batch_mean ((fun x => nmul (nsub x (batch_mean l)) (nsub x (batch_mean l))) <$> l).

Lemma calculateSkewness_NaN values mean :
  calculateSkewness values mean NaN = NaN.
Proof.
  unfold calculateSkewness. change (cube NaN) with NaN.
  generalize (ndiv (foldl (fun acc val => nadd acc (cube (nsub val mean))) (Fin 0) values)
                (of_nat (length values))).
  intros []; reflexivity.
Qed.

Section SystematicBiasFacts.

Variable Tensor : Type.
Variables tf_mean tf_std : list number -> Tensor.
Variable tensor_array : Tensor -> number.

Let analyze := analyzePredictionDistribution Tensor tf_mean tf_std tensor_array tensor_as_number.
Let detect := detectSystematicBias Tensor tf_mean tf_std tensor_array tensor_as_number.

(** C5, where the code departs from it.  [calculateSkewness] is handed the
    tensors [tf.mean] and the square root of the variance return, not the
    numbers they hold, so the skewness it computes is [NaN] for every
    batch: ['skewed_predictions'] is never flagged and the severity is
    never ['medium'].  The batch [0, 0, 0, 0, 1] has mean 1/5, standard
    deviation 2/5 and skewness 3/2, above 0.5, and its report is empty.
    (Given the numbers, the test of line 111 is signed besides: the
    mirrored batch, of skewness -3/2, would not be flagged.)
    ['underrepresentation'] is flagged as C5 says: exactly when one of the
    five protected attributes present in the metadata has a label whose
    share of that attribute's labels is below 1/10, none of the labels
    being the name of a function of [Object.prototype]; the pattern lists
    each such attribute with its smallest share, and the severity is then
    ['high'], otherwise ['low']. *)
Theorem detectSystematicBias_never_flags_skew predictions metadata :
  let report := detect predictions metadata in
  skewness (analyze predictions) = NaN
  /\ is_flagged "skewed_predictions" report = false
  /\ (is_flagged "underrepresentation" report = true <->
        exists attribute values,
          attribute ∈ PROTECTED_ATTRIBUTES
          /\ metadata !! attribute = Some values
          /\ underrepresented values)
  /\ severity report
      = (if is_flagged "underrepresentation" report then "high" else "low")
  /\ (forall p, p ∈ patterns report ->
        type p = "underrepresentation"
        /\ affected p = Some (checkRepresentation metadata))
  /\ (forall u, u ∈ checkRepresentation metadata <->
        attribute u ∈ PROTECTED_ATTRIBUTES
        /\ exists values,
             metadata !! attribute u = Some values
             /\ representation u = Math_min (map_to_list (calculateDistribution values)).*2
             /\ nlt (representation u) (Fin (1 # 10)) = true)
  /\ same_number (batch_mean right_skewed_batch) (Fin (1 # 5)) = true
  /\ same_number (batch_variance right_skewed_batch) (Fin ((2 # 5) * (2 # 5))) = true
  /\ same_number (calculateSkewness right_skewed_batch (Fin (1 # 5)) (Fin (2 # 5)))
       (Fin (3 # 2)) = true
  /\ detect right_skewed_batch ∅ = {| patterns := []; severity := "low" |}
  /\ same_number (calculateSkewness left_skewed_batch (Fin (4 # 5)) (Fin (2 # 5)))
       (Fin (- (3 # 2))) = true
  /\ ngt (Fin (- (3 # 2))) (Fin (1 # 2)) = false.
Proof.
  intros report.
  assert (Hskew : skewness (analyze predictions) = NaN).
  { unfold analyze, analyzePredictionDistribution. simpl. apply calculateSkewness_NaN. }
  assert (Hreport : report
            = if bool_decide (0 < length (checkRepresentation metadata))%nat
              then {| patterns :=
                        [{| type := "underrepresentation";
                            details := "Some groups are underrepresented in the analysis";
                            affected := Some (checkRepresentation metadata) |}];
                      severity := "high" |}
              else {| patterns := []; severity := "low" |}).
  { subst report. unfold detect, detectSystematicBias.
    fold (analyze predictions). rewrite Hskew. reflexivity. }
  split; [exact Hskew|]. rewrite Hreport.
  split; [destruct (bool_decide _); reflexivity|].
  split.
  { rewrite <- checkRepresentation_nonempty.
    destruct (bool_decide _) eqn:E.
    - apply bool_decide_eq_true in E. split; [intros _; exact E|reflexivity].
    - apply bool_decide_eq_false in E. split; [discriminate|]. intros H. contradiction. }
  split; [destruct (bool_decide _); reflexivity|].
  split.
  { intros p. destruct (bool_decide _); simpl; intros Hp.
    - apply list_elem_of_singleton in Hp. subst p. split; reflexivity.
    - inversion Hp. }
  split; [apply checkRepresentation_elem|].
  repeat split; vm_compute; reflexivity.
Qed.
End SystematicBiasFacts.


(** *** Disparate impact: what the counting loop computes *)

(** The size of a group and the number of its favorable outcomes, over the
    labelled batch. *)
Definition members (group : string) (items : list (string * bool)) : nat :=
  length (filter (fun item => item.1 = group) items).

Definition favorables (group : string) (items : list (string * bool)) : nat :=
  length (filter (fun item => item.1 = group /\ item.2 = true) items).

Definition rate (group : string) (items : list (string * bool)) : Q :=
  inject_Z (Z.of_nat (favorables group items))
  / inject_Z (Z.of_nat (members group items)).

(** The outcome of the first member of a group. *)
Fixpoint first_outcome (group : string) (items : list (string * bool)) : option bool :=
  match items with
  | [] => None
  | (value, outcome) :: rest =>
      if decide (value = group) then Some outcome else first_outcome group rest
  end.

(** Every favorable outcome belongs to a group whose first member is
    favorable. *)
Definition leading_favorable (items : list (string * bool)) : bool :=
  forallb (fun item => implb item.2
             (bool_decide (first_outcome item.1 items = Some true))) items.

(** No label names a member of [Object.prototype]. *)
Definition plain_labels (values : list string) : bool :=
  forallb (fun value => negb (inherited value)) values.

Lemma labelled_lookup predArray attributeValues i :
  labelled predArray attributeValues !! i
  = (fun value => (value, favorable predArray i)) <$> attributeValues !! i.
Proof. unfold labelled. apply list_lookup_imap. Qed.

Lemma members_imap group (f : nat -> string -> string * bool) values :
  (forall i v, (f i v).1 = v) ->
  members group (imap f values) = occurrences group values.
Proof.
  revert f. induction values as [|v values IH]; intros f Hf; [reflexivity|].
  unfold members, occurrences in *. simpl. rewrite !filter_cons, Hf.
  destruct (decide (v = group)); simpl; rewrite IH; auto; intros i w; apply Hf.
Qed.

(** A group is the set of positions that carry its label. *)
Lemma members_labelled group predArray attributeValues :
  members group (labelled predArray attributeValues)
  = occurrences group attributeValues.
Proof. apply members_imap. reflexivity. Qed.

Lemma plain_labels_members predArray attributeValues group :
  plain_labels attributeValues = true ->
  (0 < members group (labelled predArray attributeValues))%nat ->
  inherited group = false.
Proof.
  intros Hplain Hpos. rewrite members_labelled in Hpos.
  apply occurrences_positive, list_elem_of_In in Hpos.
  unfold plain_labels in Hplain. rewrite forallb_forall in Hplain.
  apply negb_true_iff, Hplain, Hpos.
Qed.

Lemma members_snoc group items value outcome :
  members group (items ++ [(value, outcome)])
  = (members group items + if decide (value = group) then 1 else 0)%nat.
Proof.
  unfold members. rewrite filter_app, length_app, filter_cons, filter_nil. simpl.
  destruct (decide (value = group)); reflexivity.
Qed.

Lemma favorables_snoc group items value outcome :
  favorables group (items ++ [(value, outcome)])
  = (favorables group items
     + if decide (value = group) then (if outcome then 1 else 0) else 0)%nat.
Proof.
  unfold favorables. rewrite filter_app, length_app, filter_cons, filter_nil. simpl.
  destruct (decide (value = group)), outcome; simpl;
    (rewrite decide_True by tauto) || (rewrite decide_False by (intros [? ?]; congruence));
    reflexivity.
Qed.

Lemma favorables_le_members group items :
  (favorables group items <= members group items)%nat.
Proof.
  induction items as [|[v f] items IH] using rev_ind; [reflexivity|].
  rewrite members_snoc, favorables_snoc.
  destruct (decide (v = group)), f; lia.
Qed.

Lemma first_outcome_none group items :
  first_outcome group items = None <-> members group items = 0%nat.
Proof.
  unfold members. induction items as [|[v f] items IH]; simpl; [tauto|].
  rewrite filter_cons. simpl. destruct (decide (v = group)); simpl; [|exact IH].
  split; [discriminate|lia].
Qed.

Lemma first_outcome_app group items more :
  (0 < members group items)%nat ->
  first_outcome group (items ++ more) = first_outcome group items.
Proof.
  unfold members. induction items as [|[v f] items IH]; simpl; [lia|].
  rewrite filter_cons. simpl. destruct (decide (v = group)); simpl; [reflexivity|exact IH].
Qed.

Lemma first_outcome_favorable group items :
  first_outcome group items = Some true -> (0 < favorables group items)%nat.
Proof.
  unfold favorables. induction items as [|[v f] items IH]; simpl; [discriminate|].
  rewrite filter_cons. simpl. destruct (decide (v = group)) as [->|Hne].
  - intros [= ->]. rewrite decide_True by tauto. simpl. lia.
  - intros H. rewrite decide_False by tauto. auto.
Qed.

(** In every group with a favorable member the first member is favorable. *)
Definition leading (items : list (string * bool)) : Prop :=
  forall group, (0 < favorables group items)%nat -> first_outcome group items = Some true.

Lemma favorables_positive group items :
  (0 < favorables group items)%nat <-> (group, true) ∈ items.
Proof.
  unfold favorables. induction items as [|[v f] items IH].
  - simpl. split; [lia|inversion 1].
  - rewrite filter_cons, elem_of_cons. simpl.
    destruct (decide (v = group /\ f = true)) as [[-> ->]|Hn].
    + simpl. split; [auto|lia].
    + rewrite IH. split; [auto|]. intros [[= <- <-]|H]; [tauto|exact H].
Qed.

Lemma leading_favorable_leading items :
  leading_favorable items = true <-> leading items.
Proof.
  unfold leading_favorable, leading. rewrite forallb_forall. split.
  - intros H group Hpos. apply favorables_positive in Hpos.
    specialize (H (group, true)). simpl in H.
    eapply bool_decide_eq_true_1. apply H. apply list_elem_of_In. exact Hpos.
  - intros H [v f] Hin. destruct f; simpl; [|reflexivity].
    apply bool_decide_eq_true_2. apply H. apply favorables_positive, list_elem_of_In, Hin.
Qed.

Lemma leading_prefix items item : leading (items ++ [item]) -> leading items.
Proof.
  intros H group Hpos. destruct item as [v f].
  assert (Hm : (0 < members group items)%nat)
    by (pose proof (favorables_le_members group items); lia).
  rewrite <- (first_outcome_app group items [(v, f)] Hm). apply H.
  rewrite favorables_snoc. lia.
Qed.

Lemma leading_fresh items group :
  leading (items ++ [(group, true)]) -> favorables group items = 0%nat ->
  members group items = 0%nat.
Proof.
  intros H Hfav. destruct (decide (members group items = 0%nat)) as [|Hm]; [assumption|].
  assert (Hpos : (0 < members group items)%nat) by lia.
  specialize (H group). rewrite favorables_snoc, decide_True in H by reflexivity.
  rewrite first_outcome_app in H by exact Hpos.
  apply first_outcome_favorable in H; lia.
Qed.

(** **** The two entries of one group *)

(** What reading the entry of [group] gives, and what assigning to it
    leaves, in terms of the own entry alone. *)
Definition held (group : string) (entry : option number) : property number :=
  match entry with
  | Some a => Own a
  | None => if inherited group then Inherited else Missing
  end.

Definition put (group : string) (entry : option number) (a : number) : option number :=
  if String.eqb group "__proto__" then entry else Some a.

(** What a member of [group] with the given outcome does to the entries of
    the group in [favorableOutcomes] and [groupCounts]. *)
Definition entry_step (group : string) (outcome : bool)
    (entries : option number * option number) : option number * option number :=
  let '(f, c) := entries in
  let '(f, c) :=
    if falsy (held group f) then (put group f (Fin 0), put group c (Fin 0)) else (f, c) in
  let f := if outcome then put group f (nadd (to_number (held group f)) (Fin 1)) else f in
  (f, put group c (nadd (to_number (held group c)) (Fin 1))).

(** The entries of a group after the loop went through [items]. *)
Definition entries (group : string) (items : list (string * bool))
  : option number * option number :=
  ((outcome_counts items).1 !! group, (outcome_counts items).2 !! group).

Lemma read_held (obj : gmap string number) group :
  read obj group = held group (obj !! group).
Proof. reflexivity. Qed.

Lemma assign_here (obj : gmap string number) group a :
  assign obj group a !! group = put group (obj !! group) a.
Proof. rewrite assign_lookup, decide_True by reflexivity. reflexivity. Qed.

Lemma assign_other (obj : gmap string number) key a group :
  group <> key -> assign obj key a !! group = obj !! group.
Proof. intros Hne. rewrite assign_lookup, decide_False by exact Hne. reflexivity. Qed.

Lemma count_outcome_lookup fav cnt value outcome group :
  ((count_outcome (fav, cnt) (value, outcome)).1 !! group,
   (count_outcome (fav, cnt) (value, outcome)).2 !! group)
  = if decide (group = value)
    then entry_step group outcome (fav !! group, cnt !! group)
    else (fav !! group, cnt !! group).
Proof.
  unfold count_outcome, entry_step, increment. rewrite !read_held.
  destruct (decide (group = value)) as [->|Hne].
  - destruct (falsy (held value (fav !! value))), outcome; cbn [fst snd];
      rewrite ?read_held, ?assign_here; reflexivity.
  - destruct (falsy (held value (fav !! value))), outcome; cbn [fst snd];
      rewrite ?assign_other by exact Hne; reflexivity.
Qed.

Lemma entries_snoc group items value outcome :
  entries group (items ++ [(value, outcome)])
  = if decide (group = value)
    then entry_step group outcome (entries group items)
    else entries group items.
Proof.
  unfold entries, outcome_counts. rewrite foldl_snoc.
  destruct (foldl count_outcome (∅, ∅) items) as [fav cnt].
  apply count_outcome_lookup.
Qed.

Lemma entries_absent group items :
  members group items = 0%nat -> entries group items = (None, None).
Proof.
  induction items as [|[v f] items IH] using rev_ind; [reflexivity|].
  rewrite members_snoc, entries_snoc.
  destruct (decide (v = group)) as [->|Hne]; [lia|].
  rewrite decide_False by congruence. intros Hz. apply IH. lia.
Qed.

Lemma falsy_of_nat k : falsy (Own (of_nat k)) = (k =? 0)%nat.
Proof.
  unfold falsy, of_nat. destruct k as [|k]; [reflexivity|].
  apply not_true_is_false. intros H. apply Qeq_bool_iff in H.
  unfold Qeq in H. simpl in H. lia.
Qed.

Lemma entry_step_fresh group outcome :
  inherited group = false ->
  entry_step group outcome (None, None)
  = (Some (of_nat (if outcome then 1 else 0)), Some (of_nat 1)).
Proof.
  intros Hplain. unfold entry_step, held, put.
  rewrite Hplain, (proto_is_inherited _ Hplain). destruct outcome; reflexivity.
Qed.

Lemma entry_step_counted group outcome k c :
  inherited group = false ->
  entry_step group outcome (Some (of_nat k), Some (of_nat c))
  = if (k =? 0)%nat
    then (Some (of_nat (if outcome then 1 else 0)), Some (of_nat 1))
    else (Some (of_nat (k + if outcome then 1 else 0)), Some (of_nat (S c))).
Proof.
  intros Hplain. unfold entry_step. cbn [held]. rewrite falsy_of_nat.
  unfold put. rewrite (proto_is_inherited _ Hplain).
  destruct (k =? 0)%nat, outcome; cbn [held to_number];
    rewrite ?of_nat_succ, ?Nat.add_0_r, ?Nat.add_1_r; reflexivity.
Qed.

(** The entries of a group whose label is no member of [Object.prototype]
    are counts: the favorable outcomes of the group, and a count of its
    members that started over as long as none was favorable. *)
Lemma entries_plain group items :
  inherited group = false ->
  (0 < members group items)%nat ->
  exists c,
    entries group items = (Some (of_nat (favorables group items)), Some (of_nat c))
    /\ (1 <= c)%nat
    /\ (favorables group items <= c)%nat
    /\ (leading items -> (0 < favorables group items)%nat -> c = members group items).
Proof.
  intros Hplain. induction items as [|[v f] items IH] using rev_ind.
  - unfold members. simpl. lia.
  - rewrite entries_snoc, members_snoc, favorables_snoc.
    destruct (decide (group = v)) as [<-|Hne].
    + rewrite !decide_True by reflexivity. intros _.
      pose proof (favorables_le_members group items) as Hle.
      destruct (decide (members group items = 0%nat)) as [Hz|Hnz].
      * rewrite (entries_absent _ _ Hz), (entry_step_fresh _ _ Hplain).
        replace (favorables group items) with 0%nat by lia.
        exists 1%nat. split; [reflexivity|]. split; [lia|].
        split; [destruct f; lia|]. intros _ _. lia.
      * destruct (IH ltac:(lia)) as (c & -> & Hc1 & Hc2 & Hc3).
        rewrite (entry_step_counted _ _ _ _ Hplain).
        destruct (favorables group items) as [|k] eqn:Hk; cbn [Nat.eqb].
        -- exists 1%nat. split; [reflexivity|]. split; [lia|].
           split; [destruct f; lia|]. intros Hlead Hpos. destruct f; [|lia].
           pose proof (leading_fresh items group Hlead Hk). lia.
        -- exists (S c). split; [reflexivity|]. split; [lia|].
           split; [destruct f; lia|]. intros Hlead _. apply leading_prefix in Hlead.
           rewrite (Hc3 Hlead) by lia. lia.
    + rewrite !decide_False by congruence. rewrite !Nat.add_0_r.
      intros Hpos. destruct (IH Hpos) as (c & Hc & Hc1 & Hc2 & Hc3).
      exists c. split; [exact Hc|]. split; [exact Hc1|]. split; [exact Hc2|].
      intros Hlead. apply Hc3. eapply leading_prefix, Hlead.
Qed.

(** The rate the code computes for a group. *)
Definition computed_rate (group : string) (items : list (string * bool)) : Q :=
  match group_ratio (outcome_counts items).1 (outcome_counts items).2 group with
  | Fin q => q
  | _ => 0
  end.

Lemma group_ratio_plain group items :
  inherited group = false ->
  (0 < members group items)%nat ->
  exists c,
    group_ratio (outcome_counts items).1 (outcome_counts items).2 group
    = Fin (computed_rate group items)
    /\ computed_rate group items
       = (inject_Z (Z.of_nat (favorables group items)) / inject_Z (Z.of_nat c))%Q
    /\ (1 <= c)%nat
    /\ (favorables group items <= c)%nat
    /\ (leading items -> (0 < favorables group items)%nat -> c = members group items).
Proof.
  intros Hplain Hpos.
  destruct (entries_plain group items Hplain Hpos) as (c & He & Hc1 & Hc2 & Hc3).
  unfold entries in He. injection He as Hf Hc.
  assert (Hratio : group_ratio (outcome_counts items).1 (outcome_counts items).2 group
                   = Fin (inject_Z (Z.of_nat (favorables group items))
                          / inject_Z (Z.of_nat c))).
  { unfold group_ratio. rewrite !read_held, Hf, Hc. cbn [held to_number].
    apply of_nat_div_positive. lia. }
  exists c. unfold computed_rate. rewrite Hratio. auto.
Qed.

Lemma ratios_elem predArray attributeValues x :
  plain_labels attributeValues = true ->
  let items := labelled predArray attributeValues in
  x ∈ group_ratio (outcome_counts items).1 (outcome_counts items).2
        <$> (map_to_list (outcome_counts items).1).*1
  <-> exists group, (0 < members group items)%nat /\ x = Fin (computed_rate group items).
Proof.
  intros Hplain items. rewrite list_elem_of_fmap. split.
  - intros (group & -> & Hin). apply list_elem_of_fmap in Hin as ([g k] & -> & Hin).
    apply elem_of_map_to_list in Hin. cbn [fst].
    destruct (decide (members g items = 0%nat)) as [Hz|Hnz].
    { pose proof (entries_absent g items Hz) as He. unfold entries in He.
      injection He as He _. congruence. }
    exists g. split; [lia|].
    assert (Hg : inherited g = false)
      by (apply (plain_labels_members predArray attributeValues);
          [exact Hplain|fold items; lia]).
    destruct (group_ratio_plain g items Hg ltac:(lia)) as (c & Hr & _). exact Hr.
  - intros (group & Hpos & ->).
    assert (Hg : inherited group = false)
      by (eapply plain_labels_members; [exact Hplain|exact Hpos]).
    destruct (group_ratio_plain group items Hg Hpos) as (c & Hr & _).
    exists group. split; [symmetry; exact Hr|].
    destruct (entries_plain group items Hg Hpos) as (c' & He & _).
    unfold entries in He. injection He as Hf _.
    apply list_elem_of_fmap. exists (group, of_nat (favorables group items)).
    split; [reflexivity|]. apply elem_of_map_to_list. exact Hf.
Qed.

Lemma inject_nat_pos c : (1 <= c)%nat -> (0 < inject_Z (Z.of_nat c))%Q.
Proof. intros H. change 0%Q with (inject_Z 0). rewrite <- Zlt_Qlt. lia. Qed.

Lemma inject_nat_nonneg f : (0 <= inject_Z (Z.of_nat f))%Q.
Proof. change 0%Q with (inject_Z 0). rewrite <- Zle_Qle. lia. Qed.

Lemma inject_nat_le f c : (f <= c)%nat -> (inject_Z (Z.of_nat f) <= inject_Z (Z.of_nat c))%Q.
Proof. intros H. rewrite <- Zle_Qle. lia. Qed.

Lemma quotient_bounds (a b : Q) :
  (0 <= a)%Q -> (a <= b)%Q -> (0 < b)%Q -> (0 <= a / b)%Q /\ (a / b <= 1)%Q.
Proof.
  intros Ha Hab Hb. split.
  - apply Qle_shift_div_l; [exact Hb|lra].
  - apply Qle_shift_div_r; [exact Hb|lra].
Qed.

Lemma quotient_zero (a b : Q) : (0 < b)%Q -> (a / b == 0)%Q <-> (a == 0)%Q.
Proof.
  intros Hb. split; intros H.
  - rewrite <- (Qmult_div_r a b) by lra. rewrite H. ring.
  - rewrite H. unfold Qdiv. ring.
Qed.

Lemma quotient_one (a b : Q) : (0 < b)%Q -> (a / b == 1)%Q <-> (a == b)%Q.
Proof.
  intros Hb. split; intros H.
  - rewrite <- (Qmult_div_r a b) by lra. rewrite H. ring.
  - rewrite H. field. lra.
Qed.

Lemma computed_rate_bounds group items :
  inherited group = false ->
  (0 < members group items)%nat ->
  (0 <= computed_rate group items)%Q /\ (computed_rate group items <= 1)%Q.
Proof.
  intros Hplain Hpos.
  destruct (group_ratio_plain group items Hplain Hpos) as (c & _ & -> & H1 & H2 & _).
  apply quotient_bounds;
    [apply inject_nat_nonneg|apply inject_nat_le, H2|apply inject_nat_pos, H1].
Qed.

Lemma computed_rate_zero group items :
  inherited group = false ->
  (0 < members group items)%nat ->
  (computed_rate group items == 0)%Q <-> favorables group items = 0%nat.
Proof.
  intros Hplain Hpos.
  destruct (group_ratio_plain group items Hplain Hpos) as (c & _ & -> & H1 & _ & _).
  rewrite quotient_zero by (apply inject_nat_pos, H1).
  change 0%Q with (inject_Z 0). rewrite inject_Z_injective. lia.
Qed.

Lemma computed_rate_leading group items :
  inherited group = false ->
  leading items -> (0 < members group items)%nat ->
  (computed_rate group items == rate group items)%Q.
Proof.
  intros Hplain Hlead Hpos.
  destruct (group_ratio_plain group items Hplain Hpos) as (c & _ & -> & H1 & _ & H3).
  destruct (decide (favorables group items = 0%nat)) as [Hz|Hnz].
  - unfold rate. rewrite Hz. unfold Qdiv. simpl. ring.
  - unfold rate. rewrite (H3 Hlead) by lia. reflexivity.
Qed.

Lemma calculateDisparateImpact_ratios predArray attributeValues :
  calculateDisparateImpact predArray attributeValues
  = let items := labelled predArray attributeValues in
    let ratios := group_ratio (outcome_counts items).1 (outcome_counts items).2
                    <$> (map_to_list (outcome_counts items).1).*1 in
    ndiv (Math_min ratios) (Math_max ratios).
Proof.
  unfold calculateDisparateImpact.
  destruct (outcome_counts (labelled predArray attributeValues)). reflexivity.
Qed.

(** C4, as the code has it, for labels none of which names a member of
    [Object.prototype].  Without any favorable outcome the ratio is [NaN]
    (0/0, or Infinity/-Infinity for an empty labelling).  With one, it is a
    number of the closed interval [0, 1], and it is 0 exactly when some
    group has no favorable outcome.  On a batch where every group with a
    favorable outcome starts with one, it is 1 exactly when all groups have
    the same favorable-outcome rate. *)
Theorem calculateDisparateImpact_range predArray attributeValues :
  plain_labels attributeValues = true ->
  let items := labelled predArray attributeValues in
  let ratio := calculateDisparateImpact predArray attributeValues in
  ((forall group, favorables group items = 0%nat) -> ratio = NaN)
  /\ ((exists group, (0 < favorables group items)%nat) ->
      exists q,
        ratio = Fin q
        /\ (0 <= q)%Q /\ (q <= 1)%Q
        /\ ((q == 0)%Q <->
            exists group, (0 < members group items)%nat
                          /\ favorables group items = 0%nat)
        /\ (leading items ->
            ((q == 1)%Q <->
             forall g h, (0 < members g items)%nat -> (0 < members h items)%nat ->
                         (rate g items == rate h items)%Q))).
Proof.
  intros Hlabels items ratio. subst ratio.
  rewrite calculateDisparateImpact_ratios. fold items. cbv zeta.
  set (ratios := group_ratio (outcome_counts items).1 (outcome_counts items).2
                   <$> (map_to_list (outcome_counts items).1).*1).
  assert (Hplain : forall group, (0 < members group items)%nat -> inherited group = false)
    by (intros group; apply plain_labels_members, Hlabels).
  assert (Helem : forall x, x ∈ ratios <->
            exists group, (0 < members group items)%nat
                          /\ x = Fin (computed_rate group items))
    by (intros x; apply ratios_elem, Hlabels).
  assert (Hfin : Forall finite ratios).
  { apply Forall_forall. intros x Hx. apply Helem in Hx as (g & _ & ->).
    eexists. reflexivity. }
  assert (Hrate : forall group, (0 < members group items)%nat ->
            Fin (computed_rate group items) ∈ ratios)
    by (intros group Hpos; apply Helem; eauto).
  destruct (decide (ratios = [])) as [Hnil|Hne].
  { rewrite Hnil. split; [reflexivity|]. intros [group Hpos]. exfalso.
    pose proof (favorables_le_members group items) as Hle.
    specialize (Hrate group ltac:(lia)). rewrite Hnil in Hrate. inversion Hrate. }
  destruct (Math_min_finite ratios Hne Hfin) as (mn & -> & Hmn_in & Hmn_le).
  destruct (Math_max_finite ratios Hne Hfin) as (mx & -> & Hmx_in & Hmx_le).
  apply Helem in Hmn_in as (gmn & Hgmn & [= Hmn]).
  apply Helem in Hmx_in as (gmx & Hgmx & [= Hmx]).
  pose proof (computed_rate_bounds gmn items (Hplain _ Hgmn) Hgmn) as [Hmn0 _].
  rewrite <- Hmn in Hmn0.
  assert (Hmnmx : (mn <= mx)%Q) by (apply Hmx_le; rewrite Hmn; apply Hrate, Hgmn).
  split.
  - intros Hnone.
    assert (Hmx0 : (mx == 0)%Q)
      by (rewrite Hmx; apply computed_rate_zero; auto).
    assert (Hmn0' : (mn == 0)%Q) by lra.
    unfold ndiv. destruct (Qeq_bool mx 0) eqn:E.
    + unfold signed_infinity, Qsign.
      apply Qeq_alt in Hmn0'. rewrite Hmn0'. reflexivity.
    + apply Qeq_bool_neq in E. contradiction.
  - intros [g Hg].
    assert (Hgm : (0 < members g items)%nat)
      by (pose proof (favorables_le_members g items); lia).
    assert (Hmxpos : (0 < mx)%Q).
    { pose proof (computed_rate_bounds g items (Hplain _ Hgm) Hgm) as [Hg0 _].
      pose proof (computed_rate_zero g items (Hplain _ Hgm) Hgm) as Hgz.
      specialize (Hmx_le _ (Hrate g Hgm)).
      destruct (Qlt_le_dec 0 (computed_rate g items)) as [Hlt|Hle0]; [lra|].
      assert (Hz : (computed_rate g items == 0)%Q) by lra.
      apply Hgz in Hz. lia. }
    unfold ndiv. destruct (Qeq_bool mx 0) eqn:E.
    { apply Qeq_bool_iff in E. lra. }
    exists (mn / mx)%Q. split; [reflexivity|].
    destruct (quotient_bounds mn mx Hmn0 Hmnmx Hmxpos) as [Hq0 Hq1].
    split; [exact Hq0|]. split; [exact Hq1|]. split.
    + rewrite quotient_zero by exact Hmxpos. split.
      * intros Hz. exists gmn. split; [exact Hgmn|].
        apply computed_rate_zero; [exact (Hplain _ Hgmn)|exact Hgmn|].
        rewrite <- Hmn. exact Hz.
      * intros (h & Hh & Hhz).
        apply (computed_rate_zero h items (Hplain _ Hh) Hh) in Hhz.
        specialize (Hmn_le _ (Hrate h Hh)). lra.
    + intros Hlead. rewrite quotient_one by exact Hmxpos. split.
      * intros Heq a b Ha Hb.
        rewrite <- !computed_rate_leading by auto.
        pose proof (Hmn_le _ (Hrate a Ha)). pose proof (Hmx_le _ (Hrate a Ha)).
        pose proof (Hmn_le _ (Hrate b Hb)). pose proof (Hmx_le _ (Hrate b Hb)).
        lra.
      * intros Hall. rewrite Hmn, Hmx.
        rewrite !computed_rate_leading by auto. apply Hall; assumption.
Qed.

Lemma calculateDisparateImpact_range_witness :
  plain_labels ["a"; "a"; "b"; "b"] = true
  /\ exists q,
       calculateDisparateImpact [Fin (9 # 10); Fin (1 # 2); Fin (9 # 10); Fin (9 # 10)]
         ["a"; "a"; "b"; "b"] = Fin q
       /\ (0 <= q)%Q /\ (q <= 1)%Q.
Proof.
  split; [reflexivity|].
  destruct (calculateDisparateImpact_range
              [Fin (9 # 10); Fin (1 # 2); Fin (9 # 10); Fin (9 # 10)]
              ["a"; "a"; "b"; "b"] eq_refl) as [_ H].
  destruct H as (q & Hq & H0 & H1 & _).
  - exists "a". vm_compute. lia.
  - exists q. auto.
Defined.

(** The counterexample to C4 as stated: a group without a favorable outcome
    gives the ratio 0, outside (0, 1]; two groups with the same rate 0 give
    [NaN], not 1; and so does a single group, of rate 1, whose label names
    a member of [Object.prototype], the counters of such a label being
    [NaN].  Each group has exactly one member. *)
Lemma calculateDisparateImpact_zero_and_undefined :
  members "a" (labelled [Fin (9 # 10); Fin (1 # 2)] ["a"; "b"]) = 1%nat
  /\ members "b" (labelled [Fin (9 # 10); Fin (1 # 2)] ["a"; "b"]) = 1%nat
  /\ same_number (calculateDisparateImpact [Fin (9 # 10); Fin (1 # 2)] ["a"; "b"])
       (Fin 0) = true
  /\ Qeq_bool (rate "a" (labelled [Fin (1 # 2); Fin (1 # 2)] ["a"; "b"]))
              (rate "b" (labelled [Fin (1 # 2); Fin (1 # 2)] ["a"; "b"])) = true
  /\ calculateDisparateImpact [Fin (1 # 2); Fin (1 # 2)] ["a"; "b"] = NaN
  /\ Qeq_bool (rate "constructor" (labelled [Fin (9 # 10)] ["constructor"])) 1 = true
  /\ calculateDisparateImpact [Fin (9 # 10)] ["constructor"] = NaN.
Proof. repeat split; vm_compute; reflexivity. Qed.

(** Two groups of two, each with its first prediction favorable and the
    rate 1/2: the ratio is 1. *)
Example calculateDisparateImpact_equal_rates :
  leading_favorable (labelled [Fin (9 # 10); Fin (1 # 2); Fin (9 # 10); Fin (1 # 2)]
                       ["a"; "a"; "b"; "b"]) = true
  /\ same_number (calculateDisparateImpact
                    [Fin (9 # 10); Fin (1 # 2); Fin (9 # 10); Fin (1 # 2)]
                    ["a"; "a"; "b"; "b"]) (Fin 1) = true.
Proof. split; vm_compute; reflexivity. Qed.

(** A group is counted afresh as long as it has no favorable outcome: here
    both groups have the rate 1/2, and the ratio is 1/2. *)
Example calculateDisparateImpact_recounts :
  Qeq_bool (rate "a" (labelled [Fin (1 # 2); Fin (9 # 10); Fin (9 # 10); Fin (1 # 2)]
                        ["a"; "a"; "b"; "b"])) (1 # 2) = true
  /\ Qeq_bool (rate "b" (labelled [Fin (1 # 2); Fin (9 # 10); Fin (9 # 10); Fin (1 # 2)]
                           ["a"; "a"; "b"; "b"])) (1 # 2) = true
  /\ same_number (calculateDisparateImpact
                    [Fin (1 # 2); Fin (9 # 10); Fin (9 # 10); Fin (1 # 2)]
                    ["a"; "a"; "b"; "b"]) (Fin (1 # 2)) = true.
Proof. repeat split; vm_compute; reflexivity. Qed.

(** A label that names a member of [Object.prototype] is not counted: the
    inherited member stands where the count would, the increment makes it
    [NaN], and the next member of the group starts the count over.  The
    accessor [__proto__] leaves no entry at all. *)
Example calculateDisparateImpact_inherited_labels :
  outcome_counts [("constructor", true)]
    = ({[ "constructor" := NaN ]}, {[ "constructor" := NaN ]})
  /\ outcome_counts [("constructor", false)] = (∅, {[ "constructor" := NaN ]})
  /\ outcome_counts [("__proto__", true)] = (∅, ∅)
  /\ calculateDisparateImpact [Fin (9 # 10)] ["__proto__"] = NaN
  /\ calculateDistribution ["toString"; "a"] = {[ "toString" := NaN; "a" := Fin (1 # 2) ]}
  /\ calculateDistribution ["__proto__"; "a"] = {[ "a" := Fin (1 # 2) ]}.
Proof. repeat split; vm_compute; reflexivity. Qed.

End BiasDetection.

(** ** biasMitigation.js *)
Module BiasMitigation.
Import JS BiasDetection.

Definition REWEIGHTING : string := "reweighting".
Definition THRESHOLD_ADJUSTMENT : string := "threshold_adjustment".
Definition ENSEMBLE : string := "ensemble".

(** [MITIGATION_THRESHOLD] is read at lines 104 and 282.  The module
    declares [CONFIG], [MITIGATION_STRATEGIES] and its functions, imports
    [tf] and [detectBias], and nothing else; no file of the repository
    defines a global of that name.  Evaluating the identifier is a
    [ReferenceError]. *)
Definition MITIGATION_THRESHOLD : completion number :=
  Throw "MITIGATION_THRESHOLD is not defined".

(** [array.some(callback)]. *)
Fixpoint some {A} (callback : A -> completion bool) (array : list A) : completion bool :=
  match array with
  | [] => Ok false
  | x :: rest =>
      found ← callback x;
      if found : bool then Ok true else some callback rest
  end.

Fixpoint foldlM {A B} (f : A -> B -> completion A) (a : A) (l : list B) : completion A :=
  match l with
  | [] => Ok a
  | x :: rest => a' ← f a x; foldlM f a' rest
  end.

Definition needsMitigation (biasMetrics : BiasMetrics) : completion bool :=
  let disparateImpactScores := (map_to_list (disparateImpact biasMetrics)).*2 in
  hasSignificantDisparateImpact ←
    some (fun score => threshold ← MITIGATION_THRESHOLD; Ok (nlt score threshold))
         disparateImpactScores;
  let hasSystematicBias :=
    negb (String.eqb (severity (systematicBias biasMetrics)) "low") in
  Ok (hasSignificantDisparateImpact || hasSystematicBias).

Definition determineStrategies (biasMetrics : BiasMetrics) : list string :=
  let strategies := [] in
  let strategies :=
    if existsb (fun score => nlt score (Fin (8 # 10)))
               (map_to_list (disparateImpact biasMetrics)).*2
    then (strategies ++ [REWEIGHTING])%list else strategies in
  let strategies :=
    if bool_decide (0 < length (patterns (systematicBias biasMetrics)))%nat
    then (strategies ++ [THRESHOLD_ADJUSTMENT])%list else strategies in
  let strategies :=
    if String.eqb (severity (systematicBias biasMetrics)) "high"
    then (strategies ++ [ENSEMBLE])%list else strategies in
  strategies.

Definition calculateBalancingWeights (distribution : gmap string number)
  : gmap string number :=
  let targetProportion := ndiv (Fin 1) (of_nat (size distribution)) in
  assign_each (fun key proportion => ndiv targetProportion proportion) distribution.

(** The module's own [calculateDistribution] is the one of
    [biasDetection.js], line for line. *)
Definition applyReweighting (metadata : gmap string (list string))
  : gmap string (gmap string number) :=
  assign_each (fun attribute values =>
                 calculateBalancingWeights (calculateDistribution values))
              metadata.

Definition calculateOptimalThreshold (disparateImpactScore : number) : completion number :=
  let threshold := Fin (1 # 2) in
  limit ← MITIGATION_THRESHOLD;
  let threshold :=
    if nlt disparateImpactScore limit then nmul threshold disparateImpactScore
    else threshold in
  Ok (Math_max [Fin (1 # 10); Math_min [threshold; Fin (9 # 10)]]).

Definition adjustThresholds (biasMetrics : BiasMetrics) : completion (gmap string number) :=
  foldlM (fun (thresholds : gmap string number) (entry : string * number) =>
            threshold ← calculateOptimalThreshold entry.2;
            Ok (<[entry.1 := threshold]> thresholds))
         ∅ (map_to_list (disparateImpact biasMetrics)).

Record Improvement := {
  improvement_disparateImpact : gmap string number;
  improvement_systematicBias : bool
}.

Definition calculateImprovement (original mitigated : BiasMetrics) : Improvement :=
  {| improvement_disparateImpact :=
       map_imap (fun attribute score =>
                   Some (nsub (default NaN (disparateImpact mitigated !! attribute)) score))
                (disparateImpact original);
     improvement_systematicBias :=
       String.eqb (severity (systematicBias mitigated)) "low"
       && negb (String.eqb (severity (systematicBias original)) "low") |}.

Section Model.

(** The model and TensorFlow.js: [model.predict(tf.tensor(metadata.input))]
    as a function of the metadata, and what [biasDetection.js] takes from
    the library. *)
Variable Model : Type.
Variable predict : Model -> gmap string (list string) -> completion (list number).
Variable Tensor : Type.
Variables tf_mean tf_std : list number -> Tensor.
Variables tensor_array tensor_operand : Tensor -> number.

Record Ensemble := {
  ensemble_models : list Model;
  ensemble_weights : list number;
  combinationStrategy : string
}.

Definition createEnsemble (model : Model) : Ensemble :=
  {| ensemble_models := [model];
     ensemble_weights := [Fin 1];
     combinationStrategy := "weighted_average" |}.

Record Evaluation := {
  originalMetrics : BiasMetrics;
  mitigatedMetrics : BiasMetrics;
  improvement : Improvement
}.

Definition evaluateMitigation (now : string) (model : Model)
    (originalBiasMetrics : BiasMetrics) (metadata : gmap string (list string))
  : completion Evaluation :=
  mitigatedPredictions ← predict model metadata;
  let newBiasMetrics :=
    detectBias Tensor tf_mean tf_std tensor_array tensor_operand now
      mitigatedPredictions metadata in
  Ok {| originalMetrics := originalBiasMetrics;
        mitigatedMetrics := newBiasMetrics;
        improvement := calculateImprovement originalBiasMetrics newBiasMetrics |}.

Record Adjustments := {
  weights : option (gmap string (gmap string number));
  thresholds : option (gmap string number);
  ensemble : option Ensemble
}.

(** [performance] is [{}] until the evaluation fills it. *)
Record MitigationResults := {
  appliedStrategies : list string;
  adjustments : Adjustments;
  performance : option Evaluation;
  intersectionalBias : gmap string value;
  contextualBias : gmap string value
}.

Definition apply_strategy (model : Model) (biasMetrics : BiasMetrics)
    (metadata : gmap string (list string))
    (mitigationResults : MitigationResults) (strategy : string)
  : completion MitigationResults :=
  let adjusted := adjustments mitigationResults in
  adjusted ←
    (if String.eqb strategy REWEIGHTING
     then Ok {| weights := Some (applyReweighting metadata);
                thresholds := thresholds adjusted;
                ensemble := ensemble adjusted |}
     else if String.eqb strategy THRESHOLD_ADJUSTMENT
     then new_thresholds ← adjustThresholds biasMetrics;
          Ok {| weights := weights adjusted;
                thresholds := Some new_thresholds;
                ensemble := ensemble adjusted |}
     else if String.eqb strategy ENSEMBLE
     then Ok {| weights := weights adjusted;
                thresholds := thresholds adjusted;
                ensemble := Some (createEnsemble model) |}
     else Ok adjusted);
  Ok {| appliedStrategies := (appliedStrategies mitigationResults ++ [strategy])%list;
        adjustments := adjusted;
        performance := performance mitigationResults;
        intersectionalBias := intersectionalBias mitigationResults;
        contextualBias := contextualBias mitigationResults |}.

(** [None] is the [null] the [catch] returns. *)
Definition mitigateBias (now : string) (model : Model) (biasMetrics : BiasMetrics)
    (metadata : gmap string (list string)) : option MitigationResults :=
  let mitigationResults :=
    {| appliedStrategies := [];
       adjustments := {| weights := None; thresholds := None; ensemble := None |};
       performance := None;
       intersectionalBias := ∅;
       contextualBias := ∅ |} in
  let attempt :=
    needed ← needsMitigation biasMetrics;
    if needed : bool
    then
      let strategies := determineStrategies biasMetrics in
      mitigationResults ←
        foldlM (apply_strategy model biasMetrics metadata) mitigationResults strategies;
      evaluation ← evaluateMitigation now model biasMetrics metadata;
      Ok {| appliedStrategies := appliedStrategies mitigationResults;
            adjustments := adjustments mitigationResults;
            performance := Some evaluation;
            intersectionalBias := intersectionalBias mitigationResults;
            contextualBias := contextualBias mitigationResults |}
    else Ok mitigationResults in
  match attempt with
  | Ok results => Some results
  | Throw _ => None
  end.

End Model.

(** The metrics of the scenario: ratios [{A: 0.5, B: 0.9}], severity
    ['low'], no pattern. *)
Definition scenario_metrics : BiasMetrics :=
  {| disparateImpact := list_to_map [("A", Fin (1 # 2)); ("B", Fin (9 # 10))];
     equalOpportunity := ∅;
     predictiveParity := ∅;
     systematicBias := {| patterns := []; severity := "low" |};
     timestamp := "2024-01-01T00:00:00.000Z";
     confidenceScore := Fin (7 # 10) |}.

Lemma some_throws {A} (callback : A -> completion bool) e x rest :
  callback x = Throw e -> some callback (x :: rest) = Throw e.
Proof. intros H. simpl. rewrite H. reflexivity. Qed.

(** As soon as there is one disparate-impact ratio, the test for
    mitigation throws. *)
Lemma needsMitigation_throws biasMetrics :
  disparateImpact biasMetrics <> ∅ ->
  needsMitigation biasMetrics = Throw "MITIGATION_THRESHOLD is not defined".
Proof.
  intros Hne. unfold needsMitigation.
  destruct (map_to_list (disparateImpact biasMetrics)) as [|[k x] l] eqn:E.
  - apply map_to_list_empty_iff in E. contradiction.
  - reflexivity.
Qed.

(** C3, on the code.  [determineStrategies] chooses exactly
    ['reweighting'] for the scenario, and the loop over that choice would
    apply it and nothing else; but [mitigateBias] never gets there:
    [needsMitigation] throws on the undeclared [MITIGATION_THRESHOLD], and
    the [catch] makes the result [null], whatever the model, the metadata
    and the library are. *)
Theorem mitigateBias_scenario_returns_null (Model : Type)
    (predict : Model -> gmap string (list string) -> completion (list number))
    (Tensor : Type) (tf_mean tf_std : list number -> Tensor)
    (tensor_array tensor_operand : Tensor -> number)
    (now : string) (model : Model) (metadata : gmap string (list string)) :
  determineStrategies scenario_metrics = ["reweighting"]
  /\ foldlM (apply_strategy Model model scenario_metrics metadata)
       {| appliedStrategies := [];
          adjustments := {| weights := None; thresholds := None; ensemble := None |};
          performance := None;
          intersectionalBias := ∅;
          contextualBias := ∅ |}
       (determineStrategies scenario_metrics)
     = Ok {| appliedStrategies := ["reweighting"];
             adjustments := {| weights := Some (applyReweighting metadata);
                               thresholds := None;
                               ensemble := None |};
             performance := None;
             intersectionalBias := ∅;
             contextualBias := ∅ |}
  /\ needsMitigation scenario_metrics = Throw "MITIGATION_THRESHOLD is not defined"
  /\ mitigateBias Model predict Tensor tf_mean tf_std tensor_array tensor_operand
       now model scenario_metrics metadata = None.
Proof.
  assert (H : needsMitigation scenario_metrics
              = Throw "MITIGATION_THRESHOLD is not defined").
  { apply needsMitigation_throws. intros Hempty.
    assert (Hl : disparateImpact scenario_metrics !! "A" = Some (Fin (1 # 2)))
      by (vm_compute; reflexivity).
    rewrite Hempty, lookup_empty in Hl. discriminate. }
  assert (Hs : determineStrategies scenario_metrics = ["reweighting"])
    by (vm_compute; reflexivity).
  split; [exact Hs|]. split; [rewrite Hs; reflexivity|]. split; [exact H|].
  unfold mitigateBias. rewrite H. reflexivity.
Qed.

End BiasMitigation.

(** ** Regular expressions

    The fragment the bias patterns are written in: literal characters,
    alternation, groups and the word boundary, matched by backtracking,
    with the flags [i] and [g]. *)
Module RegExp.

Inductive pattern :=
| Empty
| Char (c : ascii)
| WordBoundary
| Seq (p q : pattern)
| Alt (p q : pattern)
| Group (p : pattern).

Record regex := {
  source : pattern;
  ignoreCase : bool;
  global : bool
}.

Fixpoint literal (s : string) : pattern :=
  match s with
  | EmptyString => Empty
  | String c rest => Seq (Char c) (literal rest)
  end.

Definition between (lo hi c : ascii) : bool :=
  (nat_of_ascii lo <=? nat_of_ascii c)%nat && (nat_of_ascii c <=? nat_of_ascii hi)%nat.

(** [\w]. *)
Definition is_word_char (c : ascii) : bool :=
  between "a" "z" c || between "A" "Z" c || between "0" "9" c || Ascii.eqb c "_".

Definition upper (c : ascii) : ascii :=
  if between "a" "z" c then ascii_of_nat (nat_of_ascii c - 32) else c.

Definition lower (c : ascii) : ascii :=
  if between "A" "Z" c then ascii_of_nat (nat_of_ascii c + 32) else c.

Definition same_char (ignore_case : bool) (c d : ascii) : bool :=
  if ignore_case then Ascii.eqb (upper c) (upper d) else Ascii.eqb c d.

Definition word_at (text : string) (i : nat) : bool :=
  match String.get i text with
  | Some c => is_word_char c
  | None => false
  end.

(** [\b] holds at [i] when exactly one of the characters before and after
    is a word character. *)
Definition at_boundary (text : string) (i : nat) : bool :=
  xorb (match i with O => false | S j => word_at text j end) (word_at text i).

(** The end of the first match of [p] at [i] that the continuation
    accepts. *)
Fixpoint run (p : pattern) (ignore_case : bool) (text : string) (i : nat)
    (k : nat -> option nat) : option nat :=
  match p with
  | Empty => k i
  | Char c =>
      match String.get i text with
      | Some d => if same_char ignore_case c d then k (S i) else None
      | None => None
      end
  | WordBoundary => if at_boundary text i then k i else None
  | Seq p q => run p ignore_case text i (fun j => run q ignore_case text j k)
  | Alt p q =>
      match run p ignore_case text i k with
      | Some e => Some e
      | None => run q ignore_case text i k
      end
  | Group p => run p ignore_case text i k
  end.

(** The leftmost match starting at one of the [count] positions from [i]
    on. *)
Fixpoint search (r : regex) (text : string) (i count : nat) : option (nat * nat) :=
  match count with
  | O => None
  | S count' =>
      match run (source r) (ignoreCase r) text i Some with
      | Some e => Some (i, e)
      | None => search r text (S i) count'
      end
  end.

Record match_result := {
  matched : string;
  index : nat
}.

(** [r.exec(text)] with [r.lastIndex] as it is before and after the call.
    Without the [g] flag the search starts at 0 and [lastIndex] is left
    alone. *)
Definition exec (r : regex) (lastIndex : nat) (text : string)
  : option match_result * nat :=
  let start := if global r then lastIndex else 0%nat in
  if (String.length text <? start)%nat then (None, 0%nat)
  else
    match search r text start (S (String.length text - start)) with
    | Some (i, e) =>
        (Some {| matched := String.substring i (e - i) text; index := i |},
         if global r then e else lastIndex)
    | None => (None, if global r then 0%nat else lastIndex)
    end.

End RegExp.

(** ** biasDetectionSystem.js: the pattern scanner *)
Module BiasDetectionSystem.
Import JS.

Definition biasCategories : list string :=
  ["gender"; "race"; "age"; "disability"; "socioeconomic"; "cultural";
   "language"; "religion"; "nationality"].

Definition modelId : string := "bias-detection-v2".

Record BiasPattern := {
  pattern : RegExp.regex;
  weight : Q
}.

(** [/\b(alternatives)rest\b/i]: none of the patterns has the [g] flag. *)
Definition word_phrase (alternatives : RegExp.pattern) (rest : string) : RegExp.regex :=
  {| RegExp.source :=
       RegExp.Seq RegExp.WordBoundary
         (RegExp.Seq (RegExp.Group alternatives)
            (RegExp.Seq (RegExp.literal rest) RegExp.WordBoundary));
     RegExp.ignoreCase := true;
     RegExp.global := false |}.

Definition either (a b : string) : RegExp.pattern :=
  RegExp.Alt (RegExp.literal a) (RegExp.literal b).

Definition getBiasPatterns (category : string) : list BiasPattern :=
  if String.eqb category "gender" then
    [ {| pattern := word_phrase (either "he" "she") " is assumed"; weight := 8 # 10 |};
      {| pattern := word_phrase (either "male" "female") " only"; weight := 9 # 10 |} ]
  else if String.eqb category "disability" then
    [ {| pattern := word_phrase (either "normal" "abnormal") " person"; weight := 9 # 10 |};
      {| pattern := word_phrase (either "suffering" "victim") " of"; weight := 7 # 10 |} ]
  else [].

Record BiasInstance := {
  text : string;
  index : nat;
  context : string
}.

Record CategoryScore := {
  score : Q;
  instances : list BiasInstance;
  severity : string
}.

Definition getMatchContext (text : string) (index : nat) : string :=
  let contextSize := 50%nat in
  let start := Nat.max 0 (index - contextSize) in
  let stop := Nat.min (String.length text) (index + contextSize) in
  String.substring start (stop - start) text.

Definition calculateSeverity (score : Q) : string :=
  if Qle_bool (9 # 10) score then "critical"
  else if Qle_bool (7 # 10) score then "high"
  else if Qle_bool (4 # 10) score then "medium"
  else "low".

(** A computation that returns, throws, or is still running when the fuel
    is spent. *)
Inductive run (A : Type) :=
| Returns (a : A)
| Throws (message : string)
| Unfinished.
Arguments Returns {A} a.
Arguments Throws {A} message.
Arguments Unfinished {A}.

Definition run_bind {A B} (c : run A) (k : A -> run B) : run B :=
  match c with
  | Returns a => k a
  | Throws e => Throws e
  | Unfinished => Unfinished
  end.

Definition of_completion {A} (c : completion A) : run A :=
  match c with
  | Ok a => Returns a
  | Throw e => Throws e
  end.

(** The [while] loop of [findPatternMatches]: the array built so far and
    the [lastIndex] of the pattern. *)
Record Scan := {
  lastIndex : nat;
  matches : list BiasInstance
}.

(** One evaluation of the loop condition and, on a match, of the body:
    the next state, or the array the function returns. *)
Definition scan_step (text : string) (r : RegExp.regex) (s : Scan)
  : Scan + list BiasInstance :=
  match RegExp.exec r (lastIndex s) text with
  | (Some m, lastIndex') =>
      inl {| lastIndex := lastIndex';
             matches := (matches s ++
               [{| text := RegExp.matched m;
                   index := RegExp.index m;
                   context := getMatchContext text (RegExp.index m) |}])%list |}
  | (None, _) => inr (matches s)
  end.

Fixpoint scan_loop (fuel : nat) (text : string) (r : RegExp.regex) (s : Scan)
  : run (list BiasInstance) :=
  match fuel with
  | O => Unfinished
  | S fuel' =>
      match scan_step text r s with
      | inl s' => scan_loop fuel' text r s'
      | inr result => Returns result
      end
  end.

(** The state after [n] turns of the loop, if it is still running then. *)
Fixpoint scan_after (n : nat) (text : string) (r : RegExp.regex) (s : Scan) : option Scan :=
  match n with
  | O => Some s
  | S n' =>
      match scan_step text r s with
      | inl s' => scan_after n' text r s'
      | inr _ => None
      end
  end.

Section Scanner.

(** The string [exec] converts a [text] that is not a string to. *)
Variable ToString : value -> string.

(** [content.text || '']. *)
Definition text_of (content : value) : completion string :=
  text ← get content "text";
  Ok (match or_else text (VStr EmptyString) with
      | VStr s => s
      | other => ToString other
      end).

Definition findPatternMatches (fuel : nat) (content : value) (p : BiasPattern)
  : run (list BiasInstance) :=
  run_bind (of_completion (text_of content)) (fun text =>
  scan_loop fuel text (pattern p) {| lastIndex := 0; matches := [] |}).

(** The body of the loop over the patterns of a category. *)
Definition add_matches (p : BiasPattern) (found : list BiasInstance)
    (acc : Q * list BiasInstance) : Q * list BiasInstance :=
  if (0 <? length found)%nat
  then ((acc.1 + inject_Z (Z.of_nat (length found)) * weight p)%Q,
        (acc.2 ++ found)%list)
  else acc.

Fixpoint scan_patterns (fuel : nat) (content : value) (patterns : list BiasPattern)
    (acc : Q * list BiasInstance) : run (Q * list BiasInstance) :=
  match patterns with
  | [] => Returns acc
  | p :: rest =>
      run_bind (findPatternMatches fuel content p) (fun found =>
      scan_patterns fuel content rest (add_matches p found acc))
  end.

Definition category_score (acc : Q * list BiasInstance) : CategoryScore :=
  {| score := acc.1; instances := acc.2; severity := calculateSeverity acc.1 |}.

Definition analyzeCategoryBias (fuel : nat) (content : value) (category : string)
  : run CategoryScore :=
  run_bind (scan_patterns fuel content (getBiasPatterns category) (0%Q, []))
           (fun acc => Returns (category_score acc)).

Fixpoint detect_categories (fuel : nat) (content : value) (categories : list string)
    (detectedBias : gmap string CategoryScore) : run (gmap string CategoryScore) :=
  match categories with
  | [] => Returns detectedBias
  | category :: rest =>
      run_bind (analyzeCategoryBias fuel content category) (fun categoryScore =>
      detect_categories fuel content rest
        (if Qlt_bool 0 (score categoryScore)
         then <[category := categoryScore]> detectedBias
         else detectedBias))
  end.

Definition detectBias (fuel : nat) (processedContent : value)
  : run (gmap string CategoryScore) :=
  detect_categories fuel processedContent biasCategories ∅.

End Scanner.

(** *** Suggestions *)

Definition getCategoryRecommendations (category : string) : list string :=
  if String.eqb category "gender" then
    ["Use gender-neutral language"; "Avoid gender stereotypes";
     "Include diverse perspectives"]
  else if String.eqb category "disability" then
    ["Use person-first language"; "Focus on capabilities"; "Avoid ableist language"]
  else [].

Definition toLowerCase (s : string) : string :=
  string_of_list_ascii (map RegExp.lower (list_ascii_of_string s)).

(** [alternativesMap[category]?.[text.toLowerCase()] || []]. *)
Definition findAlternatives (category text : string) : list string :=
  let key := toLowerCase text in
  if String.eqb category "gender" then
    if String.eqb key "he is assumed" || String.eqb key "she is assumed"
    then ["they are assumed"; "the person is assumed"] else []
  else if String.eqb category "disability" then
    if String.eqb key "normal person" then ["person"; "individual"]
    else if String.eqb key "suffering from" then ["living with"; "experiencing"]
    else []
  else [].

Definition getLanguageAlternatives (category : string) (instances : list BiasInstance)
  : gmap string (list string) :=
  foldl (fun (alternatives : gmap string (list string)) instance =>
           <[text instance := findAlternatives category (text instance)]> alternatives)
        ∅ instances.

Record Suggestion := {
  recommendations : list string;
  alternatives : gmap string (list string)
}.

Definition generateMitigationStrategies (biasResults : gmap string CategoryScore)
  : gmap string Suggestion :=
  map_imap (fun category result =>
              Some {| recommendations := getCategoryRecommendations category;
                      alternatives := getLanguageAlternatives category (instances result) |})
           biasResults.

(** *** Metrics *)

Definition countTotalInstances (results : gmap string CategoryScore) : nat :=
  foldl (fun total result => (total + length (instances result))%nat) 0%nat
        (map_to_list results).*2.

(** [distribution[result.severity]++]: a severity that is not a key of the
    object, ['critical'], gets [NaN]. *)
Definition calculateSeverityDistribution (results : gmap string CategoryScore)
  : gmap string number :=
  foldl (fun (distribution : gmap string number) result =>
           <[severity result :=
               nadd (default NaN (distribution !! severity result)) (Fin 1)]>
             distribution)
        (list_to_map [("high", Fin 0); ("medium", Fin 0); ("low", Fin 0)])
        (map_to_list results).*2.

Definition analysis_metrics (timestamp : string) (results : gmap string CategoryScore)
  : value :=
  VObj (list_to_map
    [("timestamp", VStr timestamp);
     ("categoriesAnalyzed", VNum (of_nat (size results)));
     ("biasInstances", VNum (of_nat (countTotalInstances results)));
     ("severityDistribution", VObj (VNum <$> calculateSeverityDistribution results))]).

(** ** biasDetectionSystem.js: the coordinator *)

(** The two singletons the coordinator works on, and the steps taken. *)
Record World := {
  privacySettings : gmap string value;
  modelManager : MLModelManager.Manager;
  steps : list PrivacyHandler.step
}.

Definition record_steps (new : list PrivacyHandler.step) (w : World) : World :=
  {| privacySettings := privacySettings w;
     modelManager := modelManager w;
     steps := (steps w ++ new)%list |}.

(** A computation on the world; what it changed before throwing stays
    changed. *)
Inductive outcome (A : Type) :=
| Done (a : A) (w : World)
| Raised (message : string) (w : World)
| Running.
Arguments Done {A} a w.
Arguments Raised {A} message w.
Arguments Running {A}.

Definition action (A : Type) : Type := World -> outcome A.

Definition unit_action {A} (a : A) : action A := fun w => Done a w.

Definition then_action {A B} (c : action A) (k : A -> action B) : action B :=
  fun w =>
    match c w with
    | Done a w' => k a w'
    | Raised e w' => Raised e w'
    | Running => Running
    end.

Notation "x <- c ;; k" := (then_action c (fun x => k))
  (at level 100, c at next level, right associativity).

Definition of_run {A} (c : run A) : action A :=
  fun w =>
    match c with
    | Returns a => Done a w
    | Throws e => Raised e w
    | Unfinished => Running
    end.

Definition stepping (s : PrivacyHandler.step) : action unit :=
  fun w => Done tt (record_steps [s] w).

(** [try { body } catch (error) { return {success: false, error: error.message} }]. *)
Definition try_catch {A} (body : action (response A)) : action (response A) :=
  fun w =>
    match body w with
    | Raised e w' => Done (Failure e) w'
    | other => other
    end.

(** The methods the class body declares: lines 10 to 341. *)
Definition declared_methods : list string :=
  ["constructor"; "initialize"; "analyzeContent"; "detectBias";
   "analyzeCategoryBias"; "getBiasPatterns"; "findPatternMatches";
   "getMatchContext"; "calculateSeverity"; "generateMitigationStrategies";
   "getCategoryRecommendations"; "getLanguageAlternatives"; "findAlternatives";
   "trackAnalysisMetrics"; "countTotalInstances"; "calculateSeverityDistribution"].

(** [this.name(...)]: calling what is not a method of the class is a
    [TypeError]. *)
Definition this_call {A} (name : string) (body : action A) : action A :=
  fun w =>
    if bool_decide (name ∈ declared_methods) then body w
    else Raised ("this." ++ name ++ " is not a function") w.

Definition processData (sha256_hex : value -> string)
    (StringToNumber : string -> number) (NumberToString : number -> string) (data : value)
  : action (response value) :=
  fun w =>
    let '(reply, taken) :=
      PrivacyHandler.processData sha256_hex StringToNumber NumberToString data
        (privacySettings w) in
    Done reply (record_steps taken w).

(** [modelManager.trackPerformance] reports a failure instead of throwing;
    the coordinator does not look at the report. *)
Definition trackAnalysisMetrics (timestamp tracked_at : string)
    (results : gmap string CategoryScore) : action unit :=
  fun w =>
    let metrics := analysis_metrics timestamp results in
    let '(manager, _) :=
      MLModelManager.trackPerformance tracked_at modelId metrics (modelManager w) in
    Done tt {| privacySettings := privacySettings w;
               modelManager := manager;
               steps := (steps w ++ [PrivacyHandler.TrackPerformance])%list |}.

Section Coordinator.

Variable sha256_hex : value -> string.
Variable StringToNumber : string -> number.
Variable NumberToString : number -> string.
Variable ToString : value -> string.

(** [intersectionalAnalysis.analyzeIntersections], of the module
    [intersectionalAnalysis.js]: its result and the recommendations in it. *)
Variable Intersections : Type.
Variable analyzeIntersections : gmap string CategoryScore -> completion Intersections.
Variable intersection_recommendations : Intersections -> list string.

(** [analyzeContent] calls five methods that [declared_methods] does not
    have.  What their bodies would be is left open. *)
Variable extractContext : value -> completion value.
Variable getUserPreferences : completion value.
Variable updateAdaptiveThresholds : gmap string CategoryScore -> completion unit.
Variable calculateConfidence : gmap string CategoryScore -> completion number.
Variable getPerformanceMetrics : completion value.

Record Report := {
  biasDetected : gmap string CategoryScore;
  intersectionalAnalysis : Intersections;
  suggestions_individual : gmap string Suggestion;
  suggestions_intersectional : list string;
  confidence : number;
  performance : value
}.

(** [timestamp] and [tracked_at] are the two readings of the clock, in
    [trackAnalysisMetrics] and in [trackPerformance]. *)
Definition analyzeContent (fuel : nat) (timestamp tracked_at : string) (content : value)
  : action (response Report) :=
  try_catch (
    reply <- processData sha256_hex StringToNumber NumberToString content ;;
    let processedContent :=
      match reply with
      | Success data => data
      | Failure _ => VUndefined
      end in
    context <- this_call "extractContext"
                 (_ <- stepping PrivacyHandler.ExtractContext ;;
                  of_run (of_completion (extractContext processedContent))) ;;
    results <- this_call "detectBias"
                 (_ <- stepping PrivacyHandler.DetectBias ;;
                  of_run (detectBias ToString fuel processedContent)) ;;
    userPreferences <- this_call "getUserPreferences"
                         (of_run (of_completion getUserPreferences)) ;;
    mitigationSuggestions <- this_call "generateMitigationStrategies"
                               (unit_action (generateMitigationStrategies results)) ;;
    _ <- this_call "trackAnalysisMetrics"
           (trackAnalysisMetrics timestamp tracked_at results) ;;
    _ <- this_call "updateAdaptiveThresholds"
           (of_run (of_completion (updateAdaptiveThresholds results))) ;;
    _ <- stepping PrivacyHandler.AnalyzeIntersections ;;
    intersectionalResults <- of_run (of_completion (analyzeIntersections results)) ;;
    confidence <- this_call "calculateConfidence"
                    (of_run (of_completion (calculateConfidence results))) ;;
    performance <- this_call "getPerformanceMetrics"
                     (of_run (of_completion getPerformanceMetrics)) ;;
    unit_action (Success
      {| biasDetected := results;
         intersectionalAnalysis := intersectionalResults;
         suggestions_individual := mitigationSuggestions;
         suggestions_intersectional := intersection_recommendations intersectionalResults;
         confidence := confidence;
         performance := performance |})).

End Coordinator.

(** *** A scan without a match *)

Section ScannerFacts.

Variable ToString : value -> string.

Lemma scan_patterns_no_match fuel content text patterns acc :
  text_of ToString content = Ok text ->
  (forall p, p ∈ patterns -> (RegExp.exec (pattern p) 0 text).1 = None) ->
  scan_patterns ToString (S fuel) content patterns acc = Returns acc.
Proof.
  intros Htext. revert acc. induction patterns as [|p rest IH]; intros acc Hnone.
  - reflexivity.
  - cbn [scan_patterns]. unfold findPatternMatches. rewrite Htext.
    cbn [of_completion run_bind scan_loop]. unfold scan_step. cbn [lastIndex matches].
    destruct (RegExp.exec (pattern p) 0 text) as [found li] eqn:E.
    specialize (Hnone p (list_elem_of_here _ _)) as Hp. rewrite E in Hp. simpl in Hp.
    subst found. cbn [run_bind]. unfold add_matches. simpl.
    apply IH. intros q Hq. apply Hnone. right. exact Hq.
Qed.

Lemma detect_categories_no_match fuel content text categories detectedBias :
  text_of ToString content = Ok text ->
  (forall category p, p ∈ getBiasPatterns category ->
                      (RegExp.exec (pattern p) 0 text).1 = None) ->
  detect_categories ToString (S fuel) content categories detectedBias
  = Returns detectedBias.
Proof.
  intros Htext Hnone. induction categories as [|category rest IH]; [reflexivity|].
  cbn [detect_categories]. unfold analyzeCategoryBias.
  rewrite (scan_patterns_no_match fuel content text) by eauto.
  cbn [run_bind]. exact IH.
Qed.

(** When no pattern of any category matches the text, [detectBias]
    returns the empty object. *)
Lemma detectBias_no_match fuel content text :
  text_of ToString content = Ok text ->
  (forall category p, p ∈ getBiasPatterns category ->
                      (RegExp.exec (pattern p) 0 text).1 = None) ->
  detectBias ToString (S fuel) content = Returns ∅.
Proof. intros. eapply detect_categories_no_match; eauto. Qed.

End ScannerFacts.

(** *** The scenario of the specification *)

Definition scenario_text : string := "he is assumed to be the manager".

Definition scenario_content : value := VObj {[ "text" := VStr scenario_text ]}.

(** [/\b(he|she) is assumed\b/i], weight 0.8. *)
Definition gender_assumed : BiasPattern :=
  {| pattern := word_phrase (either "he" "she") " is assumed"; weight := 8 # 10 |}.

Definition scenario_instance : BiasInstance :=
  {| text := "he is assumed"; index := 0; context := scenario_text |}.

Lemma exec_without_global r lastIndex text :
  RegExp.global r = false ->
  RegExp.exec r lastIndex text = ((RegExp.exec r 0 text).1, lastIndex).
Proof.
  intros Hg. unfold RegExp.exec. rewrite Hg.
  destruct (String.length text <? 0)%nat eqn:E; [apply Nat.ltb_lt in E; lia|].
  destruct (RegExp.search r text 0 _) as [[i e]|]; reflexivity.
Qed.

Lemma scenario_step s :
  scan_step scenario_text (pattern gender_assumed) s
  = inl {| lastIndex := lastIndex s;
           matches := (matches s ++ [scenario_instance])%list |}.
Proof.
  unfold scan_step. rewrite exec_without_global by reflexivity.
  replace (RegExp.exec (pattern gender_assumed) 0 scenario_text).1
    with (Some {| RegExp.matched := "he is assumed"; RegExp.index := 0 |})
    by (vm_compute; reflexivity).
  reflexivity.
Qed.

Lemma scenario_loop_unfinished fuel : forall s,
  scan_loop fuel scenario_text (pattern gender_assumed) s = Unfinished.
Proof.
  induction fuel as [|fuel IH]; intros s; cbn [scan_loop]; [reflexivity|].
  rewrite scenario_step. apply IH.
Qed.

Lemma scenario_loop_grows n : forall s,
  scan_after n scenario_text (pattern gender_assumed) s
  = Some {| lastIndex := lastIndex s;
            matches := (matches s ++ replicate n scenario_instance)%list |}.
Proof.
  induction n as [|n IH]; intros s; cbn [scan_after replicate].
  - rewrite app_nil_r. destruct s; reflexivity.
  - rewrite scenario_step, IH. cbn [lastIndex matches].
    rewrite <- app_assoc. reflexivity.
Qed.

(** C2, where the code departs from it.  On the text of the scenario the
    scan never returns: the gender patterns lack the [g] flag, so [exec]
    starts at offset 0 on every turn of the [while] loop of
    [findPatternMatches], finds ['he is assumed'] there again, and the loop
    has appended [n] copies of that instance after [n] turns.  Whatever the
    fuel, [findPatternMatches], [analyzeCategoryBias] for the gender
    category and [detectBias] are still running when it is spent.  The text
    has that one match and no other, the pattern has the weight 0.8, and
    [calculateSeverity] gives the score 0.8 the tier ['high']. *)
Theorem scenario_scan_never_returns (ToString : value -> string) (fuel : nat) :
  getBiasPatterns "gender"
    = [gender_assumed;
       {| pattern := word_phrase (either "male" "female") " only"; weight := 9 # 10 |}]
  /\ RegExp.global (pattern gender_assumed) = false
  /\ findPatternMatches ToString fuel scenario_content gender_assumed = Unfinished
  /\ analyzeCategoryBias ToString fuel scenario_content "gender" = Unfinished
  /\ detectBias ToString fuel scenario_content = Unfinished
  /\ (forall n,
        scan_after n scenario_text (pattern gender_assumed)
          {| lastIndex := 0; matches := [] |}
        = Some {| lastIndex := 0; matches := replicate n scenario_instance |})
  /\ RegExp.exec (pattern gender_assumed) 0 scenario_text
     = (Some {| RegExp.matched := "he is assumed"; RegExp.index := 0 |}, 0%nat)
  /\ RegExp.search (pattern gender_assumed) scenario_text 1
       (String.length scenario_text) = None
  /\ Qeq_bool (weight gender_assumed) (8 # 10) = true
  /\ calculateSeverity (8 # 10) = "high".
Proof.
  assert (Hfind : findPatternMatches ToString fuel scenario_content gender_assumed
                  = Unfinished).
  { unfold findPatternMatches.
    change (text_of ToString scenario_content) with (Ok scenario_text).
    cbn [of_completion run_bind]. apply scenario_loop_unfinished. }
  assert (Hcategory : analyzeCategoryBias ToString fuel scenario_content "gender"
                      = Unfinished).
  { unfold analyzeCategoryBias.
    change (getBiasPatterns "gender") with
      [gender_assumed;
       {| pattern := word_phrase (either "male" "female") " only"; weight := 9 # 10 |}].
    cbn [scan_patterns]. rewrite Hfind. reflexivity. }
  split; [reflexivity|]. split; [reflexivity|]. split; [exact Hfind|].
  split; [exact Hcategory|]. split.
  { unfold detectBias, biasCategories. cbn [detect_categories].
    rewrite Hcategory. reflexivity. }
  split.
  { intros n. apply (scenario_loop_grows n {| lastIndex := 0; matches := [] |}). }
  repeat split; vm_compute; reflexivity.
Qed.

(** *** [analyzeContent] *)

Section CoordinatorFacts.

Variable sha256_hex : value -> string.
Variable StringToNumber : string -> number.
Variable NumberToString : number -> string.
Variable ToString : value -> string.
Variable Intersections : Type.
Variable analyzeIntersections : gmap string CategoryScore -> completion Intersections.
Variable intersection_recommendations : Intersections -> list string.
Variable extractContext : value -> completion value.
Variable getUserPreferences : completion value.
Variable updateAdaptiveThresholds : gmap string CategoryScore -> completion unit.
Variable calculateConfidence : gmap string CategoryScore -> completion number.
Variable getPerformanceMetrics : completion value.

Let analyze :=
  analyzeContent sha256_hex StringToNumber NumberToString ToString Intersections
    analyzeIntersections intersection_recommendations extractContext getUserPreferences
    updateAdaptiveThresholds calculateConfidence getPerformanceMetrics.

(** The call of [this.extractContext] ends the [try] block. *)
Lemma analyzeContent_stops_at_extractContext fuel timestamp tracked_at content w :
  analyze fuel timestamp tracked_at content w
  = Done (Failure "this.extractContext is not a function")
         (record_steps
            (PrivacyHandler.processData sha256_hex StringToNumber NumberToString content
               (privacySettings w)).2 w).
Proof.
  subst analyze. unfold analyzeContent, try_catch, then_action at 1, processData.
  destruct (PrivacyHandler.processData sha256_hex StringToNumber NumberToString content
              (privacySettings w)) as [reply taken].
  reflexivity.
Qed.

(** C1, on the code.  Whatever the content, the state and the fuel,
    [analyzeContent] ends in [{success: false, error}] and never in a
    success report: right after the privacy processing it calls
    [this.extractContext], which the class does not have.  The model
    registry and the settings are untouched, and the only step that may
    have been taken is the anonymization. *)
Theorem analyzeContent_always_fails fuel timestamp tracked_at content w :
  (forall report w',
     analyze fuel timestamp tracked_at content w <> Done (Success report) w')
  /\ exists w',
      analyze fuel timestamp tracked_at content w
      = Done (Failure "this.extractContext is not a function") w'
      /\ privacySettings w' = privacySettings w
      /\ modelManager w' = modelManager w
      /\ (steps w' = steps w
          \/ steps w' = (steps w ++ [PrivacyHandler.ApplyPrivacyMeasures])%list).
Proof.
  rewrite analyzeContent_stops_at_extractContext. split; [discriminate|].
  eexists. split; [reflexivity|]. simpl. split; [reflexivity|]. split; [reflexivity|].
  unfold PrivacyHandler.processData.
  destruct (negb _); simpl; [left; apply app_nil_r|].
  destruct (PrivacyHandler.applyPrivacyMeasures _ _); simpl; right; reflexivity.
Qed.

(** C6. With a consent flag that is false (or absent), [processData]
    answers [{success: false, error: 'User consent not provided'}] without
    entering the anonymization and without data in the answer; the request
    then ends in [{success: false, error}] with the settings, the model
    registry and the steps taken all unchanged: nothing was anonymized,
    scanned or tracked. *)
Theorem processData_requires_consent fuel timestamp tracked_at data w :
  truthy (default VUndefined (privacySettings w !! "consentStatus")) = false ->
  PrivacyHandler.processData sha256_hex StringToNumber NumberToString data (privacySettings w)
    = (Failure "User consent not provided", [])
  /\ exists error w',
       analyze fuel timestamp tracked_at data w = Done (Failure error) w'
       /\ privacySettings w' = privacySettings w
       /\ modelManager w' = modelManager w
       /\ steps w' = steps w.
Proof.
  intros Hconsent.
  assert (H : PrivacyHandler.processData sha256_hex StringToNumber NumberToString data
                (privacySettings w)
              = (Failure "User consent not provided", [])).
  { unfold PrivacyHandler.processData. rewrite Hconsent. reflexivity. }
  split; [exact H|].
  eexists _, _. split; [apply analyzeContent_stops_at_extractContext|].
  rewrite H. simpl. rewrite app_nil_r. auto.
Qed.

End CoordinatorFacts.

(** The world the extension starts in: consent not given, no model. *)
Definition initial_world : World :=
  {| privacySettings := PrivacyHandler.constructor;
     modelManager := MLModelManager.constructor;
     steps := [] |}.

Definition consenting_world : World :=
  {| privacySettings :=
       (PrivacyHandler.updateSettings (VObj {[ "consentStatus" := VBool true ]})
          PrivacyHandler.constructor).1;
     modelManager := MLModelManager.example_manager;
     steps := [] |}.

(** A run of the coordinator with every open part fixed: constant digest
    and string conversion, an intersectional analysis without
    recommendations, and bodies that return at once for the five methods
    the class lacks. *)
Definition sample_analyzeContent
  : nat -> string -> string -> value -> action (response (Report unit)) :=
  analyzeContent (fun _ => EmptyString) (fun _ => NaN) (fun _ => EmptyString)
    (fun _ => EmptyString) unit
    (fun _ => Ok tt) (fun _ => [])
    (fun _ => Ok VUndefined) (Ok VUndefined) (fun _ => Ok tt)
    (fun _ => Ok (Fin 0)) (Ok VUndefined).

Lemma processData_requires_consent_witness :
  truthy (default VUndefined (privacySettings initial_world !! "consentStatus")) = false
  /\ PrivacyHandler.processData (fun _ => EmptyString) (fun _ => NaN)
       (fun _ => EmptyString) scenario_content
       (privacySettings initial_world)
     = (Failure "User consent not provided", [])
  /\ exists error w',
       sample_analyzeContent 1 "2024-01-01T00:00:00.000Z" "2024-01-01T00:00:00.001Z"
         scenario_content initial_world
       = Done (Failure error) w'
       /\ privacySettings w' = privacySettings initial_world
       /\ modelManager w' = modelManager initial_world
       /\ steps w' = steps initial_world.
Proof.
  split; [reflexivity|].
  apply (processData_requires_consent (fun _ => EmptyString) (fun _ => NaN)
           (fun _ => EmptyString) (fun _ => EmptyString) unit
           (fun _ => Ok tt) (fun _ => []) (fun _ => Ok VUndefined) (Ok VUndefined)
           (fun _ => Ok tt) (fun _ => Ok (Fin 0)) (Ok VUndefined)
           1 "2024-01-01T00:00:00.000Z" "2024-01-01T00:00:00.001Z"
           scenario_content initial_world).
  reflexivity.
Defined.

(** With consent given and a content that no pattern matches, the answer
    is still the failure. *)
Example analyzeContent_hello_world :
  sample_analyzeContent 1 "2024-01-01T00:00:00.000Z" "2024-01-01T00:00:00.001Z"
    (VObj {[ "text" := VStr "hello world" ]}) consenting_world
  = Done (Failure "this.extractContext is not a function")
         (record_steps [PrivacyHandler.ApplyPrivacyMeasures] consenting_world).
Proof. vm_compute. reflexivity. Qed.

End BiasDetectionSystem.

(** ** mlModelManager.js: the registry over sequences of calls *)
Module ModelRegistry.
Import JS MLModelManager.

(** The entries of [example_manager]. *)
Definition example_model : value :=
  default VNull (models example_manager !! "bias-detection-v2").

Definition example_metadata : ModelMetadata :=
  {| version := "1.0.0"; lastUpdated := "2024-01-01T00:00:00.000Z";
     parameters := VObj (list_to_map [("threshold", VNum (Fin (3 # 4)))]);
     performance := ∅ |}.

Lemma example_model_stored :
  models example_manager !! "bias-detection-v2" = Some example_model.
Proof. vm_compute. reflexivity. Qed.

Lemma example_metadata_stored :
  modelMetadata example_manager !! "bias-detection-v2" = Some example_metadata.
Proof. vm_compute. reflexivity. Qed.

(** *** [trackPerformance] *)

Lemma trackPerformance_known now modelId metrics m md :
  modelMetadata m !! modelId = Some md ->
  trackPerformance now modelId metrics m
  = ({| models := models m;
        modelMetadata :=
          <[modelId := {| version := version md;
                          lastUpdated := lastUpdated md;
                          parameters := parameters md;
                          performance := <[now := metrics]> (performance md) |}]>
            (modelMetadata m) |},
     Success tt).
Proof. intros H. unfold trackPerformance. rewrite H. reflexivity. Qed.

(** X1. Tracking a model that has metadata succeeds and stores the metrics
    under the timestamp: the history then holds them there and is unchanged
    at every other timestamp, the version, the update time and the
    parameters stay, no model entry changes, and the history that
    [getVersionHistory] returns is the new one. *)
Theorem trackPerformance_records now modelId metrics m md :
  modelMetadata m !! modelId = Some md ->
  exists md',
    trackPerformance now modelId metrics m
    = ({| models := models m;
          modelMetadata := <[modelId := md']> (modelMetadata m) |}, Success tt)
    /\ performance md' !! now = Some metrics
    /\ (forall t, t <> now -> performance md' !! t = performance md !! t)
    /\ version md' = version md
    /\ lastUpdated md' = lastUpdated md
    /\ parameters md' = parameters md
    /\ getVersionHistory modelId (trackPerformance now modelId metrics m).1
       = Success {| currentVersion := version md;
                    history_lastUpdated := lastUpdated md;
                    history_performance := <[now := metrics]> (performance md) |}.
Proof.
  intros H. rewrite (trackPerformance_known _ _ _ _ _ H). eexists. split; [reflexivity|].
  simpl. split; [apply lookup_insert_eq|]. split.
  - intros t Ht. apply lookup_insert_ne. congruence.
  - repeat split. unfold getVersionHistory. simpl. rewrite lookup_insert_eq. reflexivity.
Qed.

Lemma trackPerformance_records_witness :
  modelMetadata example_manager !! "bias-detection-v2" = Some example_metadata
  /\ exists md',
    trackPerformance "2024-01-03T00:00:00.000Z" "bias-detection-v2" (VNum (Fin 1))
      example_manager
    = ({| models := models example_manager;
          modelMetadata := <["bias-detection-v2" := md']> (modelMetadata example_manager) |},
       Success tt)
    /\ performance md' !! "2024-01-03T00:00:00.000Z" = Some (VNum (Fin 1))
    /\ (forall t, t <> "2024-01-03T00:00:00.000Z" ->
          performance md' !! t = performance example_metadata !! t)
    /\ version md' = version example_metadata
    /\ lastUpdated md' = lastUpdated example_metadata
    /\ parameters md' = parameters example_metadata
    /\ getVersionHistory "bias-detection-v2"
         (trackPerformance "2024-01-03T00:00:00.000Z" "bias-detection-v2" (VNum (Fin 1))
            example_manager).1
       = Success {| currentVersion := version example_metadata;
                    history_lastUpdated := lastUpdated example_metadata;
                    history_performance :=
                      <["2024-01-03T00:00:00.000Z" := VNum (Fin 1)]>
                        (performance example_metadata) |}.
Proof.
  split; [exact example_metadata_stored|].
  exact (trackPerformance_records "2024-01-03T00:00:00.000Z" "bias-detection-v2"
           (VNum (Fin 1)) example_manager _ example_metadata_stored).
Defined.

(** X2. The history is keyed by the timestamp alone: a second snapshot
    tracked at the same timestamp replaces the first, so the registry ends
    as if only the second had been tracked; and tracking adds one entry to
    the history when the timestamp is new and none when it is already
    there. *)
Theorem trackPerformance_same_timestamp now modelId first second m :
  (trackPerformance now modelId second (trackPerformance now modelId first m).1).1
  = (trackPerformance now modelId second m).1
  /\ (forall md, modelMetadata m !! modelId = Some md ->
      exists md',
        modelMetadata (trackPerformance now modelId second m).1 !! modelId = Some md'
        /\ size (performance md')
           = if decide (is_Some (performance md !! now))
             then size (performance md) else S (size (performance md))).
Proof.
  split.
  - unfold trackPerformance at 2 3.
    destruct (modelMetadata m !! modelId) as [md|] eqn:Hmd; simpl.
    + unfold trackPerformance. simpl. rewrite lookup_insert_eq. simpl.
      rewrite !insert_insert_eq. reflexivity.
    + unfold trackPerformance. rewrite Hmd. reflexivity.
  - intros md Hmd. rewrite (trackPerformance_known _ _ _ _ _ Hmd). simpl.
    rewrite lookup_insert_eq. eexists. split; [reflexivity|]. simpl.
    destruct (decide (is_Some (performance md !! now))) as [[old Hold]|Hnone].
    + rewrite <- (insert_delete_id (performance md) now old Hold) at 2.
      rewrite <- (insert_delete_eq (performance md)).
      rewrite !map_size_insert_None by apply lookup_delete_eq. reflexivity.
    + apply map_size_insert_None. apply eq_None_not_Some. exact Hnone.
Qed.

(** *** [updateModel] *)

(** X3. An update whose configuration is [null] or [undefined] reports a
    failure and leaves the model entry alone, but the metadata object was
    already written to: the stored version is bumped and the update time is
    the new one, while the parameters and the history stay. *)
Theorem updateModel_failure_still_bumps now modelId newModelConfig m model md :
  models m !! modelId = Some model ->
  modelMetadata m !! modelId = Some md ->
  nullish newModelConfig = true ->
  updateModel now modelId newModelConfig m
  = ({| models := models m;
        modelMetadata :=
          <[modelId := {| version := incrementVersion (version md);
                          lastUpdated := now;
                          parameters := parameters md;
                          performance := performance md |}]> (modelMetadata m) |},
     Failure (TypeError_read newModelConfig "parameters")).
Proof.
  intros Hmodel Hmd Hnull. unfold updateModel. rewrite Hmodel, Hmd.
  destruct newModelConfig; try discriminate; reflexivity.
Qed.

Lemma updateModel_failure_still_bumps_witness :
  models example_manager !! "bias-detection-v2" = Some example_model
  /\ modelMetadata example_manager !! "bias-detection-v2" = Some example_metadata
  /\ nullish VUndefined = true
  /\ updateModel "2024-01-02T00:00:00.000Z" "bias-detection-v2" VUndefined example_manager
     = ({| models := models example_manager;
           modelMetadata :=
             <["bias-detection-v2" :=
                 {| version := incrementVersion (version example_metadata);
                    lastUpdated := "2024-01-02T00:00:00.000Z";
                    parameters := parameters example_metadata;
                    performance := performance example_metadata |}]>
               (modelMetadata example_manager) |},
        Failure (TypeError_read VUndefined "parameters")).
Proof.
  split; [exact example_model_stored|]. split; [exact example_metadata_stored|].
  split; [reflexivity|].
  exact (updateModel_failure_still_bumps "2024-01-02T00:00:00.000Z" "bias-detection-v2"
           VUndefined example_manager _ _ example_model_stored example_metadata_stored
           eq_refl).
Defined.

(** X4. A successful update stores the new configuration as the model
    entry, as it is: the [data] that [initializeModel] attached is kept
    only if the new configuration has one of its own.  The parameters
    become those of the new configuration and the history is kept. *)
Theorem updateModel_replaces_model now modelId newModelConfig m model md :
  models m !! modelId = Some model ->
  modelMetadata m !! modelId = Some md ->
  nullish newModelConfig = false ->
  exists md',
    updateModel now modelId newModelConfig m
    = ({| models := <[modelId := newModelConfig]> (models m);
          modelMetadata := <[modelId := md']> (modelMetadata m) |},
       Success (incrementVersion (version md)))
    /\ version md' = incrementVersion (version md)
    /\ lastUpdated md' = now
    /\ get newModelConfig "parameters" = Ok (parameters md')
    /\ performance md' = performance md
    /\ get_opt (default VUndefined
                  (models (updateModel now modelId newModelConfig m).1 !! modelId))
               "data"
       = get_opt newModelConfig "data".
Proof.
  intros Hmodel Hmd Hcfg. unfold updateModel. rewrite Hmodel, Hmd.
  destruct (get_not_nullish newModelConfig "parameters" Hcfg) as [params Hget].
  rewrite Hget. eexists. split; [reflexivity|]. simpl.
  rewrite lookup_insert_eq. repeat split.
Qed.

Lemma updateModel_replaces_model_witness :
  models example_manager !! "bias-detection-v2" = Some example_model
  /\ modelMetadata example_manager !! "bias-detection-v2" = Some example_metadata
  /\ nullish example_config = false
  /\ exists md',
    updateModel "2024-01-02T00:00:00.000Z" "bias-detection-v2" example_config
      example_manager
    = ({| models := <["bias-detection-v2" := example_config]> (models example_manager);
          modelMetadata := <["bias-detection-v2" := md']> (modelMetadata example_manager) |},
       Success (incrementVersion (version example_metadata)))
    /\ version md' = incrementVersion (version example_metadata)
    /\ lastUpdated md' = "2024-01-02T00:00:00.000Z"
    /\ get example_config "parameters" = Ok (parameters md')
    /\ performance md' = performance example_metadata
    /\ get_opt (default VUndefined
                  (models (updateModel "2024-01-02T00:00:00.000Z" "bias-detection-v2"
                             example_config example_manager).1 !! "bias-detection-v2"))
               "data"
       = get_opt example_config "data".
Proof.
  split; [exact example_model_stored|]. split; [exact example_metadata_stored|].
  split; [reflexivity|].
  exact (updateModel_replaces_model "2024-01-02T00:00:00.000Z" "bias-detection-v2"
           example_config example_manager _ _ example_model_stored
           example_metadata_stored eq_refl).
Defined.

(** The fallback data is there before the update and gone after it. *)
Example update_drops_fallback_data :
  truthy (get_opt example_model "data") = true
  /\ get_opt (default VUndefined
                (models (updateModel "2024-01-02T00:00:00.000Z" "bias-detection-v2"
                           example_config example_manager).1 !! "bias-detection-v2"))
             "data" = VUndefined.
Proof. split; vm_compute; reflexivity. Qed.

(** *** Other models *)

(** X5. Each of the three operations on one id leaves the model entry and
    the metadata of every other id as they were. *)
Theorem other_models_untouched fetched now modelId other config metrics m :
  other <> modelId ->
  (models (initializeModel fetched now modelId config m).1 !! other = models m !! other
   /\ modelMetadata (initializeModel fetched now modelId config m).1 !! other
      = modelMetadata m !! other)
  /\ (models (updateModel now modelId config m).1 !! other = models m !! other
      /\ modelMetadata (updateModel now modelId config m).1 !! other
         = modelMetadata m !! other)
  /\ (models (trackPerformance now modelId metrics m).1 !! other = models m !! other
      /\ modelMetadata (trackPerformance now modelId metrics m).1 !! other
         = modelMetadata m !! other).
Proof.
  intros Hne. repeat split.
  - unfold initializeModel. destruct (get config "parameters"); [|reflexivity].
    destruct (match fetched with FetchOk body => Ok body | _ => _ end); [|reflexivity].
    simpl. apply lookup_insert_ne. congruence.
  - unfold initializeModel. destruct (get config "parameters"); [|reflexivity].
    destruct (match fetched with FetchOk body => Ok body | _ => _ end); [|reflexivity].
    simpl. apply lookup_insert_ne. congruence.
  - unfold updateModel. destruct (models m !! modelId); [|reflexivity].
    destruct (modelMetadata m !! modelId); [|reflexivity].
    destruct (get config "parameters"); simpl; [|reflexivity].
    apply lookup_insert_ne. congruence.
  - unfold updateModel. destruct (models m !! modelId); [|reflexivity].
    destruct (modelMetadata m !! modelId); [|reflexivity].
    destruct (get config "parameters"); simpl; apply lookup_insert_ne; congruence.
  - unfold trackPerformance. destruct (modelMetadata m !! modelId); reflexivity.
  - unfold trackPerformance. destruct (modelMetadata m !! modelId); [|reflexivity].
    simpl. apply lookup_insert_ne. congruence.
Qed.

Lemma other_models_untouched_witness :
  "bias-detection-v2" <> "speech-model"
  /\ (models (initializeModel (FetchOk VNull) "2024-01-05T00:00:00.000Z" "speech-model"
                example_config example_manager).1 !! "bias-detection-v2"
      = models example_manager !! "bias-detection-v2"
      /\ modelMetadata (initializeModel (FetchOk VNull) "2024-01-05T00:00:00.000Z"
                          "speech-model" example_config example_manager).1
           !! "bias-detection-v2"
         = modelMetadata example_manager !! "bias-detection-v2")
  /\ (models (updateModel "2024-01-05T00:00:00.000Z" "speech-model" example_config
                example_manager).1 !! "bias-detection-v2"
      = models example_manager !! "bias-detection-v2"
      /\ modelMetadata (updateModel "2024-01-05T00:00:00.000Z" "speech-model"
                          example_config example_manager).1 !! "bias-detection-v2"
         = modelMetadata example_manager !! "bias-detection-v2")
  /\ (models (trackPerformance "2024-01-05T00:00:00.000Z" "speech-model" VNull
                example_manager).1 !! "bias-detection-v2"
      = models example_manager !! "bias-detection-v2"
      /\ modelMetadata (trackPerformance "2024-01-05T00:00:00.000Z" "speech-model" VNull
                          example_manager).1 !! "bias-detection-v2"
         = modelMetadata example_manager !! "bias-detection-v2").
Proof.
  assert (Hne : "bias-detection-v2" <> "speech-model") by discriminate.
  split; [exact Hne|].
  exact (other_models_untouched (FetchOk VNull) "2024-01-05T00:00:00.000Z" "speech-model"
           "bias-detection-v2" example_config VNull example_manager Hne).
Defined.

(** *** Versions over time *)

(** X6. In every state the manager can reach, each model entry has
    metadata, and each stored version reads as [1.0.patch]: the major and
    minor components never move. *)
Theorem registry_invariant m :
  reachable m ->
  (forall modelId, is_Some (models m !! modelId) -> is_Some (modelMetadata m !! modelId))
  /\ (forall modelId md, modelMetadata m !! modelId = Some md ->
        exists patch, version md = semver 1 0 patch
                      /\ parse_semver (version md) = Some (1, 0, patch)%nat).
Proof.
  intros Hreach. destruct (reachable_well_formed m Hreach) as [Hdom Hver].
  split; [exact Hdom|]. intros modelId md Hmd.
  destruct (Hver _ _ Hmd) as [patch Hpatch]. exists patch.
  split; [exact Hpatch|]. rewrite Hpatch. apply parse_semver_semver.
Qed.

Lemma registry_invariant_witness :
  reachable used_manager
  /\ (forall modelId, is_Some (models used_manager !! modelId) ->
        is_Some (modelMetadata used_manager !! modelId))
  /\ (forall modelId md, modelMetadata used_manager !! modelId = Some md ->
        exists patch, version md = semver 1 0 patch
                      /\ parse_semver (version md) = Some (1, 0, patch)%nat).
Proof.
  assert (H : reachable used_manager).
  { apply reachable_trackPerformance, reachable_updateModel, reachable_initializeModel,
      reachable_constructor. }
  split; [exact H|]. exact (registry_invariant used_manager H).
Defined.

(** A run of updates, each with its own time and configuration. *)
Definition update_all (modelId : string) (updates : list (string * value)) (m : Manager)
  : Manager :=
  foldl (fun m update => (updateModel update.1 modelId update.2 m).1) m updates.

Lemma update_all_version modelId updates : forall m model md major minor patch,
  models m !! modelId = Some model ->
  modelMetadata m !! modelId = Some md ->
  version md = semver major minor patch ->
  exists md',
    modelMetadata (update_all modelId updates m) !! modelId = Some md'
    /\ version md' = semver major minor (patch + length updates).
Proof.
  induction updates as [|[now config] updates IH];
    intros m model md major minor patch Hmodel Hmd Hver.
  - exists md. rewrite Nat.add_0_r. auto.
  - destruct (updateModel_bumps m now modelId config model md major minor patch
                Hmodel Hmd Hver) as (md1 & Hmd1 & Hv1 & _ & _).
    assert (Hmodel1 : exists model1,
               models (updateModel now modelId config m).1 !! modelId = Some model1).
    { unfold updateModel. rewrite Hmodel, Hmd.
      destruct (get config "parameters"); simpl; [|eauto].
      rewrite lookup_insert_eq. eauto. }
    destruct Hmodel1 as [model1 Hmodel1].
    destruct (IH _ model1 md1 major minor (S patch) Hmodel1 Hmd1 Hv1) as (md' & H1 & H2).
    exists md'. split; [exact H1|]. rewrite H2. f_equal. simpl. lia.
Qed.

(** X7. After an initialization, a run of [n] updates leaves the version
    [1.0.n], whatever the configurations are: an update that reports a
    failure for a [null] configuration counts like the others. *)
Theorem version_counts_updates fetched now modelId config updates m :
  nullish config = false ->
  exists md,
    modelMetadata
      (update_all modelId updates (initializeModel fetched now modelId config m).1)
      !! modelId = Some md
    /\ version md = semver 1 0 (length updates).
Proof.
  intros Hcfg.
  destruct (get_not_nullish config "parameters" Hcfg) as [params Hget].
  assert (Hinit : exists model,
    models (initializeModel fetched now modelId config m).1 !! modelId = Some model
    /\ modelMetadata (initializeModel fetched now modelId config m).1 !! modelId
       = Some {| version := "1.0.0"; lastUpdated := now; parameters := params;
                 performance := ∅ |}).
  { unfold initializeModel. rewrite Hget.
    assert (Hdata : exists data,
               match fetched with
               | FetchOk body => Ok body
               | _ => getFallbackModelData modelId config
               end = Ok data).
    { unfold getFallbackModelData. rewrite Hget. destruct fetched; simpl; eauto. }
    destruct Hdata as [data ->]. simpl. rewrite !lookup_insert_eq. eauto. }
  destruct Hinit as (model & Hmodel & Hmd).
  destruct (update_all_version modelId updates _ model _ 1 0 0 Hmodel Hmd eq_refl)
    as (md & H1 & H2).
  exists md. split; [exact H1|exact H2].
Qed.

Lemma version_counts_updates_witness :
  nullish example_config = false
  /\ exists md,
    modelMetadata
      (update_all "bias-detection-v2"
         [("2024-01-02T00:00:00.000Z", example_config);
          ("2024-01-03T00:00:00.000Z", VNull);
          ("2024-01-04T00:00:00.000Z", example_config)]
         (initializeModel (FetchRejected "Failed to fetch") "2024-01-01T00:00:00.000Z"
            "bias-detection-v2" example_config constructor).1)
      !! "bias-detection-v2" = Some md
    /\ version md
       = semver 1 0 (length [("2024-01-02T00:00:00.000Z", example_config);
                             ("2024-01-03T00:00:00.000Z", VNull);
                             ("2024-01-04T00:00:00.000Z", example_config)]).
Proof.
  split; [reflexivity|].
  exact (version_counts_updates (FetchRejected "Failed to fetch")
           "2024-01-01T00:00:00.000Z" "bias-detection-v2" example_config
           [("2024-01-02T00:00:00.000Z", example_config);
            ("2024-01-03T00:00:00.000Z", VNull);
            ("2024-01-04T00:00:00.000Z", example_config)] constructor eq_refl).
Defined.

(** *** [incrementVersion] at the edges *)

Lemma append_associative (a b c : string) : (a ++ b) ++ c = a ++ (b ++ c).
Proof.
  induction a as [|x a IH]; [reflexivity|].
  change (String x ((a ++ b) ++ c) = String x (a ++ (b ++ c))). f_equal. exact IH.
Qed.

Lemma split_numerals a b rest :
  split "." (print_nat a ++ String "." (print_nat b ++ String "." rest))
  = print_nat a :: print_nat b :: split "." rest.
Proof.
  rewrite (split_at_separator "." (print_nat a)) by apply print_nat_has_no_dot.
  rewrite (split_at_separator "." (print_nat b)) by apply print_nat_has_no_dot.
  reflexivity.
Qed.

(** The integers that doubles count in: below 2^53 every natural number
    is a double and is printed by its decimal numeral. *)
Definition safe_integer (n : nat) : Prop := (Z.of_nat n < 2 ^ 53)%Z.

(** X8. On components that are safe integers, [incrementVersion] reads
    the first three components only: what follows a third dot is dropped.
    A version with two components gets the patch [NaN], and from then on
    it does not change any more; a version with one component also gets
    the minor [undefined]. *)
Theorem incrementVersion_irregular major minor patch rest :
  safe_integer major -> safe_integer minor -> safe_integer patch ->
  incrementVersion (semver major minor patch ++ String "." rest)
    = semver major minor (S patch)
  /\ incrementVersion (print_nat major ++ String "." (print_nat minor))
     = print_nat major ++ String "." (print_nat minor ++ ".NaN")
  /\ incrementVersion (print_nat major ++ String "." (print_nat minor ++ ".NaN"))
     = print_nat major ++ String "." (print_nat minor ++ ".NaN")
  /\ incrementVersion (print_nat major) = print_nat major ++ ".undefined.NaN".
Proof.
  intros _ _ _. repeat split.
  - unfold incrementVersion.
    replace (semver major minor patch ++ String "." rest)
      with (print_nat major ++ String "."
              (print_nat minor ++ String "." (print_nat patch ++ String "." rest))).
    + rewrite split_numerals.
      rewrite (split_at_separator "." (print_nat patch)) by apply print_nat_has_no_dot.
      simpl. rewrite !Number_print_nat. reflexivity.
    + unfold semver. rewrite !append_associative. reflexivity.
  - unfold incrementVersion.
    rewrite (split_at_separator "." (print_nat major)) by apply print_nat_has_no_dot.
    rewrite split_without_separator by apply print_nat_has_no_dot.
    simpl. rewrite !Number_print_nat. reflexivity.
  - unfold incrementVersion.
    change (print_nat minor ++ ".NaN") with (print_nat minor ++ String "." "NaN").
    rewrite split_numerals. simpl. rewrite !Number_print_nat. reflexivity.
  - unfold incrementVersion.
    rewrite split_without_separator by apply print_nat_has_no_dot.
    simpl. rewrite Number_print_nat. reflexivity.
Qed.

Lemma incrementVersion_irregular_witness :
  safe_integer 2 /\ safe_integer 4 /\ safe_integer 9
  /\ incrementVersion "2.4.9.beta" = "2.4.10"
  /\ incrementVersion "2.4" = "2.4.NaN"
  /\ incrementVersion "2.4.NaN" = "2.4.NaN"
  /\ incrementVersion "2" = "2.undefined.NaN".
Proof.
  assert (H2 : safe_integer 2) by (unfold safe_integer; lia).
  assert (H4 : safe_integer 4) by (unfold safe_integer; lia).
  assert (H9 : safe_integer 9) by (unfold safe_integer; lia).
  split; [exact H2|]. split; [exact H4|]. split; [exact H9|].
  exact (incrementVersion_irregular 2 4 9 "beta" H2 H4 H9).
Defined.
End ModelRegistry.

(** ** privacyHandler.js: the anonymization *)
Module PrivacyFacts.
Import JS PrivacyHandler.

Section Buckets.

Variable StringToNumber : string -> number.
Variable NumberToString : number -> string.

Let convert := ToNumber StringToNumber NumberToString.
Let bucket := generalizeFrequency StringToNumber NumberToString.

(** X9. The frequency is converted to a number as the comparison with 5
    converts it, and the number is put in a bucket: up to 5 ['low'], above
    5 and up to 20 ['medium'], above 20 ['high'], and ['high'] too for
    [NaN], both comparisons being false.  So [undefined] is ['high'],
    [null], [true] and [false] are ['low'], a string or an array is what
    the engine reads its text as, and an object that has a property
    [toString] of its own cannot be converted: the call throws a
    [TypeError]. *)
Theorem generalizeFrequency_buckets frequency :
  match convert frequency with
  | Throw e => bucket frequency = Throw e
  | Ok (Fin q) =>
      ((q <= 5)%Q -> bucket frequency = Ok "low")
      /\ ((5 < q)%Q -> (q <= 20)%Q -> bucket frequency = Ok "medium")
      /\ ((20 < q)%Q -> bucket frequency = Ok "high")
  | Ok NegInf => bucket frequency = Ok "low"
  | Ok PosInf | Ok NaN => bucket frequency = Ok "high"
  end
  /\ bucket VUndefined = Ok "high"
  /\ bucket VNull = Ok "low"
  /\ (forall b, bucket (VBool b) = Ok "low")
  /\ (forall s, convert (VStr s) = Ok (StringToNumber s))
  /\ (forall o, is_Some (o !! "toString") ->
        bucket (VObj o) = Throw "Cannot convert object to primitive value")
  /\ (forall o, o !! "toString" = None ->
        convert (VObj o) = Ok (StringToNumber "[object Object]")).
Proof.
  split.
  { subst bucket convert. unfold generalizeFrequency.
    destruct (ToNumber StringToNumber NumberToString frequency) as [[q| | |]|e];
      try reflexivity.
    cbn [mbind completion_bind bind nle].
    destruct (Qle_bool q 5) eqn:E5; destruct (Qle_bool q 20) eqn:E20;
      repeat split; intros; try reflexivity; exfalso;
      try (apply Qle_bool_iff in E5); try (apply Qle_bool_iff in E20);
      try (assert (~ (q <= 5)%Q) by (intros Hc; apply Qle_bool_iff in Hc; congruence));
      try (assert (~ (q <= 20)%Q) by (intros Hc; apply Qle_bool_iff in Hc; congruence));
      lra. }
  split; [reflexivity|]. split; [reflexivity|]. split; [intros []; reflexivity|].
  split; [reflexivity|]. split.
  - intros o Ho. subst bucket. unfold generalizeFrequency, ToNumber, ToString.
    rewrite bool_decide_eq_true_2 by exact Ho. reflexivity.
  - intros o Ho. subst convert. unfold ToNumber, ToString.
    rewrite bool_decide_eq_false_2 by (rewrite Ho; intros [x Hx]; discriminate).
    reflexivity.
Qed.

End Buckets.

Lemma bind_Ok {A B} (c : completion A) (k : A -> completion B) v :
  c ≫= k = Ok v -> exists a, c = Ok a /\ k a = Ok v.
Proof. destruct c as [a|e]; [eauto|discriminate]. Qed.

Section Anonymized.

Variable sha256_hex : value -> string.
Variable StringToNumber : string -> number.
Variable NumberToString : number -> string.

Lemma processFeatures_object features :
  forall v, processFeatures StringToNumber NumberToString features = Ok v ->
            exists o, v = VObj o.
Proof.
  unfold processFeatures. intros v. destruct (nullish features); [discriminate|].
  destruct (map_fold _ _ _) as [acc|e]; simpl; [|discriminate].
  intros [= <-]. eauto.
Qed.

(** X10. What the anonymization returns is an object with at most the
    three keys [userHash], [region] and [features], each present exactly
    when the input has a truthy [userIdentifiers], [location], [features];
    [userHash] is the promise of the digest.  Every other field of the
    input, its [text] included, is left behind. *)
Theorem applyPrivacyMeasures_keeps_three_keys data v :
  applyPrivacyMeasures sha256_hex StringToNumber NumberToString data = Ok v ->
  exists o userIdentifiers location features,
    v = VObj o
    /\ get data "userIdentifiers" = Ok userIdentifiers
    /\ get data "location" = Ok location
    /\ get data "features" = Ok features
    /\ (forall key, is_Some (o !! key) ->
          key = "userHash" \/ key = "region" \/ key = "features")
    /\ o !! "userHash"
       = (if truthy userIdentifiers
          then Some (VPromise (VStr (sha256_hex userIdentifiers))) else None)
    /\ (is_Some (o !! "region") <-> truthy location = true)
    /\ (is_Some (o !! "features") <-> truthy features = true)
    /\ o !! "text" = None.
Proof.
  unfold applyPrivacyMeasures. intros H.
  apply bind_Ok in H as (userIdentifiers & H1 & H).
  apply bind_Ok in H as (location & H2 & H).
  apply bind_Ok in H as (withRegion & Hregion & H).
  apply bind_Ok in H as (features & H3 & H).
  apply bind_Ok in H as (withFeatures & Hfeatures & H).
  injection H as <-.
  exists withFeatures, userIdentifiers, location, features.
  do 4 (split; [reflexivity || assumption|]).
  destruct (truthy userIdentifiers) eqn:T1; destruct (truthy location) eqn:T2;
    destruct (truthy features) eqn:T3;
    try (apply bind_Ok in Hregion as (region & _ & Hregion));
    try (apply bind_Ok in Hfeatures as (processed & _ & Hfeatures));
    injection Hregion as <-; injection Hfeatures as <-;
    (split; [intros key [x Hx];
             repeat (rewrite lookup_insert in Hx; case_decide; [subst; tauto|]);
             rewrite lookup_empty in Hx; discriminate|]);
    repeat split;
    repeat (rewrite lookup_insert; case_decide; try congruence);
    rewrite ?lookup_empty; try reflexivity; try (intros [? ?]; discriminate);
    try discriminate; eauto.
Qed.

(** A request with an identifier and a text. *)
Definition identified_text : value :=
  VObj (list_to_map [("userIdentifiers", VStr "user-17");
                     ("text", VStr "he is assumed to be the manager")]).

(** X11. After [updateSettings], consent is what the argument says when it
    has a [consentStatus], and what it was before when it has none: with a
    falsy one every request is refused before the anonymization, with a
    truthy one the anonymization is entered and the answer is its result,
    or its exception as a failure. *)
Theorem consent_follows_updateSettings (settings prior : gmap string value) data :
  let stored := (updateSettings (VObj settings) prior).1 in
  (settings !! "consentStatus" = None ->
     processData sha256_hex StringToNumber NumberToString data stored
     = processData sha256_hex StringToNumber NumberToString data prior)
  /\ (forall consent, settings !! "consentStatus" = Some consent ->
       truthy consent = false ->
       processData sha256_hex StringToNumber NumberToString data stored
       = (Failure "User consent not provided", []))
  /\ (forall consent, settings !! "consentStatus" = Some consent ->
       truthy consent = true ->
       processData sha256_hex StringToNumber NumberToString data stored
       = (match applyPrivacyMeasures sha256_hex StringToNumber NumberToString data with
          | Ok processedData => Success processedData
          | Throw e => Failure e
          end, [ApplyPrivacyMeasures])).
Proof.
  simpl. unfold spread, processData. repeat split.
  - intros Hnone. rewrite lookup_union_r by exact Hnone. reflexivity.
  - intros consent Hsome Hfalsy.
    rewrite (lookup_union_Some_l _ _ _ _ Hsome). simpl. rewrite Hfalsy. reflexivity.
  - intros consent Hsome Htruthy.
    rewrite (lookup_union_Some_l _ _ _ _ Hsome). simpl. rewrite Htruthy. simpl.
    destruct (applyPrivacyMeasures sha256_hex StringToNumber NumberToString data); reflexivity.
Qed.

End Anonymized.

Lemma applyPrivacyMeasures_keeps_three_keys_witness :
  applyPrivacyMeasures (fun _ => "9f86d081") (fun _ => NaN) (fun _ => EmptyString)
      identified_text
  = Ok (VObj {[ "userHash" := VPromise (VStr "9f86d081") ]})
  /\ exists o userIdentifiers location features,
    VObj {[ "userHash" := VPromise (VStr "9f86d081") ]} = VObj o
    /\ get identified_text "userIdentifiers" = Ok userIdentifiers
    /\ get identified_text "location" = Ok location
    /\ get identified_text "features" = Ok features
    /\ (forall key, is_Some (o !! key) ->
          key = "userHash" \/ key = "region" \/ key = "features")
    /\ o !! "userHash"
       = (if truthy userIdentifiers
          then Some (VPromise (VStr ((fun _ => "9f86d081") userIdentifiers))) else None)
    /\ (is_Some (o !! "region") <-> truthy location = true)
    /\ (is_Some (o !! "features") <-> truthy features = true)
    /\ o !! "text" = None.
Proof.
  assert (H : applyPrivacyMeasures (fun _ => "9f86d081") (fun _ => NaN) (fun _ => EmptyString)
      identified_text
              = Ok (VObj {[ "userHash" := VPromise (VStr "9f86d081") ]}))
    by (vm_compute; reflexivity).
  split; [exact H|].
  exact (applyPrivacyMeasures_keeps_three_keys (fun _ => "9f86d081") (fun _ => NaN)
           (fun _ => EmptyString) identified_text _ H).
Defined.

(** *** [processFeatures] *)

Lemma get_of_member base prop :
  nullish base = false -> get base prop = Ok (get_opt base prop).
Proof. destruct base; simpl; try discriminate; reflexivity. Qed.

Lemma get_of_nullish base prop :
  nullish base = true -> get base prop = Throw (TypeError_read base prop).
Proof. destruct base; simpl; try discriminate; reflexivity. Qed.

Section Features.

Variable StringToNumber : string -> number.
Variable NumberToString : number -> string.

(** What one feature becomes. *)
Definition generalized (entry : value) : completion value :=
  bucket ← generalizeFrequency StringToNumber NumberToString (get_opt entry "frequency");
  Ok (VObj (list_to_map [("used", get_opt entry "used"); ("frequency", VStr bucket)])).

Definition processed_feature (entry : value) : option value :=
  match generalized entry with
  | Ok feature => Some feature
  | Throw _ => None
  end.

(** A feature the loop gets through: an object (or another value that has
    properties to read) whose frequency can be converted. *)
Definition usable (entry : value) : bool :=
  negb (nullish entry)
  && match generalized entry with Ok _ => true | Throw _ => false end.

(** The loop of [processFeatures] over the features. *)
Lemma processFeatures_loop (features : gmap string value) :
  let result :=
    map_fold (fun feature entry (acc : completion (gmap string value)) =>
                acc ← acc;
                used ← get entry "used";
                frequency ← get entry "frequency";
                bucket ← generalizeFrequency StringToNumber NumberToString frequency;
                Ok (assign acc feature
                      (VObj (list_to_map [("used", used); ("frequency", VStr bucket)]))))
             (Ok ∅) features in
  ((forall name entry, features !! name = Some entry -> usable entry = true) ->
   exists processed,
     result = Ok processed
     /\ forall name,
          processed !! name
          = if String.eqb name "__proto__" then None
            else features !! name ≫= processed_feature)
  /\ ((exists name entry, features !! name = Some entry /\ usable entry = false) ->
      exists e, result = Throw e).
Proof.
  cbv zeta.
  apply (map_fold_weak_ind
           (fun r (m : gmap string value) =>
              ((forall name entry, m !! name = Some entry -> usable entry = true) ->
               exists processed,
                 r = Ok processed
                 /\ forall name,
                      processed !! name
                      = if String.eqb name "__proto__" then None
                        else m !! name ≫= processed_feature)
              /\ ((exists name entry, m !! name = Some entry /\ usable entry = false) ->
                  exists e, r = Throw e))).
  - split.
    + intros _. exists ∅. split; [reflexivity|]. intros name.
      rewrite !lookup_empty. destruct (String.eqb name "__proto__"); reflexivity.
    + intros (name & entry & Hl & _). rewrite lookup_empty in Hl. discriminate.
  - intros i x m r Hfresh [IHok IHbad]. split.
    + intros Hall.
      destruct IHok as (processed & -> & Hlook).
      { intros name entry Hl. apply (Hall name). rewrite lookup_insert_ne; [exact Hl|].
        intros ->. congruence. }
      assert (Hx : usable x = true) by (apply (Hall i); apply lookup_insert_eq).
      unfold usable in Hx. apply andb_true_iff in Hx as [Hnull Hgen].
      apply negb_true_iff in Hnull.
      destruct (generalized x) as [feature|e] eqn:Hfeature; [|discriminate].
      unfold generalized in Hfeature.
      apply bind_Ok in Hfeature as (bucket & Hbucket & Hf). injection Hf as <-.
      cbn [mbind completion_bind bind].
      rewrite !(get_of_member x) by exact Hnull.
      cbn [mbind completion_bind bind]. rewrite Hbucket. cbn [mbind completion_bind bind].
      eexists. split; [reflexivity|].
      intros name. rewrite assign_lookup. destruct (decide (name = i)) as [->|Hne].
      * rewrite lookup_insert_eq. destruct (String.eqb i "__proto__") eqn:E.
        -- rewrite Hlook, E. reflexivity.
        -- cbn [mbind option_bind]. unfold processed_feature, generalized.
           rewrite Hbucket. reflexivity.
      * rewrite lookup_insert_ne by congruence. apply Hlook.
    + intros (name & entry & Hl & Hbad).
      destruct r as [acc|e]; [|cbn; eauto].
      cbn [mbind completion_bind bind].
      destruct (decide (i = name)) as [->|Hne].
      * rewrite lookup_insert_eq in Hl. injection Hl as ->.
        destruct (nullish entry) eqn:Hnull.
        { rewrite !(get_of_nullish entry) by exact Hnull. cbn. eauto. }
        unfold usable in Hbad. rewrite Hnull in Hbad. cbn [negb andb] in Hbad.
        rewrite !(get_of_member entry) by exact Hnull.
        cbn [mbind completion_bind bind].
        unfold generalized in Hbad.
        destruct (generalizeFrequency StringToNumber NumberToString
                    (get_opt entry "frequency")) as [bucket|e']; [discriminate|].
        cbn. eauto.
      * rewrite lookup_insert_ne in Hl by exact Hne.
        destruct IHbad as [e He]; [eauto|discriminate].
Qed.

(** X12. [processFeatures] keeps the names of the features.  When every
    feature is usable, that is, none is [null] or [undefined] and every
    frequency can be converted to a number, the result has of its own
    exactly the keys of the input other than [__proto__], and under each
    the [used] flag as it was and the frequency replaced by its bucket;
    under [__proto__] the assignment adds no property.  A single feature
    that is not usable makes the whole call throw, and so does a [null] or
    [undefined] argument. *)
Theorem processFeatures_keeps_names (features : gmap string value) :
  ((forall name entry, features !! name = Some entry -> usable entry = true) ->
   exists processed,
     processFeatures StringToNumber NumberToString (VObj features) = Ok (VObj processed)
     /\ forall name,
          processed !! name
          = if String.eqb name "__proto__" then None
            else features !! name ≫= processed_feature)
  /\ ((exists name entry, features !! name = Some entry /\ usable entry = false) ->
      exists e, processFeatures StringToNumber NumberToString (VObj features) = Throw e)
  /\ (exists e, processFeatures StringToNumber NumberToString VNull = Throw e)
  /\ (exists e, processFeatures StringToNumber NumberToString VUndefined = Throw e).
Proof.
  destruct (processFeatures_loop features) as [Hok Hbad].
  split; [|split; [|split; eexists; reflexivity]];
    unfold processFeatures; cbn [nullish own_properties].
  - intros Hall. destruct (Hok Hall) as (processed & -> & Hlook).
    exists processed. split; [reflexivity|exact Hlook].
  - intros Hex. destruct (Hbad Hex) as [e ->]. exists e. reflexivity.
Qed.

(** A feature named [__proto__] of the input's own, as [JSON.parse] makes
    one, leaves no property; a frequency that is an object with a
    [toString] of its own stops the call. *)
Example processFeatures_edge_cases :
  processFeatures StringToNumber NumberToString
    (VObj (list_to_map
       [("__proto__", VObj (list_to_map [("used", VBool true); ("frequency", VNum (Fin 3))]));
        ("zoom", VObj (list_to_map [("used", VBool true); ("frequency", VNum (Fin 7))]))]))
  = Ok (VObj (list_to_map
       [("zoom", VObj (list_to_map [("used", VBool true); ("frequency", VStr "medium")]))]))
  /\ processFeatures StringToNumber NumberToString
       (VObj (list_to_map
          [("zoom", VObj (list_to_map
             [("frequency", VObj (list_to_map [("toString", VNum (Fin 1))]))]))]))
     = Throw "Cannot convert object to primitive value".
Proof. split; vm_compute; reflexivity. Qed.

End Features.

(** *** [updateSettings] as an operation *)

(** X13. [updateSettings] never removes a field; an argument that is
    [undefined], [null] or [{}] changes nothing; applying the same argument
    twice is applying it once; and two updates in a row are the single
    update by the second argument spread over the first. *)
Theorem updateSettings_composes (first second prior : gmap string value) settings :
  (forall field, is_Some (prior !! field) ->
     is_Some ((updateSettings settings prior).1 !! field))
  /\ updateSettings VUndefined prior = (prior, Success prior)
  /\ updateSettings VNull prior = (prior, Success prior)
  /\ updateSettings (VObj ∅) prior = (prior, Success prior)
  /\ (updateSettings settings (updateSettings settings prior).1).1
     = (updateSettings settings prior).1
  /\ (updateSettings (VObj second) (updateSettings (VObj first) prior).1).1
     = (updateSettings (VObj (spread first second)) prior).1.
Proof.
  unfold updateSettings, spread. simpl.
  split; [|split; [|split; [|split; [|split]]]].
  - intros field [x Hx]. destruct (own_properties settings !! field) as [y|] eqn:E.
    + exists y. apply lookup_union_Some_l. exact E.
    + exists x. rewrite lookup_union_r; assumption.
  - rewrite (left_id_L ∅ (∪)). reflexivity.
  - rewrite (left_id_L ∅ (∪)). reflexivity.
  - rewrite (left_id_L ∅ (∪)). reflexivity.
  - rewrite (assoc_L (∪)), (idemp_L (∪)). reflexivity.
  - rewrite (assoc_L (∪)). reflexivity.
Qed.

End PrivacyFacts.

(** ** biasDetection.js: distributions, counters and the confidence score *)
Module StatisticsFacts.
Import JS BiasDetection.

Lemma ndiv_of_nat_positive n d :
  (0 < d)%nat ->
  ndiv (Fin n) (of_nat d) = Fin (n / inject_Z (Z.of_nat d)).
Proof.
  intros Hd. unfold ndiv, of_nat.
  destruct (Qeq_bool (inject_Z (Z.of_nat d)) 0) eqn:E; [|reflexivity].
  apply Qeq_bool_iff in E. unfold Qeq in E. simpl in E. lia.
Qed.

(** *** [calculateDistribution] *)

Lemma share_bounds label values :
  label ∈ values -> (0 < share label values)%Q /\ (share label values <= 1)%Q.
Proof.
  intros Hin. apply occurrences_positive in Hin.
  pose proof (occurrences_le_length label values) as Hle.
  unfold share. split.
  - apply Qlt_shift_div_l; [apply inject_nat_pos; lia|].
    rewrite Qmult_0_l. apply inject_nat_pos. lia.
  - apply Qle_shift_div_r; [apply inject_nat_pos; lia|].
    rewrite Qmult_1_l. apply inject_nat_le. exact Hle.
Qed.

(** X14. The distribution of an array of labels has an entry exactly for
    the labels that occur in it, [__proto__] apart, which never gets one.
    For a label that names no member of [Object.prototype] the entry is the
    label's count divided by the length of the array, a number above 0 and
    at most 1; for a label that names a function of [Object.prototype] it
    is [NaN], the count having been appended to the text of the function.
    The distribution of the empty array is the empty object. *)
Theorem calculateDistribution_shares values label :
  (label ∈ values -> inherited label = false ->
     calculateDistribution values !! label = Some (Fin (share label values))
     /\ (0 < share label values)%Q /\ (share label values <= 1)%Q)
  /\ (label ∈ values -> names_function label = true ->
      calculateDistribution values !! label = Some NaN)
  /\ (label ∉ values \/ label = "__proto__" ->
      calculateDistribution values !! label = None)
  /\ calculateDistribution [] = ∅.
Proof.
  rewrite calculateDistribution_lookup. split; [|split; [|split]].
  - intros Hin Hplain. split; [|apply share_bounds; exact Hin].
    apply occurrences_positive in Hin.
    rewrite decide_False by lia. rewrite (proto_is_inherited _ Hplain), Hplain.
    reflexivity.
  - intros Hin Hname. apply occurrences_positive in Hin.
    unfold names_function in Hname. apply andb_true_iff in Hname as [Hinh Hne].
    apply negb_true_iff in Hne.
    rewrite decide_False by lia. rewrite Hne, Hinh. reflexivity.
  - intros [Hnin| ->].
    + destruct (decide (occurrences label values = 0%nat)) as [|Hpos]; [reflexivity|].
      exfalso. apply Hnin. apply occurrences_positive. lia.
    + destruct (decide _); reflexivity.
  - unfold calculateDistribution. simpl. apply fmap_empty.
Qed.

(** *** The counting loop of [calculateDisparateImpact] *)

(** A second member of a group whose first member was not favorable finds
    the entries as the first one did: a count that is 0 is set again, and
    an inherited member is read again. *)
Lemma entry_step_restarts group outcome :
  entry_step group outcome (entry_step group false (None, None))
  = entry_step group outcome (None, None).
Proof.
  unfold entry_step, held, put.
  destruct (inherited group), (String.eqb group "__proto__"), outcome; reflexivity.
Qed.

Lemma entries_without_favorable group items :
  favorables group items = 0%nat ->
  forall outcome,
    entry_step group outcome (entries group items)
    = entry_step group outcome (None, None).
Proof.
  induction items as [|[v f] items IH] using rev_ind; [reflexivity|].
  rewrite favorables_snoc, entries_snoc. intros Hfav outcome.
  destruct (decide (group = v)) as [<-|Hne]; [|apply IH].
  - rewrite decide_True in Hfav by reflexivity.
    destruct f; [lia|]. rewrite IH by lia. apply entry_step_restarts.
  - rewrite decide_False in Hfav by congruence. lia.
Qed.

Lemma entries_after_unfavorable_prefix group pre rest :
  favorables group pre = 0%nat ->
  (0 < members group rest)%nat ->
  entries group (pre ++ rest) = entries group rest.
Proof.
  intros Hpre. induction rest as [|[v f] rest IH] using rev_ind.
  - unfold members. simpl. lia.
  - rewrite app_assoc, !entries_snoc, members_snoc. intros Hpos.
    destruct (decide (group = v)) as [<-|Hne].
    + destruct (decide (members group rest = 0%nat)) as [Hz|Hnz].
      * rewrite (entries_absent _ _ Hz). apply entries_without_favorable.
        pose proof (favorables_le_members group rest) as Hle.
        unfold favorables in *. rewrite filter_app, length_app. lia.
      * rewrite IH by lia. reflexivity.
    + rewrite decide_False in Hpos by congruence. apply IH. lia.
Qed.

(** X15. The count of a group starts over as long as the group has no
    favorable outcome: the outcomes of a group that precede a stretch with
    no favorable one of that group leave no trace.  If a batch [pre] has no
    favorable outcome for the group and [rest] has a member of it, the two
    counters of the group after [pre ++ rest] are those after [rest]
    alone. *)
Theorem unfavorable_prefix_is_forgotten group pre rest :
  favorables group pre = 0%nat ->
  (0 < members group rest)%nat ->
  (outcome_counts (pre ++ rest)).1 !! group = (outcome_counts rest).1 !! group
  /\ (outcome_counts (pre ++ rest)).2 !! group = (outcome_counts rest).2 !! group.
Proof.
  intros Hpre Hpos.
  pose proof (entries_after_unfavorable_prefix group pre rest Hpre Hpos) as H.
  unfold entries in H. injection H as Hf Hc. auto.
Qed.

Lemma unfavorable_prefix_is_forgotten_witness :
  favorables "a" [("a", false); ("b", true); ("a", false)] = 0%nat
  /\ (0 < members "a" [("a", true); ("a", false); ("b", false)])%nat
  /\ (outcome_counts ([("a", false); ("b", true); ("a", false)]
                       ++ [("a", true); ("a", false); ("b", false)])).1 !! "a"
     = (outcome_counts [("a", true); ("a", false); ("b", false)]).1 !! "a"
  /\ (outcome_counts ([("a", false); ("b", true); ("a", false)]
                       ++ [("a", true); ("a", false); ("b", false)])).2 !! "a"
     = (outcome_counts [("a", true); ("a", false); ("b", false)]).2 !! "a".
Proof.
  split; [reflexivity|]. split; [vm_compute; lia|].
  apply unfavorable_prefix_is_forgotten; [reflexivity|vm_compute; lia].
Defined.

(** *** [calculateConfidenceScore] and [detectBias] *)

Lemma sum_finite l :
  Forall finite l -> exists total, foldl nadd (Fin 0) l = Fin total.
Proof.
  assert (H : forall start, Forall finite l ->
                exists total, foldl nadd (Fin start) l = Fin total).
  { induction l as [|x l IH]; intros start Hall; simpl; [eauto|].
    apply Forall_cons in Hall as [[q ->] Hall]. simpl. apply IH. exact Hall. }
  apply H.
Qed.

(** X16. The confidence score of an empty set of disparate-impact ratios
    is [NaN], the mean of nothing; when there is at least one ratio and
    all are finite, the score is a number of the interval [0, 1]. *)
Theorem calculateConfidenceScore_range (disparateImpact : gmap string number) :
  calculateConfidenceScore ∅ = NaN
  /\ (disparateImpact <> ∅ ->
      (forall attribute ratio, disparateImpact !! attribute = Some ratio -> finite ratio) ->
      exists q, calculateConfidenceScore disparateImpact = Fin q
                /\ (0 <= q)%Q /\ (q <= 1)%Q).
Proof.
  split; [vm_compute; reflexivity|].
  intros Hne Hfin. unfold calculateConfidenceScore.
  set (scores := (map_to_list disparateImpact).*2).
  assert (Hall : Forall finite scores).
  { apply Forall_forall. intros x Hx. apply list_elem_of_fmap in Hx as ([k y] & -> & Hin).
    apply elem_of_map_to_list in Hin. eapply Hfin, Hin. }
  destruct (sum_finite scores Hall) as [total ->].
  assert (Hlen : (0 < length scores)%nat).
  { subst scores. rewrite length_fmap, length_map_to_list.
    apply map_size_non_empty_iff in Hne. lia. }
  rewrite ndiv_of_nat_positive by exact Hlen.
  set (avg := (total / inject_Z (Z.of_nat (length scores)))%Q).
  simpl. exists (Qmax 0 (Qmin 1 avg)). split; [reflexivity|].
  destruct (Qmax_cases 0 (Qmin 1 avg)) as [[-> H]|[-> H]];
    destruct (Qmin_cases 1 avg) as [[E H']|[E H']]; rewrite ?E in *; split; lra.
Qed.

(** X17. [detectBias] computes a ratio for exactly the attributes among
    gender, age, ethnicity, disability and language that the metadata has;
    any other attribute of the metadata is ignored.  With none of the five
    present there is no ratio and the confidence score is [NaN]. *)
Theorem detectBias_attributes (Tensor : Type) (tf_mean tf_std : list number -> Tensor)
    (tensor_array tensor_operand : Tensor -> number)
    (now : string) (predictions : list number) (metadata : gmap string (list string)) :
  let metrics :=
    detectBias Tensor tf_mean tf_std tensor_array tensor_operand now predictions metadata in
  (forall attribute,
     disparateImpact metrics !! attribute
     = if bool_decide (attribute ∈ PROTECTED_ATTRIBUTES)
       then calculateDisparateImpact predictions <$> metadata !! attribute
       else None)
  /\ ((forall attribute, attribute ∈ PROTECTED_ATTRIBUTES -> metadata !! attribute = None) ->
      disparateImpact metrics = ∅ /\ confidenceScore metrics = NaN).
Proof.
  intros metrics.
  assert (Hlook : forall attribute,
     disparateImpact metrics !! attribute
     = if bool_decide (attribute ∈ PROTECTED_ATTRIBUTES)
       then calculateDisparateImpact predictions <$> metadata !! attribute
       else None).
  { intros attribute. subst metrics. unfold detectBias, PROTECTED_ATTRIBUTES. simpl.
    destruct (metadata !! "gender") eqn:E1; destruct (metadata !! "age") eqn:E2;
      destruct (metadata !! "ethnicity") eqn:E3;
      destruct (metadata !! "disability") eqn:E4;
      destruct (metadata !! "language") eqn:E5;
      repeat (rewrite lookup_insert; case_decide;
              [subst; rewrite bool_decide_eq_true_2 by set_solver;
               rewrite ?E1, ?E2, ?E3, ?E4, ?E5; reflexivity|]);
      rewrite lookup_empty; case_bool_decide as Hin; try reflexivity;
      repeat (apply elem_of_cons in Hin as [->|Hin];
              [rewrite ?E1, ?E2, ?E3, ?E4, ?E5; try reflexivity; congruence|]);
      inversion Hin. }
  split; [exact Hlook|]. intros Hnone.
  assert (Hempty : disparateImpact metrics = ∅).
  { apply map_empty. intros attribute. rewrite Hlook.
    case_bool_decide as Hin; [|reflexivity]. rewrite (Hnone _ Hin). reflexivity. }
  split; [exact Hempty|].
  subst metrics. unfold detectBias in *. simpl in *. rewrite Hempty.
  vm_compute. reflexivity.
Qed.

(** X18. If a tensor counts as [NaN] whenever it is an operand of [-] or
    an argument of [Math.pow], the skewness is [NaN] for every batch, so
    ['skewed_predictions'] is never flagged and the severity is never
    ['medium'], whatever the predictions are. *)
Theorem skew_is_never_flagged_with_NaN_operands
    (Tensor : Type) (tf_mean tf_std : list number -> Tensor)
    (tensor_array tensor_operand : Tensor -> number)
    (predictions : list number) (metadata : gmap string (list string)) :
  (forall tensor, tensor_operand tensor = NaN) ->
  skewness (analyzePredictionDistribution Tensor tf_mean tf_std tensor_array
              tensor_operand predictions) = NaN
  /\ is_flagged "skewed_predictions"
       (detectSystematicBias Tensor tf_mean tf_std tensor_array tensor_operand
          predictions metadata) = false
  /\ severity (detectSystematicBias Tensor tf_mean tf_std tensor_array tensor_operand
                 predictions metadata) <> "medium".
Proof.
  intros Hnan.
  assert (Hskew : skewness (analyzePredictionDistribution Tensor tf_mean tf_std
                              tensor_array tensor_operand predictions) = NaN).
  { unfold analyzePredictionDistribution. simpl. rewrite !Hnan.
    unfold calculateSkewness. change (cube NaN) with NaN.
    generalize (ndiv (foldl (fun acc val => nadd acc (cube (nsub val NaN))) (Fin 0)
                        predictions) (of_nat (length predictions))).
    intros []; reflexivity. }
  split; [exact Hskew|].
  unfold detectSystematicBias. rewrite Hskew. simpl.
  destruct (bool_decide _); simpl; split; (reflexivity || discriminate).
Qed.

Lemma skew_is_never_flagged_with_NaN_operands_witness :
  (forall tensor : number, (fun _ : number => NaN) tensor = NaN)
  /\ skewness (analyzePredictionDistribution number (fun _ => Fin (1 # 5))
                 (fun _ => Fin (2 # 5)) id (fun _ => NaN) right_skewed_batch) = NaN
  /\ is_flagged "skewed_predictions"
       (detectSystematicBias number (fun _ => Fin (1 # 5)) (fun _ => Fin (2 # 5)) id
          (fun _ => NaN) right_skewed_batch ∅) = false
  /\ severity (detectSystematicBias number (fun _ => Fin (1 # 5)) (fun _ => Fin (2 # 5)) id
                 (fun _ => NaN) right_skewed_batch ∅) <> "medium".
Proof.
  split; [reflexivity|].
  apply (skew_is_never_flagged_with_NaN_operands number (fun _ => Fin (1 # 5))
           (fun _ => Fin (2 # 5)) id (fun _ => NaN) right_skewed_batch ∅).
  reflexivity.
Defined.
End StatisticsFacts.

(** ** biasMitigation.js: when mitigation runs and what it applies *)
Module MitigationFacts.
Import JS BiasDetection BiasMitigation StatisticsFacts.

(** Closes a goal whose hypothesis [H] puts a string in a list of other
    strings. *)
Ltac not_listed H :=
  exfalso; repeat (apply elem_of_cons in H as [H|H]; [discriminate H|]); inversion H.

(** X19. As soon as the metrics hold one disparate-impact ratio,
    [mitigateBias] returns [null]: the test for mitigation reads the
    undeclared [MITIGATION_THRESHOLD], and the [catch] swallows the
    [ReferenceError].  No strategy is applied and nothing is evaluated,
    whatever the ratios, the model and the metadata are. *)
Theorem mitigateBias_null_with_any_ratio (Model : Type)
    (predict : Model -> gmap string (list string) -> completion (list number))
    (Tensor : Type) (tf_mean tf_std : list number -> Tensor)
    (tensor_array tensor_operand : Tensor -> number)
    (now : string) (model : Model) (biasMetrics : BiasMetrics)
    (metadata : gmap string (list string)) :
  disparateImpact biasMetrics <> ∅ ->
  mitigateBias Model predict Tensor tf_mean tf_std tensor_array tensor_operand
    now model biasMetrics metadata = None.
Proof.
  intros Hne. unfold mitigateBias.
  rewrite (needsMitigation_throws biasMetrics Hne). reflexivity.
Qed.

Definition measured_metrics : BiasMetrics :=
  {| disparateImpact := {["gender" := Fin 1]};
     equalOpportunity := ∅;
     predictiveParity := ∅;
     systematicBias := {| patterns := []; severity := "low" |};
     timestamp := "2024-01-01T00:00:00.000Z";
     confidenceScore := Fin 1 |}.

Lemma mitigateBias_null_with_any_ratio_witness :
  disparateImpact measured_metrics <> ∅
  /\ mitigateBias unit (fun _ _ => Ok [Fin 1]) number (fun _ => Fin 1) (fun _ => Fin 0)
       id id "2024-01-02T00:00:00.000Z" tt measured_metrics ∅ = None.
Proof.
  assert (H : disparateImpact measured_metrics <> ∅).
  { intros Hempty.
    assert (Hl : disparateImpact measured_metrics !! "gender" = Some (Fin 1))
      by (vm_compute; reflexivity).
    rewrite Hempty, lookup_empty in Hl. discriminate. }
  split; [exact H|].
  exact (mitigateBias_null_with_any_ratio unit (fun _ _ => Ok [Fin 1]) number
           (fun _ => Fin 1) (fun _ => Fin 0) id id "2024-01-02T00:00:00.000Z" tt
           measured_metrics ∅ H).
Defined.

Lemma needsMitigation_without_ratios biasMetrics :
  disparateImpact biasMetrics = ∅ ->
  needsMitigation biasMetrics
  = Ok (negb (String.eqb (severity (systematicBias biasMetrics)) "low")).
Proof.
  intros Hempty. unfold needsMitigation. rewrite Hempty, map_to_list_empty. reflexivity.
Qed.

Lemma determineStrategies_without_ratios biasMetrics :
  disparateImpact biasMetrics = ∅ ->
  determineStrategies biasMetrics
  = ((if bool_decide (0 < length (patterns (systematicBias biasMetrics)))%nat
      then [THRESHOLD_ADJUSTMENT] else [])
     ++ (if String.eqb (severity (systematicBias biasMetrics)) "high"
         then [ENSEMBLE] else []))%list.
Proof.
  intros Hempty. unfold determineStrategies. rewrite Hempty, map_to_list_empty. simpl.
  destruct (bool_decide _), (String.eqb _ _); reflexivity.
Qed.

Lemma adjustThresholds_without_ratios biasMetrics :
  disparateImpact biasMetrics = ∅ -> adjustThresholds biasMetrics = Ok ∅.
Proof.
  intros Hempty. unfold adjustThresholds. rewrite Hempty, map_to_list_empty. reflexivity.
Qed.

Lemma apply_threshold_adjustment (Model : Type) (model : Model) biasMetrics metadata
    (results : MitigationResults Model) new_thresholds :
  adjustThresholds biasMetrics = Ok new_thresholds ->
  apply_strategy Model model biasMetrics metadata results THRESHOLD_ADJUSTMENT
  = Ok {| appliedStrategies :=
            (appliedStrategies Model results ++ [THRESHOLD_ADJUSTMENT])%list;
          adjustments := {| weights := weights Model (adjustments Model results);
                            thresholds := Some new_thresholds;
                            ensemble := ensemble Model (adjustments Model results) |};
          performance := performance Model results;
          intersectionalBias := intersectionalBias Model results;
          contextualBias := contextualBias Model results |}.
Proof. intros H. unfold apply_strategy. simpl. rewrite H. reflexivity. Qed.

(** X20. With no disparate-impact ratio the threshold is never read.  A
    severity of ['low'] then returns the untouched result: no strategy, no
    evaluation.  Any other severity applies the strategies that
    [determineStrategies] lists, never the reweighting, the thresholds being
    the empty object when the threshold adjustment is among them, and
    evaluates the model on the metadata; the result is [null] exactly when
    the prediction throws. *)
Theorem mitigateBias_without_ratios (Model : Type)
    (predict : Model -> gmap string (list string) -> completion (list number))
    (Tensor : Type) (tf_mean tf_std : list number -> Tensor)
    (tensor_array tensor_operand : Tensor -> number)
    (now : string) (model : Model) (biasMetrics : BiasMetrics)
    (metadata : gmap string (list string)) :
  disparateImpact biasMetrics = ∅ ->
  let result :=
    mitigateBias Model predict Tensor tf_mean tf_std tensor_array tensor_operand
      now model biasMetrics metadata in
  (severity (systematicBias biasMetrics) = "low" ->
     exists results, result = Some results
       /\ appliedStrategies Model results = []
       /\ performance Model results = None)
  /\ (severity (systematicBias biasMetrics) <> "low" ->
      match predict model metadata with
      | Throw _ => result = None
      | Ok mitigatedPredictions =>
          exists results evaluation, result = Some results
            /\ appliedStrategies Model results = determineStrategies biasMetrics
            /\ (REWEIGHTING ∉ appliedStrategies Model results)
            /\ weights Model (adjustments Model results) = None
            /\ (THRESHOLD_ADJUSTMENT ∈ appliedStrategies Model results ->
                thresholds Model (adjustments Model results) = Some ∅)
            /\ performance Model results = Some evaluation
            /\ mitigatedMetrics evaluation
               = detectBias Tensor tf_mean tf_std tensor_array tensor_operand now
                   mitigatedPredictions metadata
      end).
Proof.
  intros Hempty result. subst result. unfold mitigateBias.
  rewrite (needsMitigation_without_ratios _ Hempty). split.
  - intros Hlow. rewrite Hlow. simpl. eexists. split; [reflexivity|]. split; reflexivity.
  - intros Hsev.
    assert (Hneq : String.eqb (severity (systematicBias biasMetrics)) "low" = false).
    { apply String.eqb_neq. exact Hsev. }
    rewrite Hneq. cbn [negb].
    rewrite (determineStrategies_without_ratios _ Hempty).
    pose proof (adjustThresholds_without_ratios _ Hempty) as Hadj.
    destruct (bool_decide (0 < length (patterns (systematicBias biasMetrics)))%nat) eqn:Hp;
      destruct (String.eqb (severity (systematicBias biasMetrics)) "high") eqn:Hh;
      unfold evaluateMitigation;
      destruct (predict model metadata) as [mitigatedPredictions|e];
      cbn [foldlM app]; rewrite ?(apply_threshold_adjustment _ _ _ _ _ _ Hadj);
      simpl; try reflexivity;
      (eexists; eexists; split; [reflexivity|]);
      simpl; (split; [reflexivity|]);
      (split; [intros Hin; not_listed Hin|]);
      (split; [reflexivity|]);
      (split; [intros Hin; try reflexivity; not_listed Hin|]);
      split; reflexivity.
Qed.

Definition unmeasured_metrics : BiasMetrics :=
  {| disparateImpact := ∅;
     equalOpportunity := ∅;
     predictiveParity := ∅;
     systematicBias :=
       {| patterns := [{| type := "underrepresentation";
                          details := "Some groups are underrepresented in the analysis";
                          affected := Some [] |}];
          severity := "high" |};
     timestamp := "2024-01-01T00:00:00.000Z";
     confidenceScore := NaN |}.

Lemma mitigateBias_without_ratios_witness :
  disparateImpact unmeasured_metrics = ∅
  /\ exists results,
       mitigateBias unit (fun _ _ => Ok [Fin 1]) number (fun _ => Fin 1) (fun _ => Fin 0)
         id id "2024-01-02T00:00:00.000Z" tt unmeasured_metrics ∅ = Some results
       /\ appliedStrategies unit results = ["threshold_adjustment"; "ensemble"]
       /\ thresholds unit (adjustments unit results) = Some ∅.
Proof.
  split; [reflexivity|].
  destruct (mitigateBias_without_ratios unit (fun _ _ => Ok [Fin 1]) number
              (fun _ => Fin 1) (fun _ => Fin 0) id id "2024-01-02T00:00:00.000Z" tt
              unmeasured_metrics ∅ eq_refl) as [_ H].
  destruct (H ltac:(discriminate)) as (results & evaluation & Hr & Ha & _ & _ & Ht & _).
  exists results. split; [exact Hr|]. split; [exact Ha|].
  apply Ht. rewrite Ha. apply elem_of_cons. left. reflexivity.
Defined.

(** *** Reweighting *)

(** X21. The weights of an attribute balance its labels.  A label that
    occurs and names no member of [Object.prototype] gets a weight which,
    multiplied by the label's share, is one over the number of entries of
    the distribution, the same product for every such label; a label that
    names a function of [Object.prototype] gets the weight [NaN], its
    share being [NaN]; a label that does not occur, and [__proto__], get
    none, and an attribute without values gets the empty object.  An
    attribute called [__proto__] gets no weights at all. *)
Theorem applyReweighting_balances (metadata : gmap string (list string))
    (attribute : string) (values : list string) :
  metadata !! attribute = Some values ->
  applyReweighting metadata !! "__proto__" = None
  /\ (attribute <> "__proto__" ->
      exists weights,
        applyReweighting metadata !! attribute = Some weights
        /\ (values = [] -> weights = ∅)
        /\ forall label,
             (label ∉ values \/ label = "__proto__" -> weights !! label = None)
             /\ (label ∈ values -> names_function label = true ->
                 weights !! label = Some NaN)
             /\ (label ∈ values -> inherited label = false ->
                 exists weight,
                   weights !! label = Some (Fin weight)
                   /\ (weight * share label values
                       == 1 / inject_Z (Z.of_nat (size (calculateDistribution values))))%Q)).
Proof.
  intros Hlook. unfold applyReweighting. rewrite !assign_each_lookup.
  split; [reflexivity|]. intros Hattribute.
  apply String.eqb_neq in Hattribute. rewrite Hattribute, Hlook.
  exists (calculateBalancingWeights (calculateDistribution values)).
  split; [reflexivity|]. split.
  - intros ->. unfold calculateBalancingWeights, calculateDistribution, assign_each. simpl.
    rewrite fmap_empty. apply map_fold_empty.
  - intros label. unfold calculateBalancingWeights. rewrite assign_each_lookup.
    rewrite calculateDistribution_lookup. split; [|split].
    + intros [Hnin| ->]; [|reflexivity].
      destruct (String.eqb label "__proto__"); [reflexivity|].
      rewrite decide_True; [reflexivity|].
      destruct (occurrences label values) eqn:E; [reflexivity|].
      exfalso. apply Hnin. apply occurrences_positive. lia.
    + intros Hin Hname. apply occurrences_positive in Hin.
      unfold names_function in Hname. apply andb_true_iff in Hname as [Hinh Hne].
      apply negb_true_iff in Hne. rewrite Hne, Hinh, decide_False by lia.
      cbn [fmap option_fmap option_map].
      destruct (ndiv (Fin 1) _); reflexivity.
    + intros Hin Hplain. pose proof (share_bounds label values Hin) as [Hpos _].
      apply occurrences_positive in Hin as Hocc.
      rewrite (proto_is_inherited _ Hplain), Hplain, decide_False by lia.
      cbn [fmap option_fmap option_map].
      assert (Hsize : (0 < size (calculateDistribution values))%nat).
      { assert (Hne : calculateDistribution values <> ∅).
        { intros Hempty.
          pose proof (calculateDistribution_lookup values label) as Hl.
          rewrite Hempty, lookup_empty, decide_False in Hl by lia.
          rewrite (proto_is_inherited _ Hplain), Hplain in Hl. discriminate. }
        apply map_size_non_empty_iff in Hne. lia. }
      rewrite (ndiv_of_nat_positive 1 _ Hsize).
      set (target := (1 / inject_Z (Z.of_nat (size (calculateDistribution values))))%Q).
      unfold ndiv. destruct (Qeq_bool (share label values) 0) eqn:E.
      * apply Qeq_bool_iff in E. lra.
      * eexists. split; [reflexivity|]. field. lra.
Qed.

Lemma applyReweighting_balances_witness :
  ({["gender" := ["f"; "m"; "m"; "m"]]} : gmap string (list string)) !! "gender"
  = Some ["f"; "m"; "m"; "m"]
  /\ exists weights,
       applyReweighting {["gender" := ["f"; "m"; "m"; "m"]]} !! "gender" = Some weights
       /\ exists weight, weights !! "f" = Some (Fin weight) /\ (weight == 2)%Q.
Proof.
  assert (Hlook : ({["gender" := ["f"; "m"; "m"; "m"]]} : gmap string (list string))
                  !! "gender" = Some ["f"; "m"; "m"; "m"]) by reflexivity.
  split; [exact Hlook|].
  destruct (applyReweighting_balances {["gender" := ["f"; "m"; "m"; "m"]]} "gender"
              ["f"; "m"; "m"; "m"] Hlook) as [_ Hweights].
  destruct (Hweights ltac:(discriminate)) as (weights & Hw & _ & Hall).
  exists weights. split; [exact Hw|].
  destruct (Hall "f") as (_ & _ & H).
  destruct (H ltac:(apply elem_of_cons; left; reflexivity) eq_refl)
    as (weight & Hl & Heq).
  exists weight. split; [exact Hl|].
  assert (Hshare : (share "f" ["f"; "m"; "m"; "m"] == 1 # 4)%Q) by (vm_compute; reflexivity).
  assert (Hsize : size (calculateDistribution ["f"; "m"; "m"; "m"]) = 2%nat)
    by (vm_compute; reflexivity).
  rewrite Hshare, Hsize in Heq.
  assert (Hhalf : (1 / inject_Z (Z.of_nat 2) == 1 # 2)%Q) by (vm_compute; reflexivity).
  rewrite Hhalf in Heq.
  assert (H4 : (weight == weight * (1 # 4) * 4)%Q) by field.
  rewrite H4, Heq. vm_compute. reflexivity.
Defined.

(** *** Strategies for the metrics [detectBias] produces *)

Lemma detectSystematicBias_cases (Tensor : Type) (tf_mean tf_std : list number -> Tensor)
    (tensor_array tensor_operand : Tensor -> number)
    (predictions : list number) (metadata : gmap string (list string)) :
  let report :=
    detectSystematicBias Tensor tf_mean tf_std tensor_array tensor_operand
      predictions metadata in
  (severity report = "low" /\ patterns report = [])
  \/ (severity report = "medium" /\ exists p, patterns report = [p])
  \/ (severity report = "high" /\ exists p rest, patterns report = p :: rest).
Proof.
  unfold detectSystematicBias.
  destruct (ngt _ _); destruct (bool_decide _); simpl; eauto 7.
Qed.

(** X22. For the metrics [detectBias] produces, the severity is ['low']
    exactly when there is no pattern.  So whenever the systematic bias
    calls for mitigation the threshold adjustment is among the strategies,
    and the ensemble never comes without it. *)
Theorem detected_bias_gets_threshold_adjustment
    (Tensor : Type) (tf_mean tf_std : list number -> Tensor)
    (tensor_array tensor_operand : Tensor -> number)
    (now : string) (predictions : list number) (metadata : gmap string (list string)) :
  let metrics :=
    detectBias Tensor tf_mean tf_std tensor_array tensor_operand now predictions metadata in
  (severity (systematicBias metrics) = "low" <-> patterns (systematicBias metrics) = [])
  /\ (severity (systematicBias metrics) <> "low" ->
      THRESHOLD_ADJUSTMENT ∈ determineStrategies metrics)
  /\ (ENSEMBLE ∈ determineStrategies metrics ->
      THRESHOLD_ADJUSTMENT ∈ determineStrategies metrics).
Proof.
  intros metrics.
  assert (Hchosen : patterns (systematicBias metrics) <> [] ->
                    THRESHOLD_ADJUSTMENT ∈ determineStrategies metrics).
  { intros Hne. unfold determineStrategies.
    rewrite (bool_decide_eq_true_2 (0 < length (patterns (systematicBias metrics)))%nat)
      by (destruct (patterns (systematicBias metrics)); [congruence|simpl; lia]).
    destruct (existsb _ _), (String.eqb _ _); simpl;
      repeat (apply elem_of_cons; first [left; reflexivity|right]). }
  assert (Hhigh : ENSEMBLE ∈ determineStrategies metrics ->
                  severity (systematicBias metrics) = "high").
  { unfold determineStrategies.
    destruct (String.eqb (severity (systematicBias metrics)) "high") eqn:E.
    - intros _. apply String.eqb_eq. exact E.
    - destruct (existsb _ _), (bool_decide _); simpl; intros Hin; not_listed Hin. }
  pose proof (detectSystematicBias_cases Tensor tf_mean tf_std tensor_array
                tensor_operand predictions metadata) as Hcases.
  simpl in Hcases. change (detectSystematicBias _ _ _ _ _ _ _)
    with (systematicBias metrics) in Hcases.
  destruct Hcases as [[Hs Hp]|[[Hs [p Hp]]|[Hs (p & rest & Hp)]]].
  - split; [split; auto|]. split; [congruence|].
    intros Hin. apply Hhigh in Hin. rewrite Hs in Hin. discriminate.
  - split; [rewrite Hs, Hp; split; discriminate|].
    split; intros _; apply Hchosen; rewrite Hp; discriminate.
  - split; [rewrite Hs, Hp; split; discriminate|].
    split; intros _; apply Hchosen; rewrite Hp; discriminate.
Qed.

End MitigationFacts.

(** ** biasDetectionSystem.js: what a scan can report *)
Module ScanFacts.
Import JS BiasDetectionSystem PrivacyFacts.

(** Whether the pattern matches somewhere in the text. *)
Definition hit (text : string) (p : BiasPattern) : bool :=
  bool_decide (is_Some (RegExp.exec (pattern p) 0 text).1).


Lemma getBiasPatterns_not_global category p :
  p ∈ getBiasPatterns category -> RegExp.global (pattern p) = false.
Proof.
  unfold getBiasPatterns. intros Hin.
  destruct (String.eqb category "gender"); [|destruct (String.eqb category "disability")];
    repeat (apply elem_of_cons in Hin as [->|Hin]; [reflexivity|]); inversion Hin.
Qed.

(** Without the [g] flag a pattern that matches once matches on every
    turn: the loop does not end. *)
Lemma scan_loop_hit text r :
  RegExp.global r = false -> is_Some (RegExp.exec r 0 text).1 ->
  forall fuel s, scan_loop fuel text r s = Unfinished.
Proof.
  intros Hg [m Hm]. induction fuel as [|fuel IH]; intros s; cbn [scan_loop]; [reflexivity|].
  unfold scan_step. rewrite (exec_without_global _ _ _ Hg), Hm. apply IH.
Qed.

Lemma scan_loop_miss text r fuel s :
  RegExp.global r = false -> (RegExp.exec r 0 text).1 = None ->
  scan_loop (S fuel) text r s = Returns (matches s).
Proof.
  intros Hg Hm. cbn [scan_loop]. unfold scan_step.
  rewrite (exec_without_global _ _ _ Hg), Hm. reflexivity.
Qed.

Section Scan.

Variable ToString : value -> string.

Lemma scan_patterns_cases fuel content text patterns :
  text_of ToString content = Ok text ->
  (forall p, p ∈ patterns -> RegExp.global (pattern p) = false) ->
  forall acc,
    scan_patterns ToString (S fuel) content patterns acc
    = if existsb (hit text) patterns then Unfinished else Returns acc.
Proof.
  intros Htext. induction patterns as [|p rest IH]; intros Hg acc; [reflexivity|].
  cbn [scan_patterns existsb]. unfold findPatternMatches. rewrite Htext.
  cbn [of_completion run_bind].
  assert (Hp : RegExp.global (pattern p) = false) by (apply Hg; left).
  unfold hit at 1. case_bool_decide as Hhit.
  - rewrite (scan_loop_hit _ _ Hp Hhit). reflexivity.
  - rewrite scan_loop_miss; [|exact Hp|].
    + cbn [run_bind matches]. unfold add_matches. cbn [length Nat.ltb Nat.leb].
      apply IH. intros q Hq. apply Hg. right. exact Hq.
    + destruct ((RegExp.exec (pattern p) 0 text).1); [|reflexivity].
      exfalso. apply Hhit. eauto.
Qed.

Lemma detect_categories_cases fuel content text categories :
  text_of ToString content = Ok text ->
  forall detectedBias,
    detect_categories ToString (S fuel) content categories detectedBias
    = if existsb (hit text) (flat_map getBiasPatterns categories)
      then Unfinished else Returns detectedBias.
Proof.
  intros Htext. induction categories as [|category rest IH]; intros detectedBias;
    [reflexivity|].
  cbn [detect_categories flat_map]. rewrite existsb_app. unfold analyzeCategoryBias.
  rewrite (scan_patterns_cases fuel content text _ Htext)
    by (intros p; apply getBiasPatterns_not_global).
  destruct (existsb (hit text) (getBiasPatterns category)); [reflexivity|].
  cbn [run_bind category_score score fst Qlt_bool Qcompare]. apply IH.
Qed.




(** What the anonymization returns is an object without a [text]. *)
Lemma applyPrivacyMeasures_drops_text sha256_hex StringToNumber NumberToString data v :
  PrivacyHandler.applyPrivacyMeasures sha256_hex StringToNumber NumberToString data = Ok v ->
  exists o, v = VObj o /\ o !! "text" = None.
Proof.
  unfold PrivacyHandler.applyPrivacyMeasures. intros H.
  apply bind_Ok in H as (userIdentifiers & _ & H).
  apply bind_Ok in H as (location & _ & H).
  apply bind_Ok in H as (withRegion & Hregion & H).
  apply bind_Ok in H as (features & _ & H).
  apply bind_Ok in H as (withFeatures & Hfeatures & H).
  injection H as <-. exists withFeatures. split; [reflexivity|].
  destruct (truthy userIdentifiers); destruct (truthy location);
    destruct (truthy features);
    try (apply bind_Ok in Hregion as (region & _ & Hregion));
    try (apply bind_Ok in Hfeatures as (processed & _ & Hfeatures));
    injection Hregion as <-; injection Hfeatures as <-;
    repeat (rewrite lookup_insert_ne by discriminate); apply lookup_empty.
Qed.

(** X24.  The scan never sees the text of a request.  What
    [applyPrivacyMeasures] returns has no [text], so [detectBias] reads
    the empty string from it, which no pattern matches, and returns the
    empty object: no category, whatever the original content says. *)
Theorem anonymized_content_has_no_text sha256_hex StringToNumber NumberToString data v :
  PrivacyHandler.applyPrivacyMeasures sha256_hex StringToNumber NumberToString data = Ok v ->
  text_of ToString v = Ok EmptyString
  /\ forall fuel, detectBias ToString (S fuel) v = Returns ∅.
Proof.
  intros H. apply applyPrivacyMeasures_drops_text in H as (o & -> & Hnone).
  assert (Htext : text_of ToString (VObj o) = Ok EmptyString).
  { unfold text_of. simpl. rewrite Hnone. reflexivity. }
  split; [exact Htext|]. intros fuel.
  unfold detectBias. rewrite (detect_categories_cases _ _ _ _ Htext). reflexivity.
Qed.

End Scan.

Lemma anonymized_content_has_no_text_witness :
  PrivacyHandler.applyPrivacyMeasures (fun _ => "digest") (fun _ => NaN)
      (fun _ => EmptyString)
    (VObj (list_to_map [("text", VStr scenario_text); ("userIdentifiers", VStr "u1")]))
  = Ok (VObj {["userHash" := VPromise (VStr "digest")]})
  /\ text_of (fun _ => EmptyString) (VObj {["userHash" := VPromise (VStr "digest")]})
     = Ok EmptyString
  /\ forall fuel,
       detectBias (fun _ => EmptyString) (S fuel)
         (VObj {["userHash" := VPromise (VStr "digest")]}) = Returns ∅.
Proof.
  assert (H : PrivacyHandler.applyPrivacyMeasures (fun _ => "digest") (fun _ => NaN)
      (fun _ => EmptyString)
                (VObj (list_to_map [("text", VStr scenario_text);
                                    ("userIdentifiers", VStr "u1")]))
              = Ok (VObj {["userHash" := VPromise (VStr "digest")]}))
    by (vm_compute; reflexivity).
  split; [exact H|].
  exact (anonymized_content_has_no_text (fun _ => EmptyString) (fun _ => "digest")
           (fun _ => NaN) (fun _ => EmptyString) _ _ H).
Defined.

(** *** [calculateSeverityDistribution] *)

(** Counting by severity, for any kind of result that has one. *)
Section Tally.

Context {A : Type} (severity_of : A -> string).

(** The number of results of a severity. *)
Definition tally (label : string) (results : list A) : nat :=
  length (filter (fun result => severity_of result = label) results).

(** [distribution[result.severity]++]. *)
Definition count_severity (distribution : gmap string number) (result : A)
  : gmap string number :=
  <[severity_of result :=
      nadd (default NaN (distribution !! severity_of result)) (Fin 1)]> distribution.

Lemma tally_cons label result results :
  tally label (result :: results)
  = if decide (severity_of result = label) then S (tally label results)
    else tally label results.
Proof. unfold tally. rewrite filter_cons. destruct (decide _); reflexivity. Qed.

Lemma tally_counted label results : forall distribution k,
  distribution !! label = Some (of_nat k) ->
  foldl count_severity distribution results !! label
  = Some (of_nat (k + tally label results)).
Proof.
  induction results as [|result results IH]; intros distribution k Hk; cbn [foldl].
  - unfold tally. simpl. rewrite Nat.add_0_r. exact Hk.
  - rewrite tally_cons. destruct (decide (severity_of result = label)) as [Heq|Hne].
    + rewrite (IH _ (S k)); [f_equal; f_equal; lia|].
      unfold count_severity. rewrite Heq, lookup_insert_eq, Hk. simpl.
      f_equal. apply of_nat_succ.
    + apply IH. unfold count_severity. rewrite lookup_insert_ne by exact Hne. exact Hk.
Qed.

Lemma tally_not_a_number label results : forall distribution,
  distribution !! label = Some NaN ->
  foldl count_severity distribution results !! label = Some NaN.
Proof.
  induction results as [|result results IH]; intros distribution Hk; cbn [foldl];
    [exact Hk|].
  apply IH. unfold count_severity.
  destruct (decide (severity_of result = label)) as [Heq|Hne].
  - rewrite Heq, lookup_insert_eq, Hk. reflexivity.
  - rewrite lookup_insert_ne by exact Hne. exact Hk.
Qed.

Lemma tally_uncounted label results : forall distribution,
  distribution !! label = None ->
  foldl count_severity distribution results !! label
  = if decide (tally label results = 0%nat) then None else Some NaN.
Proof.
  induction results as [|result results IH]; intros distribution Hk; cbn [foldl];
    [exact Hk|].
  rewrite tally_cons. destruct (decide (severity_of result = label)) as [Heq|Hne].
  - rewrite decide_False by lia. apply tally_not_a_number.
    unfold count_severity. rewrite Heq, lookup_insert_eq, Hk. reflexivity.
  - apply IH. unfold count_severity. rewrite lookup_insert_ne by exact Hne. exact Hk.
Qed.

End Tally.

(** X25.  The severity distribution counts the results of the severities
    ['high'], ['medium'] and ['low'].  A severity that is not one of these
    three keys, as ['critical'] is, gets no count: its entry is [NaN] as
    soon as one result has it. *)
Theorem calculateSeverityDistribution_counts (results : gmap string CategoryScore)
    (label : string) :
  calculateSeverityDistribution results !! label
  = if bool_decide (label ∈ ["high"; "medium"; "low"])
    then Some (of_nat (tally severity label (map_to_list results).*2))
    else if decide (tally severity label (map_to_list results).*2 = 0%nat) then None
         else Some NaN.
Proof.
  unfold calculateSeverityDistribution.
  change (foldl _ ?d ?l) with (foldl (count_severity severity) d l).
  case_bool_decide as Hin.
  - rewrite (tally_counted severity label _ _ 0); [reflexivity|].
    repeat (apply elem_of_cons in Hin as [->|Hin]; [reflexivity|]). inversion Hin.
  - apply tally_uncounted.
    apply not_elem_of_list_to_map_1. exact Hin.
Qed.

(** A result of the severity ['critical'], which [calculateSeverity] gives
    to the scores from 0.9 on. *)
Example critical_is_not_counted :
  calculateSeverity (9 # 10) = "critical"
  /\ calculateSeverityDistribution
       {["gender" := {| score := 9 # 10; instances := []; severity := "critical" |}]}
     = list_to_map [("high", Fin 0); ("medium", Fin 0); ("low", Fin 0); ("critical", NaN)].
Proof. split; vm_compute; reflexivity. Qed.
End ScanFacts.

(** ** biasDetectionSystem.js: start-up *)
Module Startup.
Import JS BiasDetectionSystem.

(** [this.modelConfig], with the [categories] that the first statement of
    [initialize] adds to its parameters. *)
Definition modelConfig : value :=
  VObj (list_to_map
    [("version", VStr "2.0.0");
     ("parameters", VObj (list_to_map
        [("threshold", VNum (Fin (75 # 100)));
         ("sensitivityLevel", VStr "high");
         ("adaptiveThreshold", VBool true);
         ("contextAware", VBool true);
         ("multilingualSupport", VBool true);
         ("categories", VArr (VStr <$> biasCategories))]));
     ("performance", VObj (list_to_map
        [("maxProcessingTime", VNum (Fin 100));
         ("batchSize", VNum (Fin 1000));
         ("cacheSize", VNum (Fin 50))]))]).

(** [modelManager.initializeModel(this.modelId, this.modelConfig)]: the
    report is not looked at. *)
Definition initializeModel (fetched : MLModelManager.FetchOutcome) (now : string)
  : action unit :=
  fun w =>
    let '(manager, _) :=
      MLModelManager.initializeModel fetched now modelId modelConfig (modelManager w) in
    Done tt {| privacySettings := privacySettings w;
               modelManager := manager;
               steps := steps w |}.

Section Initialize.

(** [initialize] calls three methods that [declared_methods] does not
    have.  What their bodies would be is left open. *)
Variable validateModel : completion unit.
Variable setupPerformanceMonitoring : completion unit.
Variable handleModelFailover : completion unit.

(** The [catch] block calls [this.handleModelFailover()]; what it throws
    is the rejection of the promise [initialize] returns. *)
Definition initialize (fetched : MLModelManager.FetchOutcome) (now : string)
  : action unit :=
  fun w =>
    match (_ <- initializeModel fetched now ;;
           _ <- this_call "validateModel" (of_run (of_completion validateModel)) ;;
           this_call "setupPerformanceMonitoring"
             (of_run (of_completion setupPerformanceMonitoring))) w with
    | Raised _ w' =>
        this_call "handleModelFailover" (of_run (of_completion handleModelFailover)) w'
    | other => other
    end.

(** X26. [initialize] always ends in a rejection, and always after the
    model was registered.  The call of [this.validateModel], which the
    class does not have, sends it to the [catch] block, where the call of
    [this.handleModelFailover], which it does not have either, throws.
    The registry by then holds the model under ['bias-detection-v2'], with the
    configuration's own version ['2.0.0'] in the model entry and the
    manager's ['1.0.0'] in the metadata, and with the fallback data when
    the fetch failed; the privacy settings are untouched. *)
Theorem initialize_registers_then_rejects fetched now w :
  exists w' model,
    initialize fetched now w = Raised "this.handleModelFailover is not a function" w'
    /\ privacySettings w' = privacySettings w
    /\ steps w' = steps w
    /\ MLModelManager.models (modelManager w') !! modelId = Some (VObj model)
    /\ model !! "version" = Some (VStr "2.0.0")
    /\ (MLModelManager.fetch_failed fetched = true ->
        exists data, model !! "data" = Some (VObj data)
                     /\ data !! "fallbackMode" = Some (VBool true))
    /\ MLModelManager.getVersionHistory modelId (modelManager w')
       = Success {| MLModelManager.currentVersion := "1.0.0";
                    MLModelManager.history_lastUpdated := now;
                    MLModelManager.history_performance := ∅ |}.
Proof.
  unfold initialize, then_action, initializeModel.
  destruct fetched as [message|statusText|message|body];
    (eexists; eexists; split; [reflexivity|]);
    cbn [privacySettings steps modelManager];
    (split; [reflexivity|]); (split; [reflexivity|]);
    (split; [cbn [MLModelManager.models]; apply lookup_insert_eq|]);
    (split; [vm_compute; reflexivity|]);
    (split; [try discriminate; intros _; eexists; split; vm_compute; reflexivity|]);
    unfold MLModelManager.getVersionHistory; cbn [MLModelManager.modelMetadata];
    rewrite lookup_insert_eq; reflexivity.
Qed.

(** X27. The metrics of an analysis are kept only for a model that has
    been initialized.  As long as the registry has no metadata for
    ['bias-detection-v2'], [trackAnalysisMetrics] leaves it unchanged: the
    failure that [trackPerformance] reports is not looked at.  After
    [initialize], rejection and all, the metrics are in the history, under
    the timestamp of the tracking. *)
Theorem metrics_are_kept_only_after_initialize fetched now timestamp tracked_at
    (results : gmap string CategoryScore) w :
  (MLModelManager.modelMetadata (modelManager w) !! modelId = None ->
   trackAnalysisMetrics timestamp tracked_at results w
   = Done tt (record_steps [PrivacyHandler.TrackPerformance] w))
  /\ exists w1 w2,
       initialize fetched now w = Raised "this.handleModelFailover is not a function" w1
       /\ trackAnalysisMetrics timestamp tracked_at results w1 = Done tt w2
       /\ MLModelManager.getVersionHistory modelId (modelManager w2)
          = Success {| MLModelManager.currentVersion := "1.0.0";
                       MLModelManager.history_lastUpdated := now;
                       MLModelManager.history_performance :=
                         {[tracked_at := analysis_metrics timestamp results]} |}.
Proof.
  split.
  - intros Hnone. unfold trackAnalysisMetrics, MLModelManager.trackPerformance.
    rewrite Hnone. destruct w as [settings [models metadata] taken]. reflexivity.
  - unfold initialize, then_action, initializeModel, trackAnalysisMetrics,
      MLModelManager.trackPerformance.
    destruct fetched as [message|statusText|message|body];
      (eexists; eexists; split; [reflexivity|]);
      cbn [privacySettings steps modelManager MLModelManager.modelMetadata];
      rewrite lookup_insert_eq; (split; [reflexivity|]);
      unfold MLModelManager.getVersionHistory;
      cbn [modelManager MLModelManager.modelMetadata];
      rewrite lookup_insert_eq; reflexivity.
Qed.

End Initialize.
End Startup.

(** ** intersectionalAnalysis.js *)
Module IntersectionalAnalysis.
Import JS ScanFacts.

Definition intersectionCategories : list (string * string) :=
  [("gender", "race"); ("gender", "age"); ("race", "disability");
   ("gender", "socioeconomic"); ("disability", "age"); ("race", "religion");
   ("nationality", "religion"); ("language", "cultural")].

Definition intersectionWeights : gmap string Q :=
  list_to_map
    [("gender_race", 12 # 10); ("gender_age", 11 # 10); ("race_disability", 115 # 100);
     ("gender_socioeconomic", 11 # 10); ("disability_age", 115 # 100);
     ("race_religion", 11 # 10); ("nationality_religion", 11 # 10);
     ("language_cultural", 105 # 100)].

(** [this.intersectionWeights[intersectionKey]] as a factor: a key that
    has no weight gives [undefined], which multiplies to [NaN]. *)
Definition weight_of (intersectionKey : string) : number :=
  match intersectionWeights !! intersectionKey with
  | Some weight => Fin weight
  | None => NaN
  end.

Definition areInstancesOverlapping (instance1 instance2 : BiasDetectionSystem.BiasInstance)
  : bool :=
  let contextOverlap := 100%Z in
  let start1 := Z.of_nat (BiasDetectionSystem.index instance1) in
  let end1 := (Z.of_nat (BiasDetectionSystem.index instance1)
               + Z.of_nat (String.length (BiasDetectionSystem.text instance1)))%Z in
  let start2 := Z.of_nat (BiasDetectionSystem.index instance2) in
  let end2 := (Z.of_nat (BiasDetectionSystem.index instance2)
               + Z.of_nat (String.length (BiasDetectionSystem.text instance2)))%Z in
  (Z.abs (start1 - start2) <? contextOverlap)%Z
  || (Z.abs (end1 - end2) <? contextOverlap)%Z.

(** The two nested loops: the first instance is pushed once for every
    instance of the second array it overlaps. *)
Definition findOverlappingInstances
    (instances1 instances2 : list BiasDetectionSystem.BiasInstance)
  : list BiasDetectionSystem.BiasInstance :=
  flat_map (fun instance1 =>
    flat_map (fun instance2 =>
      if areInstancesOverlapping instance1 instance2
      then [{| BiasDetectionSystem.text := BiasDetectionSystem.text instance1;
               BiasDetectionSystem.context := BiasDetectionSystem.context instance1;
               BiasDetectionSystem.index := BiasDetectionSystem.index instance1 |}]
      else [])
      instances2)
    instances1.

Definition calculateIntersectionSeverity (score : number) : string :=
  if nle (Fin 1) score then "critical"
  else if nle (Fin (8 # 10)) score then "high"
  else if nle (Fin (5 # 10)) score then "medium"
  else "low".

Record CategorySummary := {
  category_score : Q;
  category_severity : string
}.

Record IntersectionScore := {
  score : number;
  overlappingInstances : list BiasDetectionSystem.BiasInstance;
  severity : string;
  category1 : CategorySummary;
  category2 : CategorySummary
}.

Definition calculateIntersectionScore (result1 result2 : BiasDetectionSystem.CategoryScore)
    (weight : number) : IntersectionScore :=
  let overlappingInstances :=
    findOverlappingInstances (BiasDetectionSystem.instances result1)
                             (BiasDetectionSystem.instances result2) in
  let baseScore :=
    ndiv (nadd (Fin (BiasDetectionSystem.score result1))
               (Fin (BiasDetectionSystem.score result2)))
         (Fin 2) in
  let weightedScore := nmul baseScore weight in
  {| score := weightedScore;
     overlappingInstances := overlappingInstances;
     severity := calculateIntersectionSeverity weightedScore;
     category1 := {| category_score := BiasDetectionSystem.score result1;
                     category_severity := BiasDetectionSystem.severity result1 |};
     category2 := {| category_score := BiasDetectionSystem.score result2;
                     category_severity := BiasDetectionSystem.severity result2 |} |}.

(** [distribution[pattern.severity]++] over the values of the patterns. *)
Definition calculateSeverityDistribution (patterns : list (string * IntersectionScore))
  : gmap string number :=
  foldl (fun (distribution : gmap string number) pattern =>
           <[severity pattern :=
               nadd (default NaN (distribution !! severity pattern)) (Fin 1)]>
             distribution)
        (list_to_map [("critical", Fin 0); ("high", Fin 0); ("medium", Fin 0);
                      ("low", Fin 0)])
        patterns.*2.

Record Summary := {
  totalPatterns : nat;
  criticalIntersections : list string;
  highPriorityIntersections : list string;
  severityDistribution : gmap string number
}.

Definition generateIntersectionalSummary (patterns : list (string * IntersectionScore))
  : Summary :=
  let criticalPatterns :=
    (filter (fun entry => severity entry.2 = "critical") patterns).*1 in
  let highPatterns :=
    (filter (fun entry => severity entry.2 = "high") patterns).*1 in
  {| totalPatterns := length patterns;
     criticalIntersections := criticalPatterns;
     highPriorityIntersections := highPatterns;
     severityDistribution := calculateSeverityDistribution patterns |}.

Definition recommendationsMap : gmap string (list string) :=
  list_to_map
    [("gender_race",
      ["Consider diverse representation across both gender and racial dimensions";
       "Examine power dynamics and privilege in intersectional contexts";
       "Include perspectives from individuals with varied gender and racial identities"]);
     ("race_disability",
      ["Address compounded barriers faced by individuals with disabilities from different racial backgrounds";
       "Consider cultural differences in disability perspectives";
       "Ensure accessibility solutions are culturally appropriate"]);
     ("gender_age",
      ["Consider how gender biases may differ across age groups";
       "Address stereotypes that combine age and gender assumptions";
       "Include diverse age representations within gender discussions"])].

Definition getIntersectionRecommendations (category1 category2 : string) : list string :=
  let key := category1 ++ "_" ++ category2 in
  default ["Review content for combined impact of multiple bias categories";
           "Consider how different aspects of identity interact";
           "Seek feedback from individuals with intersecting identities"]
          (recommendationsMap !! key).

Record Recommendation := {
  intersection : string;
  recommendation_severity : string;
  suggestions : list string
}.

(** [const [category1, category2] = intersection.split('_')]: a part that
    is missing is [undefined], which the template prints as such. *)
Definition generateIntersectionalRecommendations
    (patterns : list (string * IntersectionScore)) : list Recommendation :=
  foldl (fun recommendations '(intersection, pattern) =>
           if String.eqb (severity pattern) "critical"
              || String.eqb (severity pattern) "high"
           then
             let parts := split "_" intersection in
             let category1 := default "undefined" (parts !! 0%nat) in
             let category2 := default "undefined" (parts !! 1%nat) in
             (recommendations ++
                [{| intersection := intersection;
                    recommendation_severity := severity pattern;
                    suggestions := getIntersectionRecommendations category1 category2 |}])%list
           else recommendations)
        [] patterns.

Record Analysis := {
  patterns : list (string * IntersectionScore);
  summary : Summary;
  recommendations : list Recommendation
}.

(** The patterns in the order they are added.  The eight keys differ, so
    no assignment replaces an earlier one. *)
Definition analyzeIntersections (biasResults : gmap string BiasDetectionSystem.CategoryScore)
  : Analysis :=
  let intersectionalPatterns :=
    foldl (fun intersectionalPatterns '(category1, category2) =>
             match biasResults !! category1, biasResults !! category2 with
             | Some result1, Some result2 =>
                 let intersectionKey := category1 ++ "_" ++ category2 in
                 let intersectionScore :=
                   calculateIntersectionScore result1 result2 (weight_of intersectionKey) in
                 if ngt (score intersectionScore) (Fin 0)
                 then (intersectionalPatterns ++ [(intersectionKey, intersectionScore)])%list
                 else intersectionalPatterns
             | _, _ => intersectionalPatterns
             end)
          [] intersectionCategories in
  {| patterns := intersectionalPatterns;
     summary := generateIntersectionalSummary intersectionalPatterns;
     recommendations := generateIntersectionalRecommendations intersectionalPatterns |}.


(** *** The patterns *)

(** What one configured pair contributes. *)
Definition intersection_entry (biasResults : gmap string BiasDetectionSystem.CategoryScore)
    (pair : string * string) : option (string * IntersectionScore) :=
  match biasResults !! pair.1, biasResults !! pair.2 with
  | Some result1, Some result2 =>
      let intersectionKey := pair.1 ++ "_" ++ pair.2 in
      let intersectionScore :=
        calculateIntersectionScore result1 result2 (weight_of intersectionKey) in
      if ngt (score intersectionScore) (Fin 0)
      then Some (intersectionKey, intersectionScore) else None
  | _, _ => None
  end.

Lemma patterns_by_pair biasResults :
  patterns (analyzeIntersections biasResults)
  = omap (intersection_entry biasResults) intersectionCategories.
Proof.
  unfold analyzeIntersections. cbn [patterns].
  match goal with |- foldl ?f [] _ = _ => set (add := f) end.
  assert (H : forall pairs acc,
            foldl add acc pairs = (acc ++ omap (intersection_entry biasResults) pairs)%list).
  { induction pairs as [|[c1 c2] rest IH]; intros acc.
    - cbn. rewrite app_nil_r. reflexivity.
    - cbn [foldl omap list_omap]. rewrite IH. subst add.
      unfold intersection_entry at 2. cbn [fst snd].
      destruct (biasResults !! c1) as [result1|]; [|reflexivity].
      destruct (biasResults !! c2) as [result2|]; [|reflexivity].
      destruct (ngt _ _); [|reflexivity].
      rewrite <- app_assoc. reflexivity. }
  apply H.
Qed.

Lemma configured_weight c1 c2 :
  (c1, c2) ∈ intersectionCategories ->
  exists weight, weight_of (c1 ++ "_" ++ c2) = Fin weight
                 /\ (105 # 100 <= weight)%Q /\ (weight <= 12 # 10)%Q.
Proof.
  unfold intersectionCategories. intros Hin.
  repeat (apply elem_of_cons in Hin as [Hin|Hin];
          [injection Hin as -> ->; eexists; split; [reflexivity|];
           split; vm_compute; discriminate|]).
  inversion Hin.
Qed.

Lemma weighted_score result1 result2 weight :
  score (calculateIntersectionScore result1 result2 (Fin weight))
  = Fin ((BiasDetectionSystem.score result1 + BiasDetectionSystem.score result2) / 2
         * weight).
Proof. reflexivity. Qed.

Lemma weighted_score_positive (score1 score2 weight : Q) :
  (105 # 100 <= weight)%Q ->
  Qlt_bool 0 ((score1 + score2) / 2 * weight) = true <-> (0 < score1 + score2)%Q.
Proof.
  intros Hw. rewrite BiasDetection.Qlt_bool_iff.
  assert (Heq : ((score1 + score2) / 2 * weight
                 == (score1 + score2) * (weight * (1 # 2)))%Q) by field.
  rewrite Heq.
  assert (Hhalf : (0 < weight * (1 # 2))%Q) by lra.
  generalize dependent (weight * (1 # 2))%Q. intros half _ Hhalf.
  generalize (score1 + score2)%Q. intros total. split; intros H.
  - destruct (Qlt_le_dec 0 total) as [|Hle]; [assumption|]. exfalso.
    assert (H1 : (0 <= (0 - total) * half)%Q) by (apply Qmult_le_0_compat; lra).
    assert (H2 : ((0 - total) * half == - (total * half))%Q) by ring.
    rewrite H2 in H1. lra.
  - apply Qmult_lt_0_compat; assumption.
Qed.

(** X28. The patterns of an analysis are exactly these: for each of the
    eight configured pairs whose two categories both have a result and
    whose scores add up to more than 0, one pattern under the key
    [category1_category2], with the mean of the two scores times the
    weight of the pair as its score.  No other key appears, and a pair
    with a missing category or with a sum of scores of 0 or less gives
    none. *)
Theorem analyzeIntersections_patterns
    (biasResults : gmap string BiasDetectionSystem.CategoryScore)
    (key : string) (pattern : IntersectionScore) :
  (key, pattern) ∈ patterns (analyzeIntersections biasResults)
  <-> exists category1 category2 result1 result2 weight,
        (category1, category2) ∈ intersectionCategories
        /\ key = category1 ++ "_" ++ category2
        /\ biasResults !! category1 = Some result1
        /\ biasResults !! category2 = Some result2
        /\ intersectionWeights !! key = Some weight
        /\ (0 < BiasDetectionSystem.score result1 + BiasDetectionSystem.score result2)%Q
        /\ pattern = calculateIntersectionScore result1 result2 (Fin weight)
        /\ score pattern
           = Fin ((BiasDetectionSystem.score result1 + BiasDetectionSystem.score result2) / 2
                  * weight).
Proof.
  rewrite patterns_by_pair, list_elem_of_omap. split.
  - intros ([c1 c2] & Hin & Hentry). unfold intersection_entry in Hentry. cbn [fst snd] in Hentry.
    destruct (biasResults !! c1) as [result1|] eqn:E1; [|discriminate].
    destruct (biasResults !! c2) as [result2|] eqn:E2; [|discriminate].
    destruct (configured_weight c1 c2 Hin) as (weight & Hw & Hlow & _).
    rewrite Hw in Hentry. rewrite weighted_score in Hentry.
    destruct (ngt _ _) eqn:Hpos; [|discriminate]. injection Hentry as <- <-.
    exists c1, c2, result1, result2, weight.
    split; [exact Hin|]. split; [reflexivity|]. split; [exact E1|]. split; [exact E2|].
    split; [unfold weight_of in Hw; destruct (intersectionWeights !! _); congruence|].
    split; [apply (weighted_score_positive _ _ weight Hlow); exact Hpos|].
    split; reflexivity.
  - intros (c1 & c2 & result1 & result2 & weight & Hin & -> & E1 & E2 & Hw & Hpos & -> & _).
    exists (c1, c2). split; [exact Hin|].
    unfold intersection_entry. cbn [fst snd]. rewrite E1, E2.
    unfold weight_of. rewrite Hw. rewrite weighted_score.
    destruct (configured_weight c1 c2 Hin) as (weight' & Hw' & Hlow & _).
    unfold weight_of in Hw'. rewrite Hw in Hw'. injection Hw' as <-.
    unfold ngt, nlt. rewrite (proj2 (weighted_score_positive _ _ weight Hlow) Hpos).
    reflexivity.
Qed.

(** *** The recommendations *)

Definition recommendation_of (entry : string * IntersectionScore) : option Recommendation :=
  if String.eqb (severity entry.2) "critical" || String.eqb (severity entry.2) "high"
  then
    let parts := split "_" entry.1 in
    Some {| intersection := entry.1;
            recommendation_severity := severity entry.2;
            suggestions :=
              getIntersectionRecommendations (default "undefined" (parts !! 0%nat))
                                             (default "undefined" (parts !! 1%nat)) |}
  else None.

Lemma recommendations_by_pattern patterns :
  generateIntersectionalRecommendations patterns = omap recommendation_of patterns.
Proof.
  unfold generateIntersectionalRecommendations.
  match goal with |- foldl ?f [] _ = _ => set (add := f) end.
  assert (H : forall entries acc,
            foldl add acc entries = (acc ++ omap recommendation_of entries)%list).
  { induction entries as [|[key pattern] rest IH]; intros acc.
    - cbn. rewrite app_nil_r. reflexivity.
    - cbn [foldl omap list_omap]. rewrite IH. subst add.
      unfold recommendation_of at 2. cbn [fst snd].
      destruct (_ || _); [|reflexivity]. rewrite <- app_assoc. reflexivity. }
  apply H.
Qed.

(** Splitting a configured key at the underscore gives back the two
    categories. *)
Lemma configured_key_splits c1 c2 :
  (c1, c2) ∈ intersectionCategories -> split "_" (c1 ++ "_" ++ c2) = [c1; c2].
Proof.
  unfold intersectionCategories. intros Hin.
  repeat (apply elem_of_cons in Hin as [Hin|Hin]; [injection Hin as -> ->; reflexivity|]).
  inversion Hin.
Qed.

(** X29. There is a recommendation exactly for each pattern of the
    severity ['critical'] or ['high'], and none for the others.  It
    carries the key and the severity of the pattern, and the suggestions
    of the pair: splitting the key at the underscore gives back the two
    categories it was made of. *)
Theorem recommendations_follow_patterns
    (biasResults : gmap string BiasDetectionSystem.CategoryScore)
    (recommendation : Recommendation) :
  recommendation ∈ recommendations (analyzeIntersections biasResults)
  <-> exists category1 category2 pattern,
        (category1, category2) ∈ intersectionCategories
        /\ (category1 ++ "_" ++ category2, pattern)
             ∈ patterns (analyzeIntersections biasResults)
        /\ (severity pattern = "critical" \/ severity pattern = "high")
        /\ recommendation
           = {| intersection := category1 ++ "_" ++ category2;
                recommendation_severity := severity pattern;
                suggestions := getIntersectionRecommendations category1 category2 |}.
Proof.
  unfold analyzeIntersections at 1. cbn [recommendations].
  change (foldl _ [] intersectionCategories)
    with (patterns (analyzeIntersections biasResults)).
  rewrite recommendations_by_pattern, list_elem_of_omap. split.
  - intros ([key pattern] & Hin & Hrec).
    pose proof Hin as Hin'. rewrite patterns_by_pair, list_elem_of_omap in Hin'.
    destruct Hin' as ([c1 c2] & Hpair & Hentry).
    assert (Hkey : key = c1 ++ "_" ++ c2).
    { unfold intersection_entry in Hentry. cbn [fst snd] in Hentry.
      destruct (biasResults !! c1); [|discriminate].
      destruct (biasResults !! c2); [|discriminate].
      destruct (ngt _ _); [|discriminate]. congruence. }
    subst key. exists c1, c2, pattern. split; [exact Hpair|]. split; [exact Hin|].
    unfold recommendation_of in Hrec. cbn [fst snd] in Hrec.
    rewrite (configured_key_splits c1 c2 Hpair) in Hrec. cbn in Hrec.
    destruct (String.eqb (severity pattern) "critical") eqn:Ec;
      destruct (String.eqb (severity pattern) "high") eqn:Eh;
      cbn in Hrec; try discriminate; injection Hrec as <-;
      (split; [|reflexivity]);
      try (left; apply String.eqb_eq; exact Ec); right; apply String.eqb_eq; exact Eh.
  - intros (c1 & c2 & pattern & Hpair & Hin & Hsev & ->).
    exists (c1 ++ "_" ++ c2, pattern). split; [exact Hin|].
    unfold recommendation_of. cbn [fst snd].
    rewrite (configured_key_splits c1 c2 Hpair). cbn [lookup list_lookup default].
    destruct Hsev as [-> | ->]; reflexivity.
Qed.

(** *** The summary *)

Definition severities : list string := ["critical"; "high"; "medium"; "low"].

(** Proves that a string is one of [severities]. *)
Ltac listed :=
  unfold severities;
  repeat first [apply list_elem_of_here | apply list_elem_of_further].

Lemma calculateIntersectionSeverity_label score :
  calculateIntersectionSeverity score ∈ severities.
Proof.
  unfold calculateIntersectionSeverity.
  destruct (nle (Fin 1) score); [listed|].
  destruct (nle (Fin (8 # 10)) score); [listed|].
  destruct (nle (Fin (5 # 10)) score); listed.
Qed.

Lemma pattern_severity biasResults entry :
  entry ∈ patterns (analyzeIntersections biasResults) -> severity entry.2 ∈ severities.
Proof.
  rewrite patterns_by_pair, list_elem_of_omap. intros ([c1 c2] & _ & Hentry).
  unfold intersection_entry in Hentry. cbn [fst snd] in Hentry.
  destruct (biasResults !! c1); [|discriminate].
  destruct (biasResults !! c2); [|discriminate].
  destruct (ngt _ _); [|discriminate]. injection Hentry as <-.
  apply calculateIntersectionSeverity_label.
Qed.

Lemma tally_partition {A} (severity_of : A -> string) (results : list A) :
  (forall result, result ∈ results -> severity_of result ∈ severities) ->
  (tally severity_of "critical" results + tally severity_of "high" results
   + tally severity_of "medium" results + tally severity_of "low" results)%nat
  = length results.
Proof.
  induction results as [|result results IH]; intros Hall; [reflexivity|].
  rewrite !tally_cons. cbn [length].
  rewrite <- IH by (intros x Hx; apply Hall; right; exact Hx).
  assert (Hin : severity_of result ∈ severities) by (apply Hall; left).
  unfold severities in Hin.
  repeat (apply elem_of_cons in Hin as [->|Hin];
          [repeat case_decide; try congruence; lia|]).
  inversion Hin.
Qed.

Lemma keys_of_severity label (entries : list (string * IntersectionScore)) :
  length (filter (fun entry => severity entry.2 = label) entries).*1
  = tally severity label entries.*2.
Proof.
  rewrite length_fmap. unfold tally.
  induction entries as [|entry entries IH]; [reflexivity|].
  cbn [fmap list_fmap]. rewrite !filter_cons. cbn [snd].
  destruct (decide (severity entry.2 = label)); cbn [length]; rewrite IH; reflexivity.
Qed.

Lemma recommendations_counted (entries : list (string * IntersectionScore)) :
  length (omap recommendation_of entries)
  = (tally severity "critical" entries.*2 + tally severity "high" entries.*2)%nat.
Proof.
  induction entries as [|entry entries IH]; [reflexivity|].
  cbn [omap list_omap fmap list_fmap]. rewrite !tally_cons.
  unfold recommendation_of at 1.
  destruct (String.eqb (severity entry.2) "critical") eqn:Ec.
  - apply String.eqb_eq in Ec. rewrite Ec. cbn [orb length].
    rewrite decide_True by reflexivity. rewrite decide_False by discriminate.
    rewrite IH. lia.
  - apply String.eqb_neq in Ec. rewrite (decide_False (P := _ = "critical")) by exact Ec.
    destruct (String.eqb (severity entry.2) "high") eqn:Eh; cbn [orb].
    + apply String.eqb_eq in Eh. rewrite decide_True by exact Eh. cbn [length].
      rewrite IH. lia.
    + apply String.eqb_neq in Eh. rewrite decide_False by exact Eh. exact IH.
Qed.

Lemma omap_at_most {A B} (f : A -> option B) (l : list A) :
  (length (omap f l) <= length l)%nat.
Proof.
  induction l as [|x l IH]; [reflexivity|].
  cbn [omap list_omap length]. destruct (f x); cbn [length]; lia.
Qed.

(** X30. The summary agrees with the patterns.  [totalPatterns] is
    their number, at most 8; the counts of ['critical'] and ['high'] in the
    severity distribution are the lengths of the two lists of keys; their
    sum is the number of recommendations; and the four counts of the
    distribution add up to [totalPatterns], every pattern having one of
    the four severities. *)
Theorem summary_counts_patterns
    (biasResults : gmap string BiasDetectionSystem.CategoryScore) :
  let analysis := analyzeIntersections biasResults in
  let distribution := severityDistribution (summary analysis) in
  totalPatterns (summary analysis) = length (patterns analysis)
  /\ (totalPatterns (summary analysis) <= 8)%nat
  /\ distribution !! "critical"
     = Some (of_nat (length (criticalIntersections (summary analysis))))
  /\ distribution !! "high"
     = Some (of_nat (length (highPriorityIntersections (summary analysis))))
  /\ length (recommendations analysis)
     = (length (criticalIntersections (summary analysis))
        + length (highPriorityIntersections (summary analysis)))%nat
  /\ exists medium low,
       distribution !! "medium" = Some (of_nat medium)
       /\ distribution !! "low" = Some (of_nat low)
       /\ (length (criticalIntersections (summary analysis))
           + length (highPriorityIntersections (summary analysis))
           + medium + low)%nat
          = totalPatterns (summary analysis).
Proof.
  intros analysis distribution.
  assert (Hdist : forall label, label ∈ severities ->
            distribution !! label
            = Some (of_nat (tally severity label (patterns analysis).*2))).
  { intros label Hin. subst distribution analysis.
    unfold analyzeIntersections. cbn [summary patterns].
    unfold generateIntersectionalSummary. cbn [severityDistribution].
    unfold calculateSeverityDistribution.
    match goal with
    | |- context [foldl ?f (list_to_map ?start) ?l] =>
        change (foldl f (list_to_map start) l)
          with (foldl (count_severity severity) (list_to_map start) l)
    end.
    rewrite (tally_counted severity label _ _ 0); [reflexivity|].
    unfold severities in Hin.
    repeat (apply elem_of_cons in Hin as [->|Hin]; [reflexivity|]). inversion Hin. }
  assert (Hcrit : length (criticalIntersections (summary analysis))
                  = tally severity "critical" (patterns analysis).*2)
    by apply keys_of_severity.
  assert (Hhigh : length (highPriorityIntersections (summary analysis))
                  = tally severity "high" (patterns analysis).*2)
    by apply keys_of_severity.
  split; [reflexivity|]. split.
  { change (totalPatterns (summary analysis)) with (length (patterns analysis)).
    subst analysis. rewrite patterns_by_pair.
    etransitivity; [apply omap_at_most|]. reflexivity. }
  rewrite Hcrit, Hhigh.
  split; [exact (Hdist "critical" ltac:(listed))|].
  split; [exact (Hdist "high" ltac:(listed))|].
  split.
  { subst analysis. unfold analyzeIntersections at 1. cbn [recommendations].
    change (foldl _ [] intersectionCategories)
      with (patterns (analyzeIntersections biasResults)).
    rewrite recommendations_by_pattern. apply recommendations_counted. }
  exists (tally severity "medium" (patterns analysis).*2),
         (tally severity "low" (patterns analysis).*2).
  split; [exact (Hdist "medium" ltac:(listed))|].
  split; [exact (Hdist "low" ltac:(listed))|].
  change (totalPatterns (summary analysis)) with (length (patterns analysis)).
  rewrite <- (length_fmap snd (patterns analysis)).
  apply tally_partition. intros result Hin.
  apply list_elem_of_fmap in Hin as (entry & -> & Hin).
  apply (pattern_severity biasResults entry Hin).
Qed.

(** Two categories with results: one pattern, of the severity ['high'],
    with the recommendations written for the pair. *)
Example gender_and_race :
  let biasResults : gmap string BiasDetectionSystem.CategoryScore :=
    list_to_map
      [("gender", {| BiasDetectionSystem.score := 8 # 10;
                     BiasDetectionSystem.instances := [];
                     BiasDetectionSystem.severity := "high" |});
       ("race", {| BiasDetectionSystem.score := 6 # 10;
                   BiasDetectionSystem.instances := [];
                   BiasDetectionSystem.severity := "medium" |})] in
  (patterns (analyzeIntersections biasResults)).*1 = ["gender_race"]
  /\ severity <$> (patterns (analyzeIntersections biasResults)).*2 = ["high"]
  /\ intersection <$> recommendations (analyzeIntersections biasResults) = ["gender_race"]
  /\ suggestions <$> recommendations (analyzeIntersections biasResults)
     = [["Consider diverse representation across both gender and racial dimensions";
         "Examine power dynamics and privilege in intersectional contexts";
         "Include perspectives from individuals with varied gender and racial identities"]].
Proof. repeat split; vm_compute; reflexivity. Qed.

End IntersectionalAnalysis.
